(** * whatsapp-agent: the content pipeline of SchoolChatSummarizer

    A shallow embedding of the three core modules of the repository and of
    the class that runs them,

    - [src/modules/filter/MessageFilter.ts]      (module [MessageFilter]),
    - [src/modules/extractor/ContentExtractor.ts] and [patterns.ts]
                                                  (modules [Patterns], [ContentExtractor]),
    - [src/modules/classifier/ContentClassifier.ts] (module [ContentClassifier]),
    - [src/SchoolChatSummarizer.ts]              (module [SchoolChatSummarizer]),

    together with the parts of the JavaScript run time they rest on: strings
    as sequences of UTF-16 code units, regular expressions (a backtracking
    matcher in the style of the ECMAScript specification), IEEE-754 doubles
    (round to nearest, ties to even), and the day and time arithmetic of
    [Date].

    Conventions.  The wall clock ([new Date()]) is an explicit argument
    [now].  The local time zone is UTC, so that the local getters of [Date]
    and its multi-argument constructor work on the same time line as the
    ISO strings of the filter.  Dynamic JavaScript values, where the code
    inspects them ([typeof], [Array.isArray], truthiness), are terms of
    [jsval]. *)

From Stdlib Require Import ZArith NArith QArith Qround Qpower SpecFloat.
From Stdlib Require Import List String Ascii Bool Lia Lqa Sorted.
From stdpp Require Import gmap.
Import ListNotations.

Set Default Proof Using "Type".

(* ===================================================================== *)
(** ** JavaScript strings *)
(* ===================================================================== *)

Module JSString.

(** A string is its sequence of UTF-16 code units. *)
Definition str := list N.

Fixpoint bytes_of (s : string) : list N :=
  match s with
  | EmptyString => []
  | String a r => N_of_ascii a :: bytes_of r
  end.

(** The literals of this file are UTF-8 text; [utf8_decode] turns their
    bytes into UTF-16 code units (a surrogate pair above the BMP). *)
Fixpoint utf8_decode (bs : list N) : str :=
  match bs with
  | [] => []
  | b0 :: r0 =>
    if (b0 <? 192)%N then b0 :: utf8_decode r0
    else if (b0 <? 224)%N then
      match r0 with
      | b1 :: r1 => ((b0 mod 32) * 64 + b1 mod 64)%N :: utf8_decode r1
      | [] => [b0]
      end
    else if (b0 <? 240)%N then
      match r0 with
      | b1 :: b2 :: r2 =>
        ((b0 mod 16) * 4096 + (b1 mod 64) * 64 + b2 mod 64)%N :: utf8_decode r2
      | _ => b0 :: r0
      end
    else
      match r0 with
      | b1 :: b2 :: b3 :: r3 =>
        let cp := ((b0 mod 8) * 262144 + (b1 mod 64) * 4096
                   + (b2 mod 64) * 64 + b3 mod 64 - 65536)%N in
        (55296 + cp / 1024)%N :: (56320 + cp mod 1024)%N :: utf8_decode r3
      | _ => b0 :: r0
      end
  end.

Definition js (s : string) : str := utf8_decode (bytes_of s).

Fixpoint str_eqb (a b : str) : bool :=
  match a, b with
  | [], [] => true
  | x :: a', y :: b' => (x =? y)%N && str_eqb a' b'
  | _, _ => false
  end.

Fixpoint startsWith (s p : str) : bool :=
  match p, s with
  | [], _ => true
  | y :: p', x :: s' => (x =? y)%N && startsWith s' p'
  | _ :: _, [] => false
  end.

(** [String.prototype.includes] *)
Fixpoint includes (s sub : str) : bool :=
  startsWith s sub ||
  match s with
  | [] => false
  | _ :: s' => includes s' sub
  end.

Definition substring (s : str) (from to : nat) : str :=
  firstn (to - from) (skipn from s).

(** [String.prototype.toLowerCase].  Only the letters A-Z are mapped.  The
    code lower-cases (1) matches of the relative and textual date patterns,
    which consist of ASCII, Hebrew and white space, where this is the whole
    of the Unicode mapping, and (2) the words tested against [STOP_WORDS]:
    no stop word contains a letter that is the lower case of a character
    outside A-Z, so membership is not affected either. *)
Definition lower_unit (c : N) : N :=
  if (65 <=? c)%N && (c <=? 90)%N then (c + 32)%N else c.

Definition upper_unit (c : N) : N :=
  if (97 <=? c)%N && (c <=? 122)%N then (c - 32)%N else c.

Definition toLowerCase (s : str) : str := map lower_unit s.

Definition in_ranges (rs : list (N * N)) (c : N) : bool :=
  existsb (fun r => (fst r <=? c)%N && (c <=? snd r)%N) rs.

(** WhiteSpace and LineTerminator of ECMAScript: the class [\s], and what
    [trim] removes. *)
Definition ws_ranges : list (N * N) :=
  [(9, 13); (32, 32); (160, 160); (5760, 5760); (8192, 8202); (8232, 8233);
   (8239, 8239); (8287, 8287); (12288, 12288); (65279, 65279)]%N.

Definition is_ws (c : N) : bool := in_ranges ws_ranges c.

Fixpoint trimStart (s : str) : str :=
  match s with
  | c :: s' => if is_ws c then trimStart s' else s
  | [] => []
  end.

Definition trim (s : str) : str := rev (trimStart (rev (trimStart s))).

Definition digit_ranges : list (N * N) := [(48, 57)]%N.
Definition word_ranges : list (N * N) := [(48, 57); (65, 90); (95, 95); (97, 122)]%N.

Definition is_digit (c : N) : bool := in_ranges digit_ranges c.

Definition digit_value (c : N) : option Z :=
  if (48 <=? c)%N && (c <=? 57)%N then Some (Z.of_N c - 48)%Z
  else if (97 <=? c)%N && (c <=? 122)%N then Some (Z.of_N c - 87)%Z
  else if (65 <=? c)%N && (c <=? 90)%N then Some (Z.of_N c - 55)%Z
  else None.

(** The value of the longest prefix of digits of the radix; [acc] is [None]
    as long as no digit was read. *)
Fixpoint int_prefix (radix : Z) (s : str) (acc : option Z) : option Z :=
  match s with
  | [] => acc
  | c :: s' =>
    match digit_value c with
    | Some v =>
      if (v <? radix)%Z
      then int_prefix radix s' (Some (match acc with Some a => a * radix + v | None => v end)%Z)
      else acc
    | None => acc
    end
  end.

(** [parseInt(s)] without a radix; [None] is NaN.  (The integers parsed
    here have at most a few digits, so the result is exact.) *)
Definition parseInt (s : str) : option Z :=
  let s1 := trimStart s in
  let '(neg, s2) :=
    match s1 with
    | 45%N :: r => (true, r)
    | 43%N :: r => (false, r)
    | _ => (false, s1)
    end in
  let v :=
    match s2 with
    | 48%N :: 120%N :: r => int_prefix 16 r None
    | 48%N :: 88%N :: r => int_prefix 16 r None
    | _ => int_prefix 10 s2 None
    end in
  match v with
  | Some n => Some (if neg then - n else n)%Z
  | None => None
  end.

End JSString.
Import JSString.

(* ===================================================================== *)
(** ** Regular expressions *)
(* ===================================================================== *)

Module RegExp.

Inductive regex : Type :=
| Empty
| Char (c : N)
| Class (neg : bool) (ranges : list (N * N))
| WordBoundary
| Bol
| Eol
| Seq (r1 r2 : regex)
| Alt (r1 r2 : regex)
| Repeat (lo : nat) (hi : option nat) (r : regex)
| Group (i : nat) (r : regex).

(** *** Pattern syntax *)

Definition presult : Type := option (regex * str * nat).

Fixpoint p_number (ts : str) (acc : nat) : nat * str :=
  match ts with
  | c :: ts' =>
    if is_digit c then p_number ts' (acc * 10 + (N.to_nat c - 48))%nat else (acc, ts)
  | [] => (acc, ts)
  end.

(** A quantifier after an atom: [?], [*], [+], [{n}], [{n,}], [{n,m}]
    (all greedy; the patterns of the repository use no lazy quantifier). *)
Definition p_quant (a : regex) (ts : str) : regex * str :=
  match ts with
  | 63 :: ts' => (Repeat 0 (Some 1%nat) a, ts')
  | 42 :: ts' => (Repeat 0 None a, ts')
  | 43 :: ts' => (Repeat 1 None a, ts')
  | 123 :: ts' =>
    let '(n, ts1) := p_number ts' 0%nat in
    match ts1 with
    | 125 :: ts2 => (Repeat n (Some n) a, ts2)
    | 44 :: 125 :: ts2 => (Repeat n None a, ts2)
    | 44 :: ts2 =>
      let '(m, ts3) := p_number ts2 0%nat in
      match ts3 with
      | 125 :: ts4 => (Repeat n (Some m) a, ts4)
      | _ => (a, ts)
      end
    | _ => (a, ts)
    end
  | _ => (a, ts)
  end%N.

(** The ranges denoted by an escape inside or outside a class. *)
Definition escape_ranges (c : N) : list (N * N) :=
  if (c =? 100)%N then digit_ranges
  else if (c =? 119)%N then word_ranges
  else if (c =? 115)%N then ws_ranges
  else if (c =? 110)%N then [(10, 10)]%N
  else if (c =? 116)%N then [(9, 9)]%N
  else [(c, c)].

(** The members of a character class, up to the closing bracket. *)
Fixpoint p_class (fuel : nat) (ts : str) (acc : list (N * N)) : option (list (N * N) * str) :=
  match fuel with
  | O => None
  | S f =>
    match ts with
    | [] => None
    | 93 :: ts' => Some (acc, ts')
    | 92 :: c :: ts' => p_class f ts' (acc ++ escape_ranges c)
    | c :: 45 :: 93 :: ts' => Some (acc ++ [(c, c); (45, 45)], ts')
    | c :: 45 :: d :: ts' => p_class f ts' (acc ++ [(c, d)])
    | c :: ts' => p_class f ts' (acc ++ [(c, c)])
    end
  end%N.

Definition p_escape (c : N) : regex :=
  if (c =? 98)%N then WordBoundary
  else match escape_ranges c with
       | [(a, b)] => if (a =? b)%N then Char a else Class false [(a, b)]
       | rs => Class false rs
       end.

(** Disjunction, alternative, term and atom of the ECMAScript pattern
    grammar; [g] is the number of capture groups opened so far. *)
Fixpoint p_alt (fuel : nat) (ts : str) (g : nat) : presult :=
  match fuel with
  | O => None
  | S f =>
    match p_seq f ts g with
    | Some (r1, 124%N :: ts1, g1) =>
      match p_alt f ts1 g1 with
      | Some (r2, ts2, g2) => Some (Alt r1 r2, ts2, g2)
      | None => None
      end
    | other => other
    end
  end
with p_seq (fuel : nat) (ts : str) (g : nat) : presult :=
  match fuel with
  | O => None
  | S f =>
    match ts with
    | [] => Some (Empty, ts, g)
    | 124%N :: _ => Some (Empty, ts, g)
    | 41%N :: _ => Some (Empty, ts, g)
    | _ =>
      match p_atom f ts g with
      | Some (a, ts1, g1) =>
        let '(t, ts2) := p_quant a ts1 in
        match p_seq f ts2 g1 with
        | Some (Empty, ts3, g2) => Some (t, ts3, g2)
        | Some (r, ts3, g2) => Some (Seq t r, ts3, g2)
        | None => None
        end
      | None => None
      end
    end
  end
with p_atom (fuel : nat) (ts : str) (g : nat) : presult :=
  match fuel with
  | O => None
  | S f =>
    match ts with
    | [] => None
    | 40%N :: 63%N :: 58%N :: ts' =>
      match p_alt f ts' g with
      | Some (r, 41%N :: ts1, g1) => Some (r, ts1, g1)
      | _ => None
      end
    | 40%N :: ts' =>
      match p_alt f ts' (S g) with
      | Some (r, 41%N :: ts1, g1) => Some (Group (S g) r, ts1, g1)
      | _ => None
      end
    | 91%N :: 94%N :: ts' =>
      match p_class (length ts) ts' [] with
      | Some (rs, ts1) => Some (Class true rs, ts1, g)
      | None => None
      end
    | 91%N :: ts' =>
      match p_class (length ts) ts' [] with
      | Some (rs, ts1) => Some (Class false rs, ts1, g)
      | None => None
      end
    | 92%N :: c :: ts' => Some (p_escape c, ts', g)
    | 94%N :: ts' => Some (Bol, ts', g)
    | 36%N :: ts' => Some (Eol, ts', g)
    | 46%N :: ts' => Some (Class true [(10, 10); (13, 13); (8232, 8233)]%N, ts', g)
    | c :: ts' => Some (Char c, ts', g)
    end
  end.

(** A RegExp object: pattern, number of capture groups, and the flags [i]
    and [g]. *)
Record RegExp : Type := mkRegExp {
  source : regex;
  ngroups : nat;
  ignoreCase : bool;
  global : bool
}.

(** A pattern that does not parse is a SyntaxError when the module loads;
    every pattern of the repository parses ([patterns_parse] below). *)
Definition parse (pattern : str) : option (regex * nat) :=
  match p_alt (4 * length pattern + 4) pattern 0 with
  | Some (r, [], g) => Some (r, g)
  | _ => None
  end.

Definition has_flag (flags : string) (c : N) : bool :=
  existsb (N.eqb c) (bytes_of flags).

(** [new RegExp(pattern, flags)] on a pattern string. *)
Definition compile (pattern : str) (flags : string) : RegExp :=
  match parse pattern with
  | Some (r, g) => mkRegExp r g (has_flag flags 105) (has_flag flags 103)
  | None => mkRegExp (Class false []) 0 (has_flag flags 105) (has_flag flags 103)
  end.

(** A regular expression literal [/pattern/flags]. *)
Definition re (pattern flags : string) : RegExp := compile (js pattern) flags.

(** [new RegExp(regexp, flags)]: the flags replace those of [regexp]. *)
Definition reflag (r : RegExp) (flags : string) : RegExp :=
  mkRegExp (source r) (ngroups r) (has_flag flags 105) (has_flag flags 103).

(** *** Matching *)

(** The state of a match: the code units before the current position, most
    recent first, those from it on, and the capture groups closed so far as
    (group, start index, end index). *)
Record mstate : Type := mkState {
  before : str;
  rest : str;
  caps : list (nat * (nat * nat))
}.

Definition idx (s : mstate) : nat := length (before s).

Definition is_word (c : N) : bool := in_ranges word_ranges c.

Definition word_before (s : mstate) : bool :=
  match before s with c :: _ => is_word c | [] => false end.

Definition word_after (s : mstate) : bool :=
  match rest s with c :: _ => is_word c | [] => false end.

(** Canonicalize of the specification, for patterns without the [u] flag,
    restricted to what can relate two code units of which one occurs in a
    pattern of the repository: ASCII letters compare by their upper case. *)
Definition unit_eqb (ic : bool) (a b : N) : bool :=
  if ic then (upper_unit a =? upper_unit b)%N else (a =? b)%N.

Definition class_has (ic : bool) (rs : list (N * N)) (c : N) : bool :=
  if ic then in_ranges rs c || in_ranges rs (upper_unit c) || in_ranges rs (lower_unit c)
  else in_ranges rs c.

Definition advance (s : mstate) : option (N * mstate) :=
  match rest s with
  | c :: r => Some (c, mkState (c :: before s) r (caps s))
  | [] => None
  end.

Definition cont : Type := mstate -> option mstate.

(** The matcher of a pattern, in continuation-passing style as in the
    specification: alternatives are tried left to right, quantifiers are
    greedy, and an iteration of a quantifier past its minimum that consumes
    nothing is rejected. *)
Fixpoint m (ic : bool) (r : regex) (k : cont) (s : mstate) {struct r} : option mstate :=
  match r with
  | Empty => k s
  | Char c =>
    match advance s with
    | Some (d, s') => if unit_eqb ic c d then k s' else None
    | None => None
    end
  | Class neg rs =>
    match advance s with
    | Some (d, s') => if xorb neg (class_has ic rs d) then k s' else None
    | None => None
    end
  | WordBoundary => if xorb (word_before s) (word_after s) then k s else None
  | Bol => match before s with [] => k s | _ => None end
  | Eol => match rest s with [] => k s | _ => None end
  | Seq r1 r2 => m ic r1 (m ic r2 k) s
  | Alt r1 r2 =>
    match m ic r1 k s with
    | Some res => Some res
    | None => m ic r2 k s
    end
  | Repeat lo hi r1 =>
    (fix loop (fuel n : nat) (s : mstate) {struct fuel} : option mstate :=
       match fuel with
       | O => None
       | S fuel' =>
         let stop := if (lo <=? n)%nat then k s else None in
         let more := match hi with Some h => (n <? h)%nat | None => true end in
         if more then
           match m ic r1 (fun s' =>
                   if (n <? lo)%nat || (idx s <? idx s')%nat
                   then loop fuel' (S n) s' else None) s with
           | Some res => Some res
           | None => stop
           end
         else stop
       end) (S (length (rest s)) + lo)%nat 0%nat s
  | Group i r1 =>
    m ic r1 (fun s' => k (mkState (before s') (rest s') ((i, (idx s, idx s')) :: caps s'))) s
  end.

(** A successful match: where it starts and ends, and the match array
    [[m0, g1, ..., gn]] ([None] is [undefined]). *)
Record MatchResult : Type := mkMatch {
  m_index : nat;
  m_end : nat;
  m_array : list (option str)
}.

Definition capture (input : str) (cs : list (nat * (nat * nat))) (i : nat) : option str :=
  match find (fun c => (fst c =? i)%nat) cs with
  | Some (_, (a, b)) => Some (substring input a b)
  | None => None
  end.

(** The match of [r] that starts exactly at the position of [s], if any. *)
Definition match_here (r : RegExp) (input : str) (s : mstate) : option MatchResult :=
  match m (ignoreCase r) (source r) (fun s' => Some s') s with
  | Some s' =>
    Some (mkMatch (idx s) (idx s')
            (Some (substring input (idx s) (idx s'))
             :: map (capture input (caps s')) (seq 1 (ngroups r))))
  | None => None
  end.

(** RegExpBuiltinExec from a given position: the leftmost match. *)
Fixpoint search (r : RegExp) (input : str) (fuel : nat) (s : mstate) : option MatchResult :=
  match match_here r input s with
  | Some res => Some res
  | None =>
    match fuel, advance s with
    | S f, Some (_, s') => search r input f s'
    | _, _ => None
    end
  end.

Definition state_at (input : str) (i : nat) : mstate :=
  mkState (rev (firstn i input)) (skipn i input) [].

Definition exec_from (r : RegExp) (input : str) (i : nat) : option MatchResult :=
  if (length input <? i)%nat then None
  else search r input (length input) (state_at input i).

(** [RegExp.prototype.test] of a regular expression without the [g] flag. *)
Definition test (r : RegExp) (input : str) : bool :=
  match exec_from r input 0 with Some _ => true | None => false end.

(** [String.prototype.match] with a regular expression without the [g]
    flag: the match array of the first match, or [null]. *)
Definition match_ (input : str) (r : RegExp) : option (list (option str)) :=
  match exec_from r input 0 with
  | Some res => Some (m_array res)
  | None => None
  end.

(** All matches of a global regular expression, left to right; after an
    empty match the search resumes one code unit further. *)
Fixpoint all_matches (r : RegExp) (input : str) (fuel i : nat) : list MatchResult :=
  match fuel with
  | O => []
  | S f =>
    match exec_from r input i with
    | Some res =>
      res :: all_matches r input f (if (m_end res =? m_index res)%nat then S (m_end res) else m_end res)
    | None => []
    end
  end.

(** [String.prototype.matchAll] with a global regular expression. *)
Definition matchAll (input : str) (r : RegExp) : list (list (option str)) :=
  map m_array (all_matches r input (S (length input)) 0).

(** [String.prototype.replace] with a global regular expression and a
    replacement string without [$] patterns. *)
Fixpoint replace_from (input : str) (ms : list MatchResult) (pos : nat) (by_ : str) : str :=
  match ms with
  | [] => skipn pos input
  | res :: ms' =>
    substring input pos (m_index res) ++ by_ ++ replace_from input ms' (m_end res) by_
  end.

Definition replace (input : str) (r : RegExp) (by_ : str) : str :=
  replace_from input (all_matches r input (S (length input)) 0) 0 by_.

(** [String.prototype.split] with a regular expression separator without
    capture groups and no limit. *)
Fixpoint split_from (r : RegExp) (input : str) (fuel p q : nat) : list str :=
  match fuel with
  | O => [skipn p input]
  | S f =>
    if (length input <=? q)%nat then [skipn p input]
    else
      match match_here r input (state_at input q) with
      | Some res =>
        if (m_end res =? p)%nat then split_from r input f p (S q)
        else substring input p q :: split_from r input f (m_end res) (m_end res)
      | None => split_from r input f p (S q)
      end
  end.

Definition split (input : str) (r : RegExp) : list str :=
  match input with
  | [] => match match_here r input (state_at input 0) with Some _ => [] | None => [[]] end
  | _ => split_from r input (S (length input)) 0 0
  end.

End RegExp.
Import RegExp.

(* ===================================================================== *)
(** ** Numbers: IEEE-754 doubles *)
(* ===================================================================== *)

Module Double.
Local Open Scope Q_scope.

(** A finite double is the rational it denotes; the arithmetic operations
    round the exact result to the nearest double, ties to even.  The doubles
    the program computes with are quotients of two array lengths and sums of
    at most six of the decimal constants below, so they lie in [{0}] or in
    [[2^-53, 4]]: neither overflow nor gradual underflow occurs, and the
    exponent is left unbounded. *)
Definition number : Type := Q.

Definition two_pow (e : Z) : Q := Qpower 2 e.

(** The exponent [e] of the unit in the last place of [x > 0]:
    [2^52 <= x / 2^e < 2^53]. *)
Definition ulp_exp (x : Q) : Z :=
  let k := (Z.log2 (Qnum x) - Z.log2 (Zpos (Qden x)) - 53)%Z in
  if Qle_bool (two_pow 53) (x / two_pow k) then (k + 1)%Z else k.

(** Rounding of a rational to the nearest integer, ties to even. *)
Definition rne (q : Q) : Z :=
  let f := Qfloor q in
  match Qcompare (q - inject_Z f) (1 # 2) with
  | Lt => f
  | Gt => (f + 1)%Z
  | Eq => if Z.even f then f else (f + 1)%Z
  end.

(** The double nearest to a rational. *)
Definition round (x : Q) : number :=
  match Qcompare x 0 with
  | Eq => 0
  | Gt => let e := ulp_exp x in Qred (inject_Z (rne (x / two_pow e)) * two_pow e)
  | Lt => let e := ulp_exp (- x) in Qred (- (inject_Z (rne (- x / two_pow e)) * two_pow e))
  end.

(** A decimal literal of the source text. *)
Definition lit (q : Q) : number := round q.

(** A non-negative integer below [2^53], as the [length] of an array. *)
Definition of_nat (n : nat) : number := inject_Z (Z.of_nat n).

Definition add (x y : number) : number := round (x + y).
Definition div (x y : number) : number := round (x / y).

Definition ltb (x y : number) : bool :=
  match Qcompare x y with Lt => true | _ => false end.
Definition gtb (x y : number) : bool := ltb y x.

(** [Math.min] of two numbers. *)
Definition min (x y : number) : number := if ltb y x then y else x.

End Double.

Declare Scope double_scope.
Delimit Scope double_scope with D.
Infix "+" := Double.add : double_scope.
Infix "/" := Double.div : double_scope.
Infix "<?" := Double.ltb : double_scope.
Infix ">?" := Double.gtb : double_scope.

(* ===================================================================== *)
(** ** Date: day and time arithmetic *)
(* ===================================================================== *)

Module JSDate.
Local Open Scope Z_scope.

(** The abstract operations of the ECMAScript specification (21.4.1), on
    time values in milliseconds since the epoch and on day numbers. *)
Definition msPerDay : Z := 86400000.
Definition Day (t : Z) : Z := t / msPerDay.
Definition TimeWithinDay (t : Z) : Z := t mod msPerDay.

Definition isLeap (y : Z) : bool :=
  ((y mod 4 =? 0) && negb (y mod 100 =? 0)) || (y mod 400 =? 0).

Definition DaysInYear (y : Z) : Z := if isLeap y then 366 else 365.

Definition DayFromYear (y : Z) : Z :=
  365 * (y - 1970) + (y - 1969) / 4 - (y - 1901) / 100 + (y - 1601) / 400.

(** The largest [y] with [DayFromYear y <= d] ([year_of_day_spec]): the mean
    length of a year gives it up to one year, which is then adjusted. *)
Definition YearFromDay (d : Z) : Z :=
  let y := 1970 + (400 * d) / 146097 in
  if d <? DayFromYear y then y - 1
  else if DayFromYear (y + 1) <=? d then y + 1
  else y.

Definition DayWithinYear (d : Z) : Z := d - DayFromYear (YearFromDay d).

Definition leapAdj (y : Z) : Z := if isLeap y then 1 else 0.

(** The day within the year on which month [mn] (0 to 11) starts; [L] is 1
    in a leap year. *)
Definition monthStart (L mn : Z) : Z :=
  match mn with
  | 0 => 0
  | 1 => 31
  | 2 => 59 + L
  | 3 => 90 + L
  | 4 => 120 + L
  | 5 => 151 + L
  | 6 => 181 + L
  | 7 => 212 + L
  | 8 => 243 + L
  | 9 => 273 + L
  | 10 => 304 + L
  | 11 => 334 + L
  | _ => 365 + L
  end.

Definition MonthFromDay (d : Z) : Z :=
  let w := DayWithinYear d in
  let L := leapAdj (YearFromDay d) in
  if w <? 31 then 0
  else if w <? 59 + L then 1
  else if w <? 90 + L then 2
  else if w <? 120 + L then 3
  else if w <? 151 + L then 4
  else if w <? 181 + L then 5
  else if w <? 212 + L then 6
  else if w <? 243 + L then 7
  else if w <? 273 + L then 8
  else if w <? 304 + L then 9
  else if w <? 334 + L then 10
  else 11.

Definition DateFromDay (d : Z) : Z :=
  DayWithinYear d - monthStart (leapAdj (YearFromDay d)) (MonthFromDay d) + 1.

Definition WeekDay (d : Z) : Z := (d + 4) mod 7.

Definition MakeDay (year month date : Z) : Z :=
  let ym := year + month / 12 in
  let mn := month mod 12 in
  DayFromYear ym + monthStart (leapAdj ym) mn + date - 1.

Definition MakeTime (hour min sec ms : Z) : Z :=
  hour * 3600000 + min * 60000 + sec * 1000 + ms.

Definition MakeDate (day time : Z) : Z := day * msPerDay + time.

(** A Date object holds a time value or NaN ([None], an invalid date). *)
Definition Date : Type := option Z.

Definition TimeClip (t : Z) : Date :=
  if 8640000000000000 <? Z.abs t then None else Some t.

(** The getters, on a valid time value. *)
Definition getFullYear (t : Z) : Z := YearFromDay (Day t).
Definition getMonth (t : Z) : Z := MonthFromDay (Day t).
Definition getDate (t : Z) : Z := DateFromDay (Day t).
Definition getDay (t : Z) : Z := WeekDay (Day t).

(** [new Date(year, month, date)]: a year from 0 to 99 means 1900 + year. *)
Definition Date_ymd (year month date : Z) : Date :=
  let yr := if (0 <=? year) && (year <=? 99) then 1900 + year else year in
  TimeClip (MakeDate (MakeDay yr month date) 0).

(** [date.setDate(dt)] and [date.setFullYear(y)] on a valid date. *)
Definition setDate (t : Z) (dt : Z) : Date :=
  TimeClip (MakeDate (MakeDay (getFullYear t) (getMonth t) dt) (TimeWithinDay t)).

Definition setFullYear (t : Z) (y : Z) : Date :=
  TimeClip (MakeDate (MakeDay y (getMonth t) (getDate t)) (TimeWithinDay t)).

(** [a < b] and [a >= b] on Date objects compare the time values; a
    comparison with NaN is false. *)
Definition date_ltb (a b : Date) : bool :=
  match a, b with Some x, Some y => x <? y | _, _ => false end.

Definition date_geb (a b : Date) : bool :=
  match a, b with Some x, Some y => y <=? x | _, _ => false end.

(** *** ISO strings *)

(** [n] as [w] decimal digits. *)
Fixpoint pad (w : nat) (n : Z) : str :=
  match w with
  | O => []
  | S w' => pad w' (n / 10) ++ [Z.to_N (48 + n mod 10)]
  end.

(** [Date.prototype.toISOString] of a valid time value. *)
Definition toISOString (t : Z) : str :=
  let y := getFullYear t in
  let year :=
    if (0 <=? y) && (y <=? 9999) then pad 4 y
    else (if y <? 0 then js "-" else js "+") ++ pad 6 (Z.abs y) in
  let tod := TimeWithinDay t in
  year ++ js "-" ++ pad 2 (getMonth t + 1) ++ js "-" ++ pad 2 (getDate t)
  ++ js "T" ++ pad 2 (tod / 3600000) ++ js ":" ++ pad 2 (tod / 60000 mod 60)
  ++ js ":" ++ pad 2 (tod / 1000 mod 60) ++ js "." ++ pad 3 (tod mod 1000) ++ js "Z".

(** Exactly [w] decimal digits at the head of a string. *)
Fixpoint digits (w : nat) (s : str) (acc : Z) : option (Z * str) :=
  match w with
  | O => Some (acc, s)
  | S w' =>
    match s with
    | c :: s' => if is_digit c then digits w' s' (acc * 10 + (Z.of_N c - 48)) else None
    | [] => None
    end
  end.

Definition expect (c : string) (s : str) : option str :=
  match js c, s with
  | [a], b :: s' => if (a =? b)%N then Some s' else None
  | _, _ => None
  end.

(** The year of an ISO string: four digits, or a sign and six digits (but
    not [-000000]). *)
Definition iso_year (s : str) : option (Z * str) :=
  match s with
  | 43%N :: s' => digits 6 s' 0
  | 45%N :: s' =>
    '(y, r) ← digits 6 s' 0;
    if y =? 0 then None else Some (- y, r)
  | _ => digits 4 s 0
  end.

(** [new Date(string)] on the complete form of the Date Time String Format,
    [YYYY-MM-DDTHH:mm:ss.sssZ], with the range of each field checked as
    engines do (month 01-12, day 01-31, hour 00-24, minute and second
    00-59).  For every other string the model returns NaN.  Engines differ
    there (the reduced ISO forms and legacy formats parse to some date), but
    the only use the code makes of a date parsed from a string it has not
    validated is to compare its [toISOString], which has the complete form,
    with that string. *)
Definition Date_parse (s : str) : Date :=
  '(y, s) ← iso_year s;
  s ← expect "-" s;
  '(mo, s) ← digits 2 s 0;
  s ← expect "-" s;
  '(d, s) ← digits 2 s 0;
  s ← expect "T" s;
  '(h, s) ← digits 2 s 0;
  s ← expect ":" s;
  '(mi, s) ← digits 2 s 0;
  s ← expect ":" s;
  '(sec, s) ← digits 2 s 0;
  s ← expect "." s;
  '(ms, s) ← digits 3 s 0;
  s ← expect "Z" s;
  match s with
  | [] =>
    if (1 <=? mo) && (mo <=? 12) && (1 <=? d) && (d <=? 31)
       && (mi <=? 59) && (sec <=? 59)
       && ((h <=? 23) || ((h =? 24) && (mi =? 0) && (sec =? 0) && (ms =? 0)))
    then TimeClip (MakeDate (MakeDay y (mo - 1) d) (MakeTime h mi sec ms))
    else None
  | _ => None
  end.

End JSDate.
Import JSDate.

(* ===================================================================== *)
(** ** src/modules/extractor/patterns.ts *)
(* ===================================================================== *)

(** The pattern tables, with the patterns as they are written in the
    source.  An object used as a table is the list of its entries in
    insertion order, which is the order of [Object.entries]. *)

Definition SUBJECT_PATTERNS : list (str * RegExp) := Eval vm_compute in
  [ (js "math", re "\b(math|mathematics|algebra|geometry|calculus|מתמטיקה|חשבון|אלגברה|גאומטריה)\b" "i");
    (js "science", re "\b(science|biology|chemistry|physics|lab|מדעים|ביולוגיה|כימיה|פיזיקה|מעבדה)\b" "i");
    (js "english", re "\b(english|literature|reading|אנגלית|ספרות|קריאה)\b" "i");
    (js "hebrew", re "\b(hebrew|עברית|לשון|דקדוק)\b" "i");
    (js "history", re "\b(history|היסטוריה|תולדות)\b" "i");
    (js "geography", re "\b(geography|גאוגרפיה|גיאוגרפיה)\b" "i");
    (js "sports", re "\b(sports|gym|pe|physical education|ספורט|התעמלות|חינוך גופני)\b" "i");
    (js "art", re "\b(art|drawing|painting|אמנות|ציור)\b" "i");
    (js "music", re "\b(music|מוזיקה|נגינה)\b" "i");
    (js "technology", re "\b(technology|computers|tech|טכנולוגיה|מחשבים)\b" "i") ].

Module HOMEWORK_PATTERNS.

Definition keywords : RegExp := Eval vm_compute in
  re "\b(homework|assignment|exercise|project|quiz|test|exam|pages|chapter|read|write|complete|solve|prepare|submit|due|deadline|שיעורי בית|תרגיל|מטלה|פרויקט|מבחן|בוחן|עמודים|פרק|לקרוא|לכתוב|להשלים|לפתור|להכין|להגיש|להגשה)\b" "i".

Definition pages : RegExp := Eval vm_compute in
  re "\b(pages?|עמודים?|עמ׳)\s*(\d+[-–]\d+|\d+)" "i".

Definition exercise : RegExp := Eval vm_compute in
  re "\b(exercise|תרגיל)\s*(\d+\.?\d*)" "i".

Definition chapter : RegExp := Eval vm_compute in
  re "\b(chapter|פרק)\s*(\d+)" "i".

End HOMEWORK_PATTERNS.

Module SCHEDULE_PATTERNS.

Definition keywords : RegExp := Eval vm_compute in
  re "\b(changed|moved|cancelled|canceled|postponed|rescheduled|new time|new location|instead of|שונה|הועבר|בוטל|נדחה|זמן חדש|מיקום חדש|במקום)\b" "i".

Definition timeChange : RegExp := Eval vm_compute in
  re "\b(time changed|new time|moved to|rescheduled to|שעה שונתה|שעה חדשה|הועבר ל)\b" "i".

Definition cancellation : RegExp := Eval vm_compute in
  re "\b(cancelled|canceled|no class|class cancelled|בוטל|אין שיעור|השיעור בוטל)\b" "i".

Definition locationChange : RegExp := Eval vm_compute in
  re "\b(room|location|place|moved to room|חדר|מיקום|מקום|עבר לחדר)\b" "i".

End SCHEDULE_PATTERNS.

Module ANNOUNCEMENT_PATTERNS.

Definition event : RegExp := Eval vm_compute in
  re "\b(event|field trip|ceremony|performance|party|meeting|אירוע|טיול|טקס|הופעה|מסיבה|פגישה|אסיפת הורים)\b" "i".

Definition permissionSlip : RegExp := Eval vm_compute in
  re "\b(permission slip|form|signature|sign|return|אישור|טופס|חתימה|לחתום|להחזיר)\b" "i".

Definition urgent : RegExp := Eval vm_compute in
  re "\b(urgent|important|attention|immediately|asap|דחוף|חשוב|לתשומת לב|מיידי|בהקדם)\b" "i".

Definition reminder : RegExp := Eval vm_compute in
  re "\b(reminder|don't forget|remember|תזכורת|אל תשכחו|לזכור)\b" "i".

End ANNOUNCEMENT_PATTERNS.

Module DATE_PATTERNS.

Definition relative : RegExp := Eval vm_compute in
  re "\b(today|tomorrow|yesterday|next\s+\w+|this\s+\w+|היום|מחר|אתמול|השבוע|בשבוע הבא)\b" "i".

Definition numeric : RegExp := Eval vm_compute in
  re "\b(\d{1,2})[\/\-\.](\d{1,2})(?:[\/\-\.](\d{2,4}))?\b" "".

Definition textual : RegExp := Eval vm_compute in
  re "\b(\d{1,2})\s*(January|February|March|April|May|June|July|August|September|October|November|December|Jan|Feb|Mar|Apr|May|Jun|Jul|Aug|Sep|Oct|Nov|Dec|ינואר|פברואר|מרץ|אפריל|מאי|יוני|יולי|אוגוסט|ספטמבר|אוקטובר|נובמבר|דצמבר)\b|\b(January|February|March|April|May|June|July|August|September|October|November|December|Jan|Feb|Mar|Apr|May|Jun|Jul|Aug|Sep|Oct|Nov|Dec|ינואר|פברואר|מרץ|אפריל|מאי|יוני|יולי|אוגוסט|ספטמבר|אוקטובר|נובמבר|דצמבר)\s*(\d{1,2})\b" "i".

Definition weekday : RegExp := Eval vm_compute in
  re "\b(Monday|Tuesday|Wednesday|Thursday|Friday|Saturday|Sunday|Mon|Tue|Wed|Thu|Fri|Sat|Sun|ראשון|שני|שלישי|רביעי|חמישי|שישי|שבת|יום [א-ו]׳?)\b" "i".

Definition time : RegExp := Eval vm_compute in
  re "\b(\d{1,2}):(\d{2})(?::(\d{2}))?\s*(AM|PM|am|pm)?\b" "".

End DATE_PATTERNS.

Module IMPORTANCE_INDICATORS.

Definition high : RegExp := Eval vm_compute in
  re "\b(urgent|important|critical|must|required|mandatory|deadline|דחוף|חשוב|קריטי|חובה|נדרש|דד-ליין)\b" "i".

Definition medium : RegExp := Eval vm_compute in
  re "\b(please|kindly|reminder|note|attention|בבקשה|תזכורת|שימו לב|לתשומת)\b" "i".

Definition low : RegExp := Eval vm_compute in
  re "\b(optional|if possible|maybe|perhaps|אופציונלי|אם אפשר|אולי)\b" "i".

End IMPORTANCE_INDICATORS.

Definition ABBREVIATIONS : list (str * str) := Eval vm_compute in
  [ (js "hw", js "homework");
    (js "pgs", js "pages");
    (js "pg", js "page");
    (js "ch", js "chapter");
    (js "ex", js "exercise");
    (js "q", js "question");
    (js "asap", js "as soon as possible");
    (js "tmrw", js "tomorrow");
    (js "tmr", js "tomorrow");
    (js "thx", js "thanks");
    (js "pls", js "please");
    (js "plz", js "please");
    (js "u", js "you");
    (js "ur", js "your");
    (js "r", js "are");
    (js "b4", js "before");
    (js "2day", js "today");
    (js "2morrow", js "tomorrow");
    (js "2mrw", js "tomorrow");
    (js "ש״ב", js "שיעורי בית");
    (js "עמ׳", js "עמודים");
    (js "תר׳", js "תרגיל") ].

(** [STOP_WORDS.has(w)] is [bool_decide (w ∈ STOP_WORDS)]. *)
Definition STOP_WORDS : gset str :=
  list_to_set (map js [
    "the"; "a"; "an"; "and"; "or"; "but"; "in"; "on"; "at"; "to"; "for";
    "of"; "with"; "by"; "from"; "about"; "as"; "is"; "was"; "are"; "were";
    "been"; "be"; "have"; "has"; "had"; "do"; "does"; "did"; "will"; "would";
    "should"; "could"; "may"; "might"; "must"; "can"; "this"; "that";
    "these"; "those"; "i"; "you"; "he"; "she"; "it"; "we"; "they"; "what";
    "which"; "who"; "when"; "where"; "why"; "how"; "all"; "each"; "every";
    "some"; "few"; "more"; "most"; "other"; "such"; "only"; "own"; "so";
    "than"; "too"; "very"; "just"; "now"; "של"; "את"; "על"; "עם"; "אל"; "מן";
    "בין"; "כל"; "גם"; "רק"; "עוד"; "היה"; "הוא"; "היא"; "הם"; "הן"; "אני";
    "אתה"; "את"; "אנחנו"; "אתם" ]%string).

(* ===================================================================== *)
(** ** src/modules/extractor/ContentExtractor.ts *)
(* ===================================================================== *)

Module ContentExtractor.

(** A function that can throw returns an [option]: [None] is a thrown
    exception.  A nullable result is an [option] as well; which of the two
    is said at each function. *)

Record ExtractionOptions : Type := {
  opt_expandAbbreviations : bool;
  opt_extractDates : bool;
  opt_extractSubjects : bool;
  opt_normalizeText : bool
}.

(** The options of [new ContentExtractor()]. *)
Definition default_options : ExtractionOptions :=
  {| opt_expandAbbreviations := true; opt_extractDates := true;
     opt_extractSubjects := true; opt_normalizeText := true |}.

Record Extracted : Type := {
  processedText : str;
  subjects : list str;
  dates : list Date;
  pages : option str;
  exerciseNumbers : list str
}.

(** The two quote classes hold, in the source text, the ASCII quote and the
    ASCII apostrophe (each twice). *)
Definition quotes_re : RegExp := Eval vm_compute in
  compile ([91; 34; 34; 93]%N) "g".
Definition apostrophes_re : RegExp := Eval vm_compute in
  re "['']" "g".
Definition spaces_re : RegExp := Eval vm_compute in re "\s+" "g".
Definition newlines_re : RegExp := Eval vm_compute in re "\n+" "g".

Definition normalizeText (text : str) : str :=
  let t1 := replace text spaces_re (js " ") in
  let t2 := replace t1 newlines_re (js " ") in
  let t3 := replace t2 quotes_re [34%N] in
  let t4 := replace t3 apostrophes_re (js "'") in
  trim t4.

(** [Array.prototype.sort] with a comparison function: a stable sort. *)
Fixpoint sort_insert {A : Type} (cmp : A -> A -> Z) (x : A) (l : list A) : list A :=
  match l with
  | [] => [x]
  | y :: l' => if (cmp x y <=? 0)%Z then x :: l else y :: sort_insert cmp x l'
  end.

Definition sort {A : Type} (cmp : A -> A -> Z) (l : list A) : list A :=
  fold_right (sort_insert cmp) [] l.

Definition sortedAbbreviations : list (str * str) := Eval vm_compute in
  sort (fun a b => (Z.of_nat (length (fst b)) - Z.of_nat (length (fst a)))%Z) ABBREVIATIONS.

Definition expandAbbreviations (text : str) : str :=
  fold_left
    (fun expanded '(abbr, full) =>
       let regex := compile (js "\b" ++ abbr ++ js "\b") "gi" in
       replace expanded regex full)
    sortedAbbreviations text.

(** The keys of [SUBJECT_PATTERNS] are distinct, so the [Set] the source
    collects them in holds them in the order of the table. *)
Definition extractSubjects (text : str) : list str :=
  map fst (List.filter (fun '(subject, pattern) => test pattern text) SUBJECT_PATTERNS).

(** Returns a Date or [null] ([None]). *)
Definition parseRelativeDate (text : str) (baseDate : Z) : option Date :=
  let date := baseDate in
  if includes text (js "today") || includes text (js "היום") then
    Some (Some date)
  else if includes text (js "tomorrow") || includes text (js "מחר") then
    Some (setDate date (getDate date + 1))
  else if includes text (js "yesterday") || includes text (js "אתמול") then
    Some (setDate date (getDate date - 1))
  else if includes text (js "next week") || includes text (js "השבוע הבא") then
    Some (setDate date (getDate date + 7))
  else if includes text (js "this week") || includes text (js "השבוע") then
    let dayOfWeek := getDay date in
    let daysUntilFriday := ((5 - dayOfWeek + 7) mod 7)%Z in
    Some (setDate date (getDate date + daysUntilFriday))
  else None.

(** Numbers that may be NaN ([None]), where the source computes with the
    results of [parseInt]. *)
Definition Date_new3 (year month date : option Z) : Date :=
  match year, month, date with
  | Some y, Some mo, Some d => Date_ymd y mo d
  | _, _, _ => None
  end.

Definition strict_neq (a b : option Z) : bool :=
  match a, b with
  | Some x, Some y => negb (x =? y)%Z
  | _, _ => true
  end.

Definition truthy_str (s : option str) : bool :=
  match s with Some (_ :: _) => true | _ => false end.

(** Returns a Date or [null]; an argument that is [undefined] is [None]. *)
Definition parseNumericDate (day month year : option str) (now : Z) : option Date :=
  let currentYear := getFullYear now in
  let yearNum := if truthy_str year then year ≫= parseInt else Some currentYear in
  let monthNum := (fun n => n - 1)%Z <$> (month ≫= parseInt) in
  let dayNum := day ≫= parseInt in
  let date := Date_new3 yearNum monthNum dayNum in
  let date :=
    if strict_neq (getMonth <$> date) monthNum
    then Date_new3 yearNum ((fun n => n - 1)%Z <$> dayNum) (month ≫= parseInt)
    else date in
  match date with
  | Some _ => Some date
  | None => None
  end.

Definition months : list (str * Z) := Eval vm_compute in
  map (fun '(k, v) => (js k, v))
  [ ("january", 0); ("jan", 0); ("ינואר", 0);
    ("february", 1); ("feb", 1); ("פברואר", 1);
    ("march", 2); ("mar", 2); ("מרץ", 2);
    ("april", 3); ("apr", 3); ("אפריל", 3);
    ("may", 4); ("מאי", 4);
    ("june", 5); ("jun", 5); ("יוני", 5);
    ("july", 6); ("jul", 6); ("יולי", 6);
    ("august", 7); ("aug", 7); ("אוגוסט", 7);
    ("september", 8); ("sep", 8); ("sept", 8); ("ספטמבר", 8);
    ("october", 9); ("oct", 9); ("אוקטובר", 9);
    ("november", 10); ("nov", 10); ("נובמבר", 10);
    ("december", 11); ("dec", 11); ("דצמבר", 11) ]%string%Z.

Definition lookup_month (word : str) : option Z :=
  snd <$> find (fun '(k, _) => str_eqb k word) months.

Definition digits_re : RegExp := Eval vm_compute in re "^\d+$" "".
Definition words_re : RegExp := Eval vm_compute in re "\s+" "".

Definition falsy_num (n : option Z) : bool :=
  match n with Some 0%Z | None => true | Some _ => false end.

(** One turn of the loop over [words] of [parseTextualDate]; the state is
    [(day, month)], each [null] ([None]) at first. *)
Definition textual_step (words : list str) (st : option Z * option Z) (i : nat)
  : option Z * option Z :=
  let '(day, month) := st in
  let word := nth i words [] in
  let '(day, month) :=
    match lookup_month word with
    | Some mn =>
      let day :=
        if (0 <? i)%nat && test digits_re (nth (i - 1) words [])
        then parseInt (nth (i - 1) words [])
        else if (i <? length words - 1)%nat && test digits_re (nth (i + 1) words [])
        then parseInt (nth (i + 1) words [])
        else day in
      (day, Some mn)
    | None => (day, month)
    end in
  if test digits_re word then
    match parseInt word with
    | Some num =>
      if (1 <=? num)%Z && (num <=? 31)%Z && falsy_num day then (Some num, month)
      else (day, month)
    | None => (day, month)
    end
  else (day, month).

(** Returns a Date or [null]. *)
Definition parseTextualDate (text : str) (now : Z) : option Date :=
  let words := split (toLowerCase text) words_re in
  let '(day, month) :=
    fold_left (textual_step words) (seq 0 (length words)) (None, None) in
  match day, month with
  | Some d, Some mn =>
    if (d =? 0)%Z then None
    else
      let year := getFullYear now in
      let date := Date_ymd year mn d in
      match date with
      | Some t => if date_ltb date (Some now) then Some (setFullYear t (year + 1)) else Some date
      | None => Some date
      end
  | _, _ => None
  end.

(** Throws ([None]) if an entry of the match array is [undefined]. *)
Fixpoint relative_loop (matches : list (option str)) (now : Z) (dates : list Date)
  : option (list Date) :=
  match matches with
  | [] => Some dates
  | None :: _ => None
  | Some match_ :: rest =>
    match parseRelativeDate (toLowerCase match_) now with
    | Some date => relative_loop rest now (dates ++ [date])
    | None => relative_loop rest now dates
    end
  end.

Definition push_some {A : Type} (l : list A) (x : option A) : list A :=
  match x with Some a => l ++ [a] | None => l end.

(** [match[i]] of a match array. *)
Definition at_ (match_ : list (option str)) (i : nat) : option str :=
  nth i match_ None.

(** May throw (in the loop over the relative matches). *)
Definition extractDates (text : str) (now : Z) : option (list Date) :=
  let dates := [] in
  dates ←
    match match_ text DATE_PATTERNS.relative with
    | Some relativeMatches => relative_loop relativeMatches now dates
    | None => Some dates
    end;
  let numericMatches := matchAll text (reflag DATE_PATTERNS.numeric "g") in
  let dates :=
    fold_left (fun dates match_ =>
                 push_some dates (parseNumericDate (at_ match_ 1) (at_ match_ 2) (at_ match_ 3) now))
              numericMatches dates in
  let textualMatches := matchAll text (reflag DATE_PATTERNS.textual "g") in
  let dates :=
    fold_left (fun dates match_ =>
                 match at_ match_ 0 with
                 | Some m0 => push_some dates (parseTextualDate m0 now)
                 | None => dates
                 end)
              textualMatches dates in
  Some dates.

Definition extractPages (text : str) : option str :=
  match match_ text HOMEWORK_PATTERNS.pages with
  | Some match_ => at_ match_ 0
  | None => None
  end.

Definition extractExerciseNumbers (text : str) : list str :=
  let matches := matchAll text (reflag HOMEWORK_PATTERNS.exercise "g") in
  fold_left (fun exercises match_ =>
               if truthy_str (at_ match_ 2) then push_some exercises (at_ match_ 2)
               else exercises)
            matches [].

(** May throw (in [extractDates]). *)
Definition extractContent (options : ExtractionOptions) (text : str) (now : Z)
  : option Extracted :=
  let processedText := text in
  let processedText :=
    if opt_normalizeText options then normalizeText processedText else processedText in
  let processedText :=
    if opt_expandAbbreviations options then expandAbbreviations processedText
    else processedText in
  let subjects := if opt_extractSubjects options then extractSubjects processedText else [] in
  dates ← (if opt_extractDates options then extractDates processedText now else Some []);
  let pages := extractPages processedText in
  let exerciseNumbers := extractExerciseNumbers processedText in
  Some {| processedText := processedText; subjects := subjects; dates := dates;
          pages := pages; exerciseNumbers := exerciseNumbers |}.

Definition exclamation_re : RegExp := Eval vm_compute in re "[!]" "".
Definition urgent_re : RegExp := Eval vm_compute in re "\b(urgent|important|דחוף|חשוב)\b" "i".

Definition calculateImportance (text : str) : Double.number :=
  let words := split (toLowerCase text) words_re in
  let contentWords := List.filter (fun word => negb (bool_decide (word ∈ STOP_WORDS))) words in
  if (length contentWords =? 0)%nat then 0%Q
  else
    let importance := (Double.of_nat (length contentWords) / Double.of_nat (length words))%D in
    let importance :=
      if test HOMEWORK_PATTERNS.keywords text then (importance + Double.lit 0.3)%D
      else importance in
    let importance :=
      if test DATE_PATTERNS.numeric text || test DATE_PATTERNS.relative text
      then (importance + Double.lit 0.2)%D else importance in
    let importance :=
      if test exclamation_re text then (importance + Double.lit 0.1)%D else importance in
    let importance :=
      if test urgent_re text then (importance + Double.lit 0.4)%D else importance in
    Double.min importance (Double.lit 1.0).

End ContentExtractor.

(* ===================================================================== *)
(** ** src/modules/extractor/types.ts *)
(* ===================================================================== *)

(** The [type] tag of an item. *)
Inductive ItemType : Type := homework | schedule_change | announcement.

Inductive AssignmentType : Type := exercise | project | reading | other_assignment.
Inductive ChangeType : Type := time_change | location_change | cancellation | reschedule.
Inductive AnnouncementType : Type := event | permission_slip | notice | other_announcement.
Inductive Urgency : Type := high | medium | low.

(** The [metadata] argument of [classifyMessage]. *)
Module Metadata.
Record t : Type := {
  chat_id : str;
  sender_id : str;
  timestamp : Date
}.
End Metadata.

(** An optional field that is absent or [undefined] is [None]. *)
Module HomeworkItem.
Record t : Type := {
  chat_id : str;
  sender_id : str;
  timestamp : Date;
  content : str;
  original_message : str;
  subject : option str;
  due_date : option Date;
  assignment_type : AssignmentType;
  pages : option str
}.
End HomeworkItem.

Module ScheduleChangeItem.
Record t : Type := {
  chat_id : str;
  sender_id : str;
  timestamp : Date;
  content : str;
  original_message : str;
  subject : option str;
  change_type : ChangeType;
  original_time : option Date;
  new_time : option Date;
  original_location : option str;
  new_location : option str
}.
End ScheduleChangeItem.

Module AnnouncementItem.
Record t : Type := {
  chat_id : str;
  sender_id : str;
  timestamp : Date;
  content : str;
  original_message : str;
  announcement_type : AnnouncementType;
  urgency : Urgency;
  related_date : option Date
}.
End AnnouncementItem.

Inductive ContentItem : Type :=
| Homework (i : HomeworkItem.t)
| ScheduleChange (i : ScheduleChangeItem.t)
| Announcement (i : AnnouncementItem.t).

Definition item_type (i : ContentItem) : ItemType :=
  match i with
  | Homework _ => homework
  | ScheduleChange _ => schedule_change
  | Announcement _ => announcement
  end.

Record ClassificationResult : Type := {
  item : ContentItem;
  confidence : Double.number
}.

(** The fields every item has (the interface [ExtractedItem]). *)
Definition item_chat_id (i : ContentItem) : str :=
  match i with
  | Homework h => HomeworkItem.chat_id h
  | ScheduleChange c => ScheduleChangeItem.chat_id c
  | Announcement a => AnnouncementItem.chat_id a
  end.

Definition item_sender_id (i : ContentItem) : str :=
  match i with
  | Homework h => HomeworkItem.sender_id h
  | ScheduleChange c => ScheduleChangeItem.sender_id c
  | Announcement a => AnnouncementItem.sender_id a
  end.

Definition item_timestamp (i : ContentItem) : Date :=
  match i with
  | Homework h => HomeworkItem.timestamp h
  | ScheduleChange c => ScheduleChangeItem.timestamp c
  | Announcement a => AnnouncementItem.timestamp a
  end.

Definition item_content (i : ContentItem) : str :=
  match i with
  | Homework h => HomeworkItem.content h
  | ScheduleChange c => ScheduleChangeItem.content c
  | Announcement a => AnnouncementItem.content a
  end.

Definition item_original_message (i : ContentItem) : str :=
  match i with
  | Homework h => HomeworkItem.original_message h
  | ScheduleChange c => ScheduleChangeItem.original_message c
  | Announcement a => AnnouncementItem.original_message a
  end.

(* ===================================================================== *)
(** ** src/modules/classifier/ContentClassifier.ts *)
(* ===================================================================== *)

Module ContentClassifier.
Import ContentExtractor.

Definition actionWords : RegExp := Eval vm_compute in
  re "\b(complete|finish|solve|write|read|prepare|submit|do|make|השלים|לפתור|לכתוב|לקרוא|להכין|להגיש|לעשות)\b" "i".
Definition dueDateIndicators : RegExp := Eval vm_compute in
  re "\b(due|deadline|by|until|before|submit by|להגשה|עד|לפני)\b" "i".

Definition calculateHomeworkScore (text : str) : Double.number :=
  let score := 0%Q in
  let score := if test HOMEWORK_PATTERNS.keywords text then (score + Double.lit 0.5)%D else score in
  let score := if test HOMEWORK_PATTERNS.pages text then (score + Double.lit 0.3)%D else score in
  let score := if test HOMEWORK_PATTERNS.exercise text then (score + Double.lit 0.3)%D else score in
  let score := if test HOMEWORK_PATTERNS.chapter text then (score + Double.lit 0.2)%D else score in
  let score := if test actionWords text then (score + Double.lit 0.2)%D else score in
  let score := if test dueDateIndicators text then (score + Double.lit 0.2)%D else score in
  Double.min score (Double.lit 1.0).

Definition timeReference : RegExp := Eval vm_compute in
  re "\b(\d{1,2}:\d{2}|morning|afternoon|evening|בוקר|צהריים|ערב)\b" "i".
Definition dayReference : RegExp := Eval vm_compute in
  re "\b(monday|tuesday|wednesday|thursday|friday|saturday|sunday|ראשון|שני|שלישי|רביעי|חמישי|שישי|שבת)\b" "i".

Definition calculateScheduleChangeScore (text : str) : Double.number :=
  let score := 0%Q in
  let score := if test SCHEDULE_PATTERNS.keywords text then (score + Double.lit 0.5)%D else score in
  let score := if test SCHEDULE_PATTERNS.timeChange text then (score + Double.lit 0.4)%D else score in
  let score := if test SCHEDULE_PATTERNS.cancellation text then (score + Double.lit 0.5)%D else score in
  let score := if test SCHEDULE_PATTERNS.locationChange text then (score + Double.lit 0.3)%D else score in
  let score := if test timeReference text then (score + Double.lit 0.2)%D else score in
  let score := if test dayReference text then (score + Double.lit 0.2)%D else score in
  Double.min score (Double.lit 1.0).

Definition infoIndicators : RegExp := Eval vm_compute in
  re "\b(please note|attention|important|for your information|FYI|שימו לב|חשוב|לידיעתכם)\b" "i".

Definition calculateAnnouncementScore (text : str) (baseImportance : Double.number)
  : Double.number :=
  let score := baseImportance in
  let score := if test ANNOUNCEMENT_PATTERNS.event text then (score + Double.lit 0.3)%D else score in
  let score := if test ANNOUNCEMENT_PATTERNS.permissionSlip text then (score + Double.lit 0.4)%D else score in
  let score := if test ANNOUNCEMENT_PATTERNS.urgent text then (score + Double.lit 0.3)%D else score in
  let score := if test ANNOUNCEMENT_PATTERNS.reminder text then (score + Double.lit 0.2)%D else score in
  let score := if test infoIndicators text then (score + Double.lit 0.2)%D else score in
  Double.min score (Double.lit 1.0).

Definition exercise_re : RegExp := Eval vm_compute in
  re "\b(exercise|תרגיל|תרגילים)\b" "i".
Definition project_re : RegExp := Eval vm_compute in
  re "\b(project|פרויקט|עבודה)\b" "i".
Definition reading_re : RegExp := Eval vm_compute in
  re "\b(read|reading|chapter|pages|לקרוא|קריאה|פרק|עמודים)\b" "i".

Definition detectAssignmentType (text : str) : AssignmentType :=
  if test exercise_re text then exercise
  else if test project_re text then project
  else if test reading_re text then reading
  else other_assignment.

Definition detectChangeType (text : str) : ChangeType :=
  if test SCHEDULE_PATTERNS.cancellation text then cancellation
  else if test SCHEDULE_PATTERNS.locationChange text then location_change
  else if test SCHEDULE_PATTERNS.timeChange text then time_change
  else reschedule.

Definition detectAnnouncementType (text : str) : AnnouncementType :=
  if test ANNOUNCEMENT_PATTERNS.event text then event
  else if test ANNOUNCEMENT_PATTERNS.permissionSlip text then permission_slip
  else if test ANNOUNCEMENT_PATTERNS.reminder text || test ANNOUNCEMENT_PATTERNS.urgent text
  then notice
  else other_announcement.

Definition detectUrgency (text : str) : Urgency :=
  if test IMPORTANCE_INDICATORS.high text then high
  else if test IMPORTANCE_INDICATORS.medium text then medium
  else if test IMPORTANCE_INDICATORS.low text then low
  else medium.

Definition createHomeworkItem (processedText originalMessage : str) (metadata : Metadata.t)
    (subjects : list str) (dates : list Date) (pages : option str)
    (exerciseNumbers : list str) (confidence : Double.number) : ClassificationResult :=
  let homeworkItem :=
    {| HomeworkItem.chat_id := Metadata.chat_id metadata;
       HomeworkItem.sender_id := Metadata.sender_id metadata;
       HomeworkItem.timestamp := Metadata.timestamp metadata;
       HomeworkItem.content := processedText;
       HomeworkItem.original_message := originalMessage;
       HomeworkItem.subject := head subjects;
       HomeworkItem.due_date := head dates;
       HomeworkItem.assignment_type := detectAssignmentType processedText;
       HomeworkItem.pages := pages |} in
  {| item := Homework homeworkItem; confidence := confidence |}.

Definition location_re : RegExp := Eval vm_compute in
  re "\b(?:room|class|חדר|כיתה)\s*(\w+)" "i".

Definition is_time_change (c : ChangeType) : bool :=
  match c with time_change => true | _ => false end.
Definition is_location_change (c : ChangeType) : bool :=
  match c with location_change => true | _ => false end.

Definition createScheduleChangeItem (processedText originalMessage : str)
    (metadata : Metadata.t) (subjects : list str) (dates : list Date)
    (confidence : Double.number) : ClassificationResult :=
  let changeType := detectChangeType processedText in
  let '(original_time, new_time) :=
    if is_time_change changeType && (2 <=? length dates)%nat
    then (head dates, head (tail dates))
    else if (0 <? length dates)%nat then (None, head dates)
    else (None, None) in
  let new_location :=
    if is_location_change changeType then
      match match_ processedText location_re with
      | Some locationMatch => at_ locationMatch 1
      | None => None
      end
    else None in
  let scheduleItem :=
    {| ScheduleChangeItem.chat_id := Metadata.chat_id metadata;
       ScheduleChangeItem.sender_id := Metadata.sender_id metadata;
       ScheduleChangeItem.timestamp := Metadata.timestamp metadata;
       ScheduleChangeItem.content := processedText;
       ScheduleChangeItem.original_message := originalMessage;
       ScheduleChangeItem.subject := head subjects;
       ScheduleChangeItem.change_type := changeType;
       ScheduleChangeItem.original_time := original_time;
       ScheduleChangeItem.new_time := new_time;
       ScheduleChangeItem.original_location := None;
       ScheduleChangeItem.new_location := new_location |} in
  {| item := ScheduleChange scheduleItem; confidence := confidence |}.

Definition createAnnouncementItem (processedText originalMessage : str)
    (metadata : Metadata.t) (dates : list Date) (confidence : Double.number)
  : ClassificationResult :=
  let announcementItem :=
    {| AnnouncementItem.chat_id := Metadata.chat_id metadata;
       AnnouncementItem.sender_id := Metadata.sender_id metadata;
       AnnouncementItem.timestamp := Metadata.timestamp metadata;
       AnnouncementItem.content := processedText;
       AnnouncementItem.original_message := originalMessage;
       AnnouncementItem.announcement_type := detectAnnouncementType processedText;
       AnnouncementItem.urgency := detectUrgency processedText;
       AnnouncementItem.related_date := head dates |} in
  {| item := Announcement announcementItem; confidence := confidence |}.

(** [classifyMessage(message, metadata)], called at time [now].  The body of
    the [try] is the [Some] branch; an exception thrown in it is caught and
    the result is [null] ([None]). *)
Definition classifyMessage (now : Z) (message : str) (metadata : Metadata.t)
  : option ClassificationResult :=
  match extractContent default_options message now with
  | None => None
  | Some extracted =>
    let processedText := processedText extracted in
    let importance := calculateImportance processedText in
    if (importance <? Double.lit 0.1)%D then None
    else
      let homeworkScore := calculateHomeworkScore processedText in
      if (homeworkScore >? Double.lit 0.6)%D then
        Some (createHomeworkItem processedText message metadata (subjects extracted)
                (dates extracted) (pages extracted) (exerciseNumbers extracted)
                homeworkScore)
      else
        let scheduleScore := calculateScheduleChangeScore processedText in
        if (scheduleScore >? Double.lit 0.6)%D then
          Some (createScheduleChangeItem processedText message metadata
                  (subjects extracted) (dates extracted) scheduleScore)
        else
          let announcementScore := calculateAnnouncementScore processedText importance in
          if (announcementScore >? Double.lit 0.4)%D then
            Some (createAnnouncementItem processedText message metadata
                    (dates extracted) announcementScore)
          else None
  end.

(** An element of the array given to [classifyMessages]. *)
Module Message.
Record t : Type := {
  text : str;
  chat_id : str;
  sender_id : str;
  timestamp : Date
}.
End Message.

(** The loop of [classifyMessages]; the message at index [i] of the array is
    classified at time [now i]. *)
Fixpoint classifyMessages_from (now : nat -> Z) (i : nat) (messages : list Message.t)
  : list ClassificationResult :=
  match messages with
  | [] => []
  | message :: rest =>
    let result :=
      classifyMessage (now i) (Message.text message)
        {| Metadata.chat_id := Message.chat_id message;
           Metadata.sender_id := Message.sender_id message;
           Metadata.timestamp := Message.timestamp message |} in
    match result with
    | Some r => r :: classifyMessages_from now (S i) rest
    | None => classifyMessages_from now (S i) rest
    end
  end.

Definition classifyMessages (now : nat -> Z) (messages : list Message.t)
  : list ClassificationResult :=
  classifyMessages_from now 0 messages.

Module ClassificationStats.
Record t : Type := {
  total : Z;
  classified : Z;
  homework : Z;
  scheduleChanges : Z;
  announcements : Z;
  avgConfidence : Double.number
}.
End ClassificationStats.

(** The counters of [getClassificationStats] while it loops over the
    results: [homework], [scheduleChanges], [announcements] and
    [totalConfidence]. *)
Definition stats_step (st : Z * Z * Z * Double.number) (result : ClassificationResult)
  : Z * Z * Z * Double.number :=
  let '(hw, sc, an, totalConfidence) := st in
  let totalConfidence := (totalConfidence + confidence result)%D in
  match item_type (item result) with
  | homework => ((hw + 1)%Z, sc, an, totalConfidence)
  | schedule_change => (hw, (sc + 1)%Z, an, totalConfidence)
  | announcement => (hw, sc, (an + 1)%Z, totalConfidence)
  end.

Definition getClassificationStats (now : nat -> Z) (messages : list Message.t)
  : ClassificationStats.t :=
  let results := classifyMessages now messages in
  let '(hw, sc, an, totalConfidence) := fold_left stats_step results (0%Z, 0%Z, 0%Z, 0%Q) in
  {| ClassificationStats.total := Z.of_nat (length messages);
     ClassificationStats.classified := Z.of_nat (length results);
     ClassificationStats.homework := hw;
     ClassificationStats.scheduleChanges := sc;
     ClassificationStats.announcements := an;
     ClassificationStats.avgConfidence :=
       if (0 <? length results)%nat
       then (totalConfidence / Double.of_nat (length results))%D
       else 0%Q |}.

End ContentClassifier.

(* ===================================================================== *)
(** ** JavaScript values *)
(* ===================================================================== *)

(** The values the filter can be handed: [validateInput] inspects its
    argument dynamically, whatever the declared types.  A number is an
    integer or NaN ([None]); an object is the list of its own properties. *)
#[warnings="-register-all"]
Inductive jsval : Type :=
| JUndefined
| JNull
| JBool (b : bool)
| JNumber (n : option Z)
| JString (s : str)
| JArray (elements : list jsval)
| JObject (properties : list (str * jsval)).

Module JSValue.

(** ToBoolean *)
Definition truthy (v : jsval) : bool :=
  match v with
  | JUndefined | JNull => false
  | JBool b => b
  | JNumber (Some n) => negb (n =? 0)%Z
  | JNumber None => false
  | JString s => match s with [] => false | _ => true end
  | JArray _ | JObject _ => true
  end.

Inductive jstype : Type := t_undefined | t_object | t_boolean | t_number | t_string.

Definition typeof (v : jsval) : jstype :=
  match v with
  | JUndefined => t_undefined
  | JNull => t_object
  | JBool _ => t_boolean
  | JNumber _ => t_number
  | JString _ => t_string
  | JArray _ | JObject _ => t_object
  end.

Definition is_string (v : jsval) : bool :=
  match v with JString _ => true | _ => false end.

Definition is_object (v : jsval) : bool :=
  match typeof v with t_object => true | _ => false end.

Definition isArray (v : jsval) : bool :=
  match v with JArray _ => true | _ => false end.

(** [v.key], for the property names the filter reads ([messages],
    [subscribed_chats], [period], [start], [end], [chat_id], [sender_id],
    [timestamp], [text]): an own property of an object, [undefined] on any
    other value that is not [null] or [undefined]. *)
Definition get (v : jsval) (key : string) : jsval :=
  match v with
  | JObject ps =>
    match find (fun '(k, _) => str_eqb k (js key)) ps with
    | Some (_, x) => x
    | None => JUndefined
    end
  | _ => JUndefined
  end.

(** Decimal digits of a non-negative integer. *)
Fixpoint dec_digits (fuel : nat) (n : Z) (acc : str) : str :=
  match fuel with
  | O => acc
  | S f =>
    let acc' := Z.to_N (48 + n mod 10) :: acc in
    if (n <? 10)%Z then acc' else dec_digits f (n / 10) acc'
  end.

Definition num_str (n : Z) : str :=
  (if (n <? 0)%Z then js "-" else []) ++ dec_digits (Z.to_nat (Z.log2 (Z.abs n)) + 1) (Z.abs n) [].

(** ToString (what a template literal applies to a substitution): of a
    primitive; of an array, its elements joined by commas, [null] and
    [undefined] as the empty string; of a plain object. *)
Fixpoint toString (v : jsval) : str :=
  match v with
  | JUndefined => js "undefined"
  | JNull => js "null"
  | JBool true => js "true"
  | JBool false => js "false"
  | JNumber (Some n) => num_str n
  | JNumber None => js "NaN"
  | JString s => s
  | JArray l =>
    (fix join (l : list jsval) : str :=
       match l with
       | [] => []
       | x :: r =>
         match x with JUndefined | JNull => [] | _ => toString x end
         ++ match r with [] => [] | _ => js "," ++ join r end
       end) l
  | JObject _ => js "[object Object]"
  end.

(** [new Date(v)]: a string is parsed, a number is a time value, [null] and
    a boolean count as numbers; [None] is an invalid date.  (The filter
    makes dates of strings only.) *)
Definition Date_of (v : jsval) : Date :=
  match v with
  | JString s => Date_parse s
  | JNumber (Some n) => TimeClip n
  | JNull => Some 0%Z
  | JBool b => Some (if b then 1 else 0)%Z
  | _ => None
  end.

End JSValue.
Import JSValue.

(* ===================================================================== *)
(** ** src/modules/filter/MessageFilter.ts *)
(* ===================================================================== *)

Module MessageFilter.

(** A function that can throw returns a [result]: [Throw msg] is
    [throw new Error(msg)]. *)
Inductive result (A : Type) : Type :=
| Ok (a : A)
| Throw (message : string).
Arguments Ok {A} a.
Arguments Throw {A} message.

Record FilterOptions : Type := {
  enableCache : bool;
  cacheSize : Z
}.

(** The options of [new MessageFilter()]. *)
Definition default_options : FilterOptions :=
  {| enableCache := true; cacheSize := 1000 |}.

(** An instance of the class: its options and its cache, a [Map] from keys
    to [true]. *)
Record t : Type := {
  options : FilterOptions;
  cache : gmap str bool
}.

Definition new (options : FilterOptions) : t :=
  {| options := options; cache := ∅ |}.

Record Stats : Type := {
  totalProcessed : Z;
  filteredBySubscription : Z;
  filteredByTimePeriod : Z;
  duplicatesRemoved : Z;
  finalCount : Z
}.

Record FilterResult : Type := {
  messages : list jsval;
  stats : Stats
}.

Definition isValidTimestamp (timestamp : jsval) : bool :=
  if negb (truthy timestamp) || negb (is_string timestamp) then false
  else
    match Date_of timestamp with
    | Some t => str_eqb (toISOString t) (toString timestamp)
    | None => false
    end.

(** The checks of one message, in the order of the source. *)
Definition validateMessage (message : jsval) : result unit :=
  if negb (truthy message) || negb (is_object message) then
    Throw "Each message must be an object"
  else if negb (truthy (get message "chat_id")) || negb (is_string (get message "chat_id")) then
    Throw "Each message must have a valid chat_id string"
  else if negb (truthy (get message "sender_id")) || negb (is_string (get message "sender_id")) then
    Throw "Each message must have a valid sender_id string"
  else if negb (truthy (get message "timestamp")) || negb (isValidTimestamp (get message "timestamp")) then
    Throw "Each message must have a valid ISO-8601 timestamp"
  else if negb (is_string (get message "text")) then
    Throw "Each message must have a text property of type string"
  else Ok tt.

(** The loop over the messages: it stops at the first one that throws. *)
Fixpoint validateMessages (messages : list jsval) : result unit :=
  match messages with
  | [] => Ok tt
  | message :: rest =>
    match validateMessage message with
    | Ok _ => validateMessages rest
    | Throw msg => Throw msg
    end
  end.

Definition elements (v : jsval) : list jsval :=
  match v with JArray l => l | _ => [] end.

Definition validateInput (input : jsval) : result unit :=
  if negb (truthy input) then
    Throw "Filter input cannot be null or undefined"
  else if negb (isArray (get input "messages")) then
    Throw "Messages must be an array"
  else if negb (isArray (get input "subscribed_chats")) then
    Throw "Subscribed chats must be an array"
  else if negb (truthy (get input "period")) || negb (is_object (get input "period")) then
    Throw "Period must be an object with start and end properties"
  else if negb (isValidTimestamp (get (get input "period") "start")) then
    Throw "Period start must be a valid ISO-8601 timestamp"
  else if negb (isValidTimestamp (get (get input "period") "end")) then
    Throw "Period end must be a valid ISO-8601 timestamp"
  else
    let startDate := Date_of (get (get input "period") "start") in
    let endDate := Date_of (get (get input "period") "end") in
    if date_geb startDate endDate then
      Throw "Period start must be before period end"
    else validateMessages (elements (get input "messages")).

Definition isMessageInPeriod (message period : jsval) : bool :=
  let messageDate := Date_of (get message "timestamp") in
  let startDate := Date_of (get period "start") in
  let endDate := Date_of (get period "end") in
  date_geb messageDate startDate && date_ltb messageDate endDate.

(** The key of a message; the cache records it while it has room. *)
Definition getMessageKey (self : t) (message : jsval) : str * t :=
  let key :=
    toString (get message "chat_id") ++ js ":" ++ toString (get message "sender_id")
    ++ js ":" ++ toString (get message "timestamp") ++ js ":" ++ toString (get message "text") in
  let self :=
    if enableCache (options self) && (Z.of_nat (size (cache self)) <? cacheSize (options self))%Z
    then {| options := options self; cache := <[key := true]> (cache self) |}
    else self in
  (key, self).

(** The loop of [removeDuplicates]: [seen] and [uniqueMessages] are its two
    local variables. *)
Fixpoint removeDuplicates_loop (self : t) (messages : list jsval)
    (seen : gset str) (uniqueMessages : list jsval) : list jsval * t :=
  match messages with
  | [] => (uniqueMessages, self)
  | message :: rest =>
    let '(key, self) := getMessageKey self message in
    if bool_decide (key ∈ seen)
    then removeDuplicates_loop self rest seen uniqueMessages
    else removeDuplicates_loop self rest ({[key]} ∪ seen) (uniqueMessages ++ [message])
  end.

Definition removeDuplicates (self : t) (messages : list jsval) : list jsval * t :=
  removeDuplicates_loop self messages ∅ [].

(** [array.filter(callback)] with a callback that counts the elements it
    rejects in a field of [stats]: the elements kept, and the count. *)
Definition filter_counting (keep : jsval -> bool) (l : list jsval) : list jsval * Z :=
  fold_left
    (fun '(kept, rejected) x =>
       if keep x then (kept ++ [x], rejected) else (kept, (rejected + 1)%Z))
    l ([], 0%Z).

(** The strings of an array: a [Set] built from the array holds a given
    string if and only if one of these is that string. *)
Definition strings_of (l : list jsval) : list str :=
  omap (fun v => match v with JString s => Some s | _ => None end) l.

(** [filter(input)] on the instance [self]: the result or the exception,
    and the instance afterwards. *)
Definition filter (self : t) (input : jsval) : result FilterResult * t :=
  match validateInput input with
  | Throw msg => (Throw msg, self)
  | Ok _ =>
    let messages := elements (get input "messages") in
    let subscribed_chats := elements (get input "subscribed_chats") in
    let period := get input "period" in
    let totalProcessed := Z.of_nat (length messages) in
    let subscribedChatsSet : gset str := list_to_set (strings_of subscribed_chats) in
    let '(subscribedMessages, filteredBySubscription) :=
      filter_counting
        (fun message =>
           match get message "chat_id" with
           | JString c => bool_decide (c ∈ subscribedChatsSet)
           | _ => false
           end) messages in
    let '(timeFilteredMessages, filteredByTimePeriod) :=
      filter_counting (fun message => isMessageInPeriod message period) subscribedMessages in
    let '(uniqueMessages, self) := removeDuplicates self timeFilteredMessages in
    let duplicatesRemoved :=
      (Z.of_nat (length timeFilteredMessages) - Z.of_nat (length uniqueMessages))%Z in
    let finalCount := Z.of_nat (length uniqueMessages) in
    (Ok {| messages := uniqueMessages;
           stats := {| totalProcessed := totalProcessed;
                       filteredBySubscription := filteredBySubscription;
                       filteredByTimePeriod := filteredByTimePeriod;
                       duplicatesRemoved := duplicatesRemoved;
                       finalCount := finalCount |} |}, self)
  end.

(** [clearCache()] and [getCacheSize()]. *)
Definition clearCache (self : t) : t :=
  {| options := options self; cache := ∅ |}.

Definition getCacheSize (self : t) : Z := Z.of_nat (size (cache self)).

End MessageFilter.

(* ===================================================================== *)
(** ** src/SchoolChatSummarizer.ts *)
(* ===================================================================== *)

Module SchoolChatSummarizer.
Import ContentClassifier.

(** What the language leaves to the engine: the date of a string that is
    not in the Date Time String Format, and the messages of the errors the
    engine itself throws (the [TypeError] for reading a property of [null]
    or [undefined], the [RangeError] of [toISOString] on an invalid
    date). *)
Inductive engine_error : Type :=
| property_of_nullish (value : jsval) (key : string)
| invalid_time_value.

Record Engine : Type := {
  Date_parse : str -> Date;
  error_message : engine_error -> str
}.

(** What is thrown: [new Error(message)], or an error of the engine. *)
Inductive exn : Type :=
| Error (message : str)
| EngineError (e : engine_error).

(** [error.message] *)
Definition message_of (engine : Engine) (e : exn) : str :=
  match e with
  | Error message => message
  | EngineError e => error_message engine e
  end.

(** A function that can throw returns a [completion]; a promise that is
    rejected is a [Raise], too. *)
Inductive completion (A : Type) : Type :=
| Return (a : A)
| Raise (e : exn).
Arguments Return {A} a.
Arguments Raise {A} e.

(** The wall clock: the readings of [Date.now()] at the start and at the
    end of [process], the time [new Date()] at which the message at each
    index is classified, and the time of [run_time]. *)
Record Clock : Type := {
  startTime : Z;
  classifyTime : nat -> Z;
  endTime : Z;
  runTime : Z
}.

Record SummarizerOptions : Type := {
  opt_minConfidence : option Double.number;
  opt_debug : option bool;
  opt_sortByTimestamp : option bool
}.

(** [Required<SummarizerOptions>] *)
Record Options : Type := {
  minConfidence : Double.number;
  debug : bool;
  sortByTimestamp : bool
}.

Module ItemsByType.
Record t : Type := {
  homework : Z;
  schedule_change : Z;
  announcement : Z
}.
End ItemsByType.

Record SummarizerStats : Type := {
  totalMessages : Z;
  filteredMessages : Z;
  classifiedMessages : Z;
  itemsByType : ItemsByType.t;
  processingTime : Z
}.

Module ExtractedOutputItem.
Record t : Type := {
  type : ItemType;
  chat_id : str;
  sender_id : str;
  timestamp : str;
  content : str
}.
End ExtractedOutputItem.

Record SummarizerOutput : Type := {
  period : jsval;
  run_time : str;
  extracted_items : list ExtractedOutputItem.t
}.

(** [InputMessage] and [WhatsAppMessage], where the code relies on the
    declared type of a message: four strings. *)
Module InputMessage.
Record t : Type := {
  chat_id : str;
  sender_id : str;
  timestamp : str;
  text : str
}.
End InputMessage.

(** An instance of the class.  (The classifier has no state.  What the
    [debug] option prints is not part of the model.) *)
Record t : Type := {
  messageFilter : MessageFilter.t;
  options : Options;
  stats : SummarizerStats
}.

Definition no_stats : SummarizerStats :=
  {| totalMessages := 0; filteredMessages := 0; classifiedMessages := 0;
     itemsByType := {| ItemsByType.homework := 0; ItemsByType.schedule_change := 0;
                       ItemsByType.announcement := 0 |};
     processingTime := 0 |}.

(** The constructor: [options.x ?? default]. *)
Definition new (options : SummarizerOptions) : t :=
  {| messageFilter := MessageFilter.new MessageFilter.default_options;
     options := {| minConfidence := default (Double.lit 0.5) (opt_minConfidence options);
                   debug := default false (opt_debug options);
                   sortByTimestamp := default true (opt_sortByTimestamp options) |};
     stats := no_stats |}.

Definition getStats (self : t) : SummarizerStats := stats self.

(** [new Date(v)]: a string is parsed; an array or an object is converted
    to a string first, and that is parsed; anything else is converted to a
    number, the time value.  (An object is plain data here as elsewhere: it
    has no property [toString] or [valueOf] of its own.) *)
Definition new_Date (engine : Engine) (v : jsval) : Date :=
  match v with
  | JString s => Date_parse engine s
  | JArray _ | JObject _ => Date_parse engine (toString v)
  | JNumber (Some n) => TimeClip n
  | JNumber None => None
  | JBool b => Some (if b then 1 else 0)%Z
  | JNull => Some 0%Z
  | JUndefined => None
  end.

(** The callback of [input.messages.forEach] in [validateInput], message by
    message; [index] is the index of the first one. *)
Fixpoint validateMessages (engine : Engine) (messages : list jsval) (index : nat)
  : completion unit :=
  match messages with
  | [] => Return tt
  | msg :: rest =>
    match msg with
    | JUndefined | JNull => Raise (EngineError (property_of_nullish msg "chat_id"))
    | _ =>
      if negb (truthy (get msg "chat_id")) || negb (truthy (get msg "sender_id"))
         || negb (truthy (get msg "timestamp")) || negb (truthy (get msg "text"))
      then Raise (Error (js "Invalid message at index " ++ num_str (Z.of_nat index)
                         ++ js ": missing required fields"))
      else
        match new_Date engine (get msg "timestamp") with
        | None =>
          Raise (Error (js "Invalid timestamp in message at index "
                        ++ num_str (Z.of_nat index)))
        | Some _ => validateMessages engine rest (S index)
        end
    end
  end.

Definition validateInput (engine : Engine) (input : jsval) : completion unit :=
  if negb (truthy input) then Raise (Error (js "Input is required"))
  else if negb (isArray (get input "messages")) then
    Raise (Error (js "messages must be an array"))
  else if negb (isArray (get input "subscribed_chats")) then
    Raise (Error (js "subscribed_chats must be an array"))
  else if negb (truthy (get input "period")) || negb (truthy (get (get input "period") "start"))
          || negb (truthy (get (get input "period") "end")) then
    Raise (Error (js "period with start and end timestamps is required"))
  else
    let startDate := new_Date engine (get (get input "period") "start") in
    let endDate := new_Date engine (get (get input "period") "end") in
    match startDate with
    | None => Raise (Error (js "period.start must be a valid ISO 8601 timestamp"))
    | Some _ =>
      match endDate with
      | None => Raise (Error (js "period.end must be a valid ISO 8601 timestamp"))
      | Some _ =>
        if date_geb startDate endDate then
          Raise (Error (js "period.start must be before period.end"))
        else validateMessages engine (MessageFilter.elements (get input "messages")) 0
      end
    end.

Definition resetStats (self : t) : t :=
  {| messageFilter := messageFilter self; options := options self; stats := no_stats |}.

(** The callback of [input.messages.map] in [filterMessages]. *)
Definition to_WhatsAppMessage (msg : jsval) : completion jsval :=
  match msg with
  | JUndefined | JNull => Raise (EngineError (property_of_nullish msg "chat_id"))
  | _ =>
    Return (JObject [(js "chat_id", get msg "chat_id"); (js "sender_id", get msg "sender_id");
                     (js "timestamp", get msg "timestamp"); (js "text", get msg "text")])
  end.

(** [array.map(callback)] with a callback that can throw. *)
Fixpoint map_completion {A B : Type} (f : A -> completion B) (l : list A)
  : completion (list B) :=
  match l with
  | [] => Return []
  | x :: rest =>
    match f x with
    | Raise e => Raise e
    | Return y =>
      match map_completion f rest with
      | Raise e => Raise e
      | Return ys => Return (y :: ys)
      end
    end
  end.

(** The messages the filter returns, or what it throws, and the instance
    afterwards. *)
Definition filterMessages (self : t) (input : jsval) : completion (list jsval) * t :=
  match map_completion to_WhatsAppMessage (MessageFilter.elements (get input "messages")) with
  | Raise e => (Raise e, self)
  | Return whatsappMessages =>
    let filterInput :=
      JObject [(js "messages", JArray whatsappMessages);
               (js "subscribed_chats", get input "subscribed_chats");
               (js "period", get input "period")] in
    let '(filterResult, messageFilter) :=
      MessageFilter.filter (messageFilter self) filterInput in
    let self := {| messageFilter := messageFilter; options := options self;
                   stats := stats self |} in
    match filterResult with
    | MessageFilter.Ok filterResult => (Return (MessageFilter.messages filterResult), self)
    | MessageFilter.Throw msg => (Raise (Error (js msg)), self)
    end
  end.

(** A message that the filter returns has passed its validation, so its
    four fields are strings: it is a [WhatsAppMessage] as declared. *)
Definition as_message (v : jsval) : option InputMessage.t :=
  match get v "chat_id", get v "sender_id", get v "timestamp", get v "text" with
  | JString chat_id, JString sender_id, JString timestamp, JString text =>
    Some {| InputMessage.chat_id := chat_id; InputMessage.sender_id := sender_id;
            InputMessage.timestamp := timestamp; InputMessage.text := text |}
  | _, _, _, _ => None
  end.

(** [a >= b] on numbers that are not NaN. *)
Definition geb (a b : Double.number) : bool := negb (Double.ltb a b).

(** [this.stats.itemsByType[type]++] *)
Definition count_item (self : t) (type : ItemType) : t :=
  let counts := itemsByType (stats self) in
  let counts :=
    match type with
    | homework =>
      {| ItemsByType.homework := ItemsByType.homework counts + 1;
         ItemsByType.schedule_change := ItemsByType.schedule_change counts;
         ItemsByType.announcement := ItemsByType.announcement counts |}
    | schedule_change =>
      {| ItemsByType.homework := ItemsByType.homework counts;
         ItemsByType.schedule_change := ItemsByType.schedule_change counts + 1;
         ItemsByType.announcement := ItemsByType.announcement counts |}
    | announcement =>
      {| ItemsByType.homework := ItemsByType.homework counts;
         ItemsByType.schedule_change := ItemsByType.schedule_change counts;
         ItemsByType.announcement := ItemsByType.announcement counts + 1 |}
    end in
  {| messageFilter := messageFilter self; options := options self;
     stats := {| totalMessages := totalMessages (stats self);
                 filteredMessages := filteredMessages (stats self);
                 classifiedMessages := classifiedMessages (stats self);
                 itemsByType := counts;
                 processingTime := processingTime (stats self) |} |}.

(** The call of the classifier on a message, at time [now]; the timestamp
    of the metadata is [new Date(message.timestamp)]. *)
Definition classify (engine : Engine) (now : Z) (message : InputMessage.t)
  : option ClassificationResult :=
  classifyMessage now (InputMessage.text message)
    {| Metadata.chat_id := InputMessage.chat_id message;
       Metadata.sender_id := InputMessage.sender_id message;
       Metadata.timestamp := Date_parse engine (InputMessage.timestamp message) |}.

(** The loop of [classifyMessages] from the message at [index] on;
    [results] is its local variable.  (Nothing in the [try] throws:
    [classifyMessage] catches what its body throws.) *)
Fixpoint classifyMessages_from (engine : Engine) (clock : Clock) (index : nat)
    (messages : list InputMessage.t) (results : list ClassificationResult) (self : t)
  : list ClassificationResult * t :=
  match messages with
  | [] => (results, self)
  | message :: rest =>
    match classify engine (classifyTime clock index) message with
    | Some classificationResult =>
      if geb (confidence classificationResult) (minConfidence (options self))
      then classifyMessages_from engine clock (S index) rest
             (results ++ [classificationResult])
             (count_item self (item_type (item classificationResult)))
      else classifyMessages_from engine clock (S index) rest results self
    | None => classifyMessages_from engine clock (S index) rest results self
    end
  end.

Definition classifyMessages (engine : Engine) (clock : Clock) (self : t)
    (messages : list InputMessage.t) : list ClassificationResult * t :=
  classifyMessages_from engine clock 0 messages [] self.

(** The callback of [classifiedItems.map] in [convertToOutputFormat];
    [toISOString] throws on an invalid date. *)
Definition to_output (result : ClassificationResult) : completion ExtractedOutputItem.t :=
  match item_timestamp (item result) with
  | Some t =>
    Return {| ExtractedOutputItem.type := item_type (item result);
              ExtractedOutputItem.chat_id := item_chat_id (item result);
              ExtractedOutputItem.sender_id := item_sender_id (item result);
              ExtractedOutputItem.timestamp := toISOString t;
              ExtractedOutputItem.content := item_content (item result) |}
  | None => Raise (EngineError invalid_time_value)
  end.

Definition convertToOutputFormat (classifiedItems : list ClassificationResult)
  : completion (list ExtractedOutputItem.t) :=
  map_completion to_output classifiedItems.

(** The comparison function of the sort: the difference of the two times.
    (As a double the difference is rounded, which keeps its sign; a
    difference that is NaN counts as 0.) *)
Definition by_timestamp (engine : Engine) (a b : ExtractedOutputItem.t) : Z :=
  match Date_parse engine (ExtractedOutputItem.timestamp a),
        Date_parse engine (ExtractedOutputItem.timestamp b) with
  | Some x, Some y => (x - y)%Z
  | _, _ => 0%Z
  end.

Definition with_stats (self : t) (stats : SummarizerStats) : t :=
  {| messageFilter := messageFilter self; options := options self; stats := stats |}.

(** The [catch] of [process]: the time is recorded and the error wrapped. *)
Definition failed (engine : Engine) (clock : Clock) (self : t) (error : exn)
  : completion SummarizerOutput * t :=
  (Raise (Error (js "Failed to process messages: " ++ message_of engine error)),
   with_stats self
     {| totalMessages := totalMessages (stats self);
        filteredMessages := filteredMessages (stats self);
        classifiedMessages := classifiedMessages (stats self);
        itemsByType := itemsByType (stats self);
        processingTime := (endTime clock - startTime clock)%Z |}).

(** [process(input)] on the instance [self]: the output the promise is
    resolved with or the error it is rejected with, and the instance
    afterwards. *)
Definition process (engine : Engine) (clock : Clock) (self : t) (input : jsval)
  : completion SummarizerOutput * t :=
  match validateInput engine input with
  | Raise e => failed engine clock self e
  | Return _ =>
    let self := resetStats self in
    let self :=
      with_stats self
        {| totalMessages := Z.of_nat (length (MessageFilter.elements (get input "messages")));
           filteredMessages := filteredMessages (stats self);
           classifiedMessages := classifiedMessages (stats self);
           itemsByType := itemsByType (stats self);
           processingTime := processingTime (stats self) |} in
    match filterMessages self input with
    | (Raise e, self) => failed engine clock self e
    | (Return filteredMessages, self) =>
      let self :=
        with_stats self
          {| totalMessages := totalMessages (stats self);
             filteredMessages := Z.of_nat (length filteredMessages);
             classifiedMessages := classifiedMessages (stats self);
             itemsByType := itemsByType (stats self);
             processingTime := processingTime (stats self) |} in
      let '(classifiedItems, self) :=
        classifyMessages engine clock self (omap as_message filteredMessages) in
      let self :=
        with_stats self
          {| totalMessages := totalMessages (stats self);
             filteredMessages := SchoolChatSummarizer.filteredMessages (stats self);
             classifiedMessages := Z.of_nat (length classifiedItems);
             itemsByType := itemsByType (stats self);
             processingTime := processingTime (stats self) |} in
      match convertToOutputFormat classifiedItems with
      | Raise e => failed engine clock self e
      | Return extractedItems =>
        let extractedItems :=
          if sortByTimestamp (options self)
          then ContentExtractor.sort (by_timestamp engine) extractedItems
          else extractedItems in
        let self :=
          with_stats self
            {| totalMessages := totalMessages (stats self);
               filteredMessages := SchoolChatSummarizer.filteredMessages (stats self);
               classifiedMessages := classifiedMessages (stats self);
               itemsByType := itemsByType (stats self);
               processingTime := (endTime clock - startTime clock)%Z |} in
        (Return {| period := get input "period";
                   run_time := toISOString (runTime clock);
                   extracted_items := extractedItems |}, self)
      end
    end
  end.

(** [processSingleMessage(message, subscribedChats)], called at time
    [now]; the result is an item, [null] ([None]), or an exception. *)
Definition processSingleMessage (engine : Engine) (now : Z) (self : t)
    (message : InputMessage.t) (subscribedChats : list str)
  : completion (option ExtractedOutputItem.t) :=
  if negb (existsb (str_eqb (InputMessage.chat_id message)) subscribedChats) then Return None
  else
    match classify engine now message with
    | Some result =>
      if geb (confidence result) (minConfidence (options self)) then
        match to_output result with
        | Return item => Return (Some item)
        | Raise e => Raise e
        end
      else Return None
    | None => Return None
    end.

End SchoolChatSummarizer.

(* ===================================================================== *)
(** * Specifications *)
(* ===================================================================== *)

(** The notions the statements below are phrased with. *)

Module FilterSpec.
Import MessageFilter.

(** The key [removeDuplicates] compares messages by. *)
Definition key_of (message : jsval) : str :=
  toString (get message "chat_id") ++ js ":" ++ toString (get message "sender_id")
  ++ js ":" ++ toString (get message "timestamp") ++ js ":" ++ toString (get message "text").

(** The identifying tuple of a message. *)
Definition tuple_of (message : jsval) : jsval * jsval * jsval * jsval :=
  (get message "chat_id", get message "sender_id", get message "timestamp", get message "text").

(** The messages of a list whose key is neither in [seen] nor the key of an
    earlier message of the list. *)
Fixpoint first_occurrences (seen : gset str) (l : list jsval) : list jsval :=
  match l with
  | [] => []
  | message :: rest =>
    if bool_decide (key_of message ∈ seen) then first_occurrences seen rest
    else message :: first_occurrences ({[key_of message]} ∪ seen) rest
  end.

(** A string that passes the strict check: it parses, and the ISO string of
    the parsed time is the string itself. *)
Definition round_trips (v : jsval) (t : Z) : Prop :=
  exists s, v = JString s /\ Date_parse s = Some t /\ toISOString t = s.

Definition valid_timestamp (v : jsval) : Prop := exists t, round_trips v t.

Definition nonempty_string (v : jsval) : Prop :=
  exists s, v = JString s /\ s <> [].

(** What is wrong with one message, and the text of the error for it. *)
Inductive message_violation (message : jsval) : string -> Prop :=
| not_an_object :
    truthy message && is_object message = false ->
    message_violation message "Each message must be an object"
| bad_chat_id :
    ~ nonempty_string (get message "chat_id") ->
    message_violation message "Each message must have a valid chat_id string"
| bad_sender_id :
    ~ nonempty_string (get message "sender_id") ->
    message_violation message "Each message must have a valid sender_id string"
| bad_timestamp :
    ~ valid_timestamp (get message "timestamp") ->
    message_violation message "Each message must have a valid ISO-8601 timestamp"
| bad_text :
    is_string (get message "text") = false ->
    message_violation message "Each message must have a text property of type string".

(** What is wrong with an input, and the text of the error for it. *)
Inductive violation (input : jsval) : string -> Prop :=
| no_input :
    truthy input = false ->
    violation input "Filter input cannot be null or undefined"
| messages_not_array :
    isArray (get input "messages") = false ->
    violation input "Messages must be an array"
| chats_not_array :
    isArray (get input "subscribed_chats") = false ->
    violation input "Subscribed chats must be an array"
| period_not_object :
    truthy (get input "period") && is_object (get input "period") = false ->
    violation input "Period must be an object with start and end properties"
| bad_start :
    ~ valid_timestamp (get (get input "period") "start") ->
    violation input "Period start must be a valid ISO-8601 timestamp"
| bad_end :
    ~ valid_timestamp (get (get input "period") "end") ->
    violation input "Period end must be a valid ISO-8601 timestamp"
| start_not_before_end : forall s e,
    round_trips (get (get input "period") "start") s ->
    round_trips (get (get input "period") "end") e ->
    (e <= s)%Z ->
    violation input "Period start must be before period end"
| bad_message : forall message msg,
    In message (elements (get input "messages")) ->
    message_violation message msg ->
    violation input msg.

(** A message of the input is subscribed when its [chat_id] is one of the
    strings of [subscribed_chats]. *)
Definition subscribed (input message : jsval) : Prop :=
  exists c, get message "chat_id" = JString c
            /\ In (JString c) (elements (get input "subscribed_chats")).

(** The messages the subscription filter keeps, and those of them the time
    filter keeps: [subscribedMessages] and [timeFilteredMessages] of
    [filter]. *)
Definition subscribedMessages (input : jsval) : list jsval :=
  List.filter
    (fun message =>
       match get message "chat_id" with
       | JString c =>
         bool_decide (c ∈ (list_to_set (strings_of (elements (get input "subscribed_chats")))
                           : gset str))
       | _ => false
       end) (elements (get input "messages")).

Definition timeFilteredMessages (input : jsval) : list jsval :=
  List.filter (fun message => isMessageInPeriod message (get input "period"))
              (subscribedMessages input).

End FilterSpec.

(** Inputs the statements are tried on. *)
Module Examples.

Definition message (chat_id sender_id timestamp text : string) : jsval :=
  JObject [(js "chat_id", JString (js chat_id)); (js "sender_id", JString (js sender_id));
           (js "timestamp", JString (js timestamp)); (js "text", JString (js text))].

Definition period (start end_ : string) : jsval :=
  JObject [(js "start", JString (js start)); (js "end", JString (js end_))].

Definition input (messages : list jsval) (subscribed_chats : list string) (period : jsval)
  : jsval :=
  JObject [(js "messages", JArray messages);
           (js "subscribed_chats", JArray (map (fun c => JString (js c)) subscribed_chats));
           (js "period", period)].

Definition january : jsval := period "2025-01-01T00:00:00.000Z" "2025-01-31T23:59:59.999Z".

Definition hello : jsval := message "chat_001" "teacher_001" "2025-01-15T10:00:00.000Z" "hello".

Definition three_copies : jsval := input [hello; hello; hello] ["chat_001"%string] january.

(** The period of the test data with its bounds exchanged. *)
Definition backwards : jsval :=
  input [hello] ["chat_001"%string]
        (period "2025-01-31T23:59:59.999Z" "2025-01-01T00:00:00.000Z").

(** Two messages with different chat and sender but one key. *)
Definition collide_1 : jsval := message "a:b" "c" "2025-01-15T10:00:00.000Z" "x".
Definition collide_2 : jsval := message "a" "b:c" "2025-01-15T10:00:00.000Z" "x".
Definition collision : jsval := input [collide_1; collide_2] ["a:b"; "a"]%string january.

(** Messages on the two bounds of [january], one millisecond before its
    start and inside it; the first and the last are copies. *)
Definition at_start : jsval :=
  message "chat_001" "teacher_001" "2025-01-01T00:00:00.000Z" "first lesson".


End Examples.

Module DateSpec.
Local Open Scope Z_scope.

(** The number of days of month [mn] (0 to 11) of year [y]. *)
Definition DaysInMonth (y mn : Z) : Z :=
  match mn with
  | 0 => 31
  | 1 => 28 + leapAdj y
  | 2 => 31
  | 3 => 30
  | 4 => 31
  | 5 => 30
  | 6 => 31
  | 7 => 31
  | 8 => 30
  | 9 => 31
  | 10 => 30
  | 11 => 31
  | _ => 0
  end.





(** The number a string of decimal digits denotes. *)
Definition decimal (s : str) : Z :=
  fold_left (fun acc c => acc * 10 + (Z.of_N c - 48)) s 0.


End DateSpec.

Module RelativeDateSpec.
Import ContentExtractor.
Local Open Scope Z_scope.



Definition this_week_keyword (text : str) : bool :=
  includes text (js "this week") || includes text (js "השבוע").


(** Wednesday 15 January 2025, 10:00. *)
Definition a_wednesday : Z := 1736935200000.

End RelativeDateSpec.

Module DoubleSpec.
Import Double.
Local Open Scope Q_scope.

(** The doubles of the model: 0 and the positive rationals [m * 2^e] with a
    mantissa [m] of 53 bits (the upper end [2^53] is the next power of
    two). *)
Definition format (x : Q) : Prop :=
  x == 0 \/ exists m e : Z, (2 ^ 52 <= m <= 2 ^ 53)%Z /\ x == inject_Z m * two_pow e.

End DoubleSpec.

(** The same computations in the binary64 format of the standard library's
    specification of IEEE-754 arithmetic ([SpecFloat], precision 53,
    exponent bound 1024), to compare the model of this file with. *)
Module Binary64.
Import Double.
Local Open Scope Q_scope.

Definition of_Z (n : Z) : spec_float := binary_normalize 53 1024 n 0%Z false.

(** The double nearest to the decimal [n / d]. *)
Definition decimal (n d : Z) : spec_float := SFdiv 53 1024 (of_Z n) (of_Z d).

Definition one : spec_float := of_Z 1.

Definition to_Q (f : spec_float) : Q :=
  match f with
  | S754_finite s m e => (if s then -1 else 1) * inject_Z (Z.pos m) * two_pow e
  | _ => 0
  end.

(** A score: a start value, then for each weight "plus the weight if the
    test holds", then the minimum with 1.0; once in each arithmetic.  A
    weight is given in tenths. *)
Definition score_model (start : number) (steps : list (bool * Z)) : number :=
  Double.min
    (fold_left (fun (x : number) (s : bool * Z) =>
                  if s.1 then Double.add x (lit (inject_Z s.2 / 10)) else x) steps start)
    (lit 1.0).

Definition score_binary64 (start : spec_float) (steps : list (bool * Z)) : spec_float :=
  let x := fold_left (fun (x : spec_float) (s : bool * Z) =>
                        if s.1 then SFadd 53 1024 x (decimal s.2 10%Z) else x) steps start in
  if SFltb one x then one else x.

(** All the ways to take or leave each weight of a list. *)
Fixpoint choices (weights : list Z) : list (list (bool * Z)) :=
  match weights with
  | [] => [[]]
  | w :: ws => flat_map (fun c => [(true, w) :: c; (false, w) :: c]) (choices ws)
  end.

(** The quotients [c / w] with [1 <= c <= w <= n]. *)
Definition ratios (n : nat) : list (Z * Z) :=
  flat_map (fun w => map (fun c => (Z.of_nat c, Z.of_nat w)) (seq 1 w)) (seq 1 n).

Definition agree (x : number) (y : spec_float) : bool := Qeq_bool x (to_Q y).

End Binary64.


Module ClassifierSpec.
Import ContentExtractor ContentClassifier.

(** The text the classifier scores: the message, normalised and with its
    abbreviations expanded. *)
Definition processed (message : str) : str :=
  expandAbbreviations (normalizeText message).

(** The pieces the lower-cased text is split into at its runs of white
    space; the tokens of the text are the pieces that are not empty (a piece
    is empty at an end of the text where white space is, and in the empty
    text), and the content tokens are the tokens that are not stop words. *)
Definition pieces (text : str) : list str := split (toLowerCase text) words_re.

Definition tokens (text : str) : list str :=
  List.filter (fun piece => match piece with [] => false | _ => true end) (pieces text).

Definition content_tokens (text : str) : list str :=
  List.filter (fun word => negb (bool_decide (word ∈ STOP_WORDS))) (tokens text).

(** Some pattern of the table [DATE_PATTERNS] matches. *)
Definition any_date_pattern (text : str) : bool :=
  test DATE_PATTERNS.relative text || test DATE_PATTERNS.numeric text
  || test DATE_PATTERNS.textual text || test DATE_PATTERNS.weekday text
  || test DATE_PATTERNS.time text.

Definition contains (c : string) (text : str) : bool := includes text (js c).

(** "plus [b] if [c]". *)
Definition plus_if (c : bool) (b : Q) (x : Double.number) : Double.number :=
  if c then (x + Double.lit b)%D else x.

(** The score with a given test for the date boost: the ratio of the
    content tokens to the tokens, plus the four boosts, at most 1; 0 without
    content tokens. *)
Definition importance_with (date_boost : str -> bool) (text : str) : Double.number :=
  match content_tokens text with
  | [] => 0%Q
  | _ =>
    let ratio := (Double.of_nat (length (content_tokens text))
                  / Double.of_nat (length (tokens text)))%D in
    Double.min
      (plus_if (test urgent_re text) 0.4
         (plus_if (contains "!" text) 0.1
            (plus_if (date_boost text) 0.2
               (plus_if (test HOMEWORK_PATTERNS.keywords text) 0.3 ratio))))
      (Double.lit 1.0)
  end.

(** The importance score as C3 words it, and as amended. *)
Definition importance_as_claimed : str -> Double.number := importance_with any_date_pattern.

Definition importance_amended : str -> Double.number :=
  importance_with (fun text => test DATE_PATTERNS.numeric text || test DATE_PATTERNS.relative text).

End ClassifierSpec.

Module ClassifierExamples.
Import ContentExtractor ContentClassifier.

(** Wednesday 15 January 2025, 10:00. *)
Definition now : Z := 1736935200000.

Definition metadata : Metadata.t :=
  {| Metadata.chat_id := js "chat_001"; Metadata.sender_id := js "teacher_001";
     Metadata.timestamp := Some now |}.

(** Two content words among twenty-one: a homework score of 0.7 and an
    importance below 0.1. *)
Definition diluted : str :=
  js "page 5 do by the the the the the the the the the the the the the the the the the".

(** [multiple_types] of the test data: homework and schedule-change scores
    both above 0.6. *)
Definition multiple_types : str :=
  js "Class cancelled tomorrow. Instead, complete homework pages 30-35. Field trip forms due Friday.".

(** [whitespace_only] of the test data: three spaces, a line feed, a tab,
    two spaces. *)
Definition whitespace_only : str := js "   " ++ [10; 9]%N ++ js "  ".

(** [very_short] of the test data. *)
Definition very_short : str := js "Hi".

(** A weekday and a stop word. *)
Definition the_monday : str := js "the monday".

Definition due_tomorrow : str := js "Math homework due tomorrow!".

Definition permission_slips : str :=
  js "Reminder: Permission slips for next week's field trip must be returned by Friday!".

End ClassifierExamples.

(** Notions for the further properties of the filter. *)
Module FilterProps.
Import MessageFilter FilterSpec.

(** The two tests a message has to pass, as the filter computes them. *)
Definition is_subscribed (input message : jsval) : bool :=
  match get message "chat_id" with
  | JString c =>
    bool_decide (c ∈ (list_to_set (strings_of (elements (get input "subscribed_chats")))
                      : gset str))
  | _ => false
  end.

Definition passes (input message : jsval) : bool :=
  is_subscribed input message && isMessageInPeriod message (get input "period").

(** The timestamp of a message lies in the period of the input, as times:
    [start <= timestamp < end]. *)
Definition in_period (input message : jsval) : Prop :=
  exists t s e,
    round_trips (get message "timestamp") t
    /\ round_trips (get (get input "period") "start") s
    /\ round_trips (get (get input "period") "end") e
    /\ (s <= t < e)%Z.

(** A message that the filter has no reason to drop but a duplicate. *)
Definition admissible (input message : jsval) : Prop :=
  subscribed input message /\ in_period input message.

(** The statistics of a call that drops nothing. *)
Definition nothing_dropped (n : nat) : Stats :=
  {| totalProcessed := Z.of_nat n; filteredBySubscription := 0; filteredByTimePeriod := 0;
     duplicatesRemoved := 0; finalCount := Z.of_nat n |}.

End FilterProps.

(** Further inputs the statements are tried on. *)
Module FilterInputs.
Import MessageFilter Examples.

Definition other_chat : jsval :=
  message "chat_009" "parent_007" "2025-01-15T10:00:00.000Z" "hello".
Definition last_year : jsval :=
  message "chat_001" "teacher_001" "2024-12-31T23:59:59.999Z" "hello".
Definition homework_due : jsval :=
  message "chat_001" "teacher_001" "2025-01-16T08:00:00.000Z" "Math homework due tomorrow!".

(** A message of a chat that is not subscribed, one from before the period,
    and a second copy of a message, among others. *)
Definition mixed : jsval :=
  input [other_chat; hello; last_year; homework_due; hello] ["chat_001"%string] january.

Definition mixed_result : FilterResult :=
  {| messages := [hello; homework_due];
     stats := {| totalProcessed := 5; filteredBySubscription := 1; filteredByTimePeriod := 1;
                 duplicatesRemoved := 1; finalCount := 2 |} |}.

(** The messages returned for [mixed], handed in again. *)
Definition mixed_again : jsval := input [hello; homework_due] ["chat_001"%string] january.

(** [mixed] with its subscribed chat listed twice, beside a number. *)
Definition mixed_listed_twice : jsval :=
  JObject [(js "messages", JArray [other_chat; hello; last_year; homework_due; hello]);
           (js "subscribed_chats",
            JArray [JString (js "chat_001"); JNumber (Some 7%Z); JString (js "chat_001")]);
           (js "period", january)].

(** An instance that does not cache. *)
Definition uncached : t := new {| enableCache := false; cacheSize := 1000 |}.

End FilterInputs.

(** Notions for the properties of the text processing. *)
Module TextSpec.

(** The longest prefix of code units that satisfy [P], and what follows it. *)
Fixpoint take_while (P : N -> bool) (s : str) : str :=
  match s with
  | c :: r => if P c then c :: take_while P r else []
  | [] => []
  end.

Fixpoint drop_while (P : N -> bool) (s : str) : str :=
  match s with
  | c :: r => if P c then drop_while P r else s
  | [] => []
  end.

(** A pattern that matches exactly one code unit, any that satisfies [P]
    (a character or a character class, matched case-sensitively). *)
Definition one_unit (P : N -> bool) (u : regex) : Prop :=
  forall (k : cont) (s : mstate),
    m false u k s = match advance s with
                    | Some (d, s') => if P d then k s' else None
                    | None => None
                    end.

(** A regular expression whose matches are, at a code unit that satisfies
    [P], the next [len rest] code units ([rest] being the input from there
    on), and none elsewhere. *)
Definition matches_runs (P : N -> bool) (len : str -> nat) (r : RegExp) : Prop :=
  ignoreCase r = false /\ ngroups r = 0%nat
  /\ (forall d rest, P d = true -> (1 <= len (d :: rest) <= length (d :: rest))%nat)
  /\ forall s : mstate,
       m false (source r) (fun s' => Some s') s
       = match rest s with
         | d :: _ =>
           if P d
           then Some (mkState (rev (firstn (len (rest s)) (rest s)) ++ before s)
                        (skipn (len (rest s)) (rest s)) (caps s))
           else None
         | [] => None
         end.

(** Every run of code units that satisfy [P] replaced by [by_]; [in_run]
    says that the code unit before was one of a run. *)
Fixpoint collapse (P : N -> bool) (by_ : str) (in_run : bool) (s : str) : str :=
  match s with
  | [] => []
  | c :: r =>
    if P c then (if in_run then [] else by_) ++ collapse P by_ true r
    else c :: collapse P by_ false r
  end.

(** The words of a text (its runs of code units that are not white space)
    separated by single spaces, in one pass over the text. *)
Inductive scan : Type := at_start | in_word | after_space.

Fixpoint respace (st : scan) (s : str) : str :=
  match s with
  | [] => []
  | c :: r =>
    if is_ws c then respace (match st with at_start => at_start | _ => after_space end) r
    else match st with
         | after_space => 32%N :: c :: respace in_word r
         | _ => c :: respace in_word r
         end
  end.

(** A text is single-spaced when each of its white-space characters is a
    space U+0020 that follows a character that is not white space, and its
    last character is not white space; [prev] is the character before
    [s]. *)
Fixpoint single_spaced_after (prev : option N) (s : str) : bool :=
  match s with
  | [] => match prev with Some p => negb (is_ws p) | None => true end
  | c :: r =>
    (if is_ws c
     then (c =? 32)%N && match prev with Some p => negb (is_ws p) | None => false end
     else true)
    && single_spaced_after (Some c) r
  end.

Definition single_spaced (s : str) : bool := single_spaced_after None s.

(** The characters of a text that are not white space. *)
Definition non_space (s : str) : str := List.filter (fun c => negb (is_ws c)) s.

(** A pattern every match of which begins with the assertion [\b]. *)
Fixpoint needs_word_boundary (r : regex) : bool :=
  match r with
  | WordBoundary => true
  | Seq r1 _ => needs_word_boundary r1
  | Alt r1 r2 => needs_word_boundary r1 && needs_word_boundary r2
  | Group _ r1 => needs_word_boundary r1
  | _ => false
  end.

(** A text without a word character of regular expressions (an ASCII
    letter or digit, or the underscore): for instance a text in Hebrew
    letters and punctuation. *)
Definition wordless (s : str) : bool := forallb (fun c => negb (is_word c)) s.

End TextSpec.

(** The patterns that decide the classification of a text, and a message to
    try the statements on. *)
Module WordlessSpec.
Import ContentExtractor ContentClassifier.

(** The patterns of the three scores, and those of the boosts of the
    importance score but for the exclamation mark. *)
Definition scoring_patterns : list RegExp :=
  [ HOMEWORK_PATTERNS.keywords; HOMEWORK_PATTERNS.pages; HOMEWORK_PATTERNS.exercise;
    HOMEWORK_PATTERNS.chapter; actionWords; dueDateIndicators;
    SCHEDULE_PATTERNS.keywords; SCHEDULE_PATTERNS.timeChange; SCHEDULE_PATTERNS.cancellation;
    SCHEDULE_PATTERNS.locationChange; timeReference; dayReference;
    ANNOUNCEMENT_PATTERNS.event; ANNOUNCEMENT_PATTERNS.permissionSlip;
    ANNOUNCEMENT_PATTERNS.urgent; ANNOUNCEMENT_PATTERNS.reminder; infoIndicators;
    DATE_PATTERNS.numeric; DATE_PATTERNS.relative; urgent_re ].

(** The regular expressions [expandAbbreviations] builds. *)
Definition abbreviation_patterns : list RegExp :=
  map (fun '(abbr, _) => compile (js "\b" ++ abbr ++ js "\b") "gi") sortedAbbreviations.

(** [HOMEWORK_MESSAGES.hebrew.literature] of the test data. *)
Definition hebrew_literature : str :=
  js "ספרות: לקרוא את הפרק השלישי ולכתוב סיכום של עמוד. להגשה ביום רביעי.".

(** A text that is an abbreviation of the table, [ABBREVIATIONS], for
    "homework". *)
Definition hebrew_abbreviation : str := js "ש״ב".

End WordlessSpec.

(** Notions for the further properties of the classifier. *)
Module ClassifierProps.
Import ContentClassifier.

(** The threshold the score of a type has to exceed. *)
Definition threshold (t : ItemType) : Double.number :=
  match t with
  | announcement => Double.lit 0.4
  | _ => Double.lit 0.6
  end.

Definition has_type (t : ItemType) (result : ClassificationResult) : bool :=
  match item_type (item result), t with
  | homework, homework => true
  | schedule_change, schedule_change => true
  | announcement, announcement => true
  | _, _ => false
  end.

(** The number of results of a type. *)
Definition count (t : ItemType) (results : list ClassificationResult) : Z :=
  Z.of_nat (length (List.filter (has_type t) results)).

(** Three messages: homework, a greeting of two stop words, and the
    message of the test data with the scores of two types. *)
Definition batch : list Message.t :=
  map (fun text => {| Message.text := text; Message.chat_id := js "chat_001";
                      Message.sender_id := js "teacher_001";
                      Message.timestamp := Some ClassifierExamples.now |})
      [ClassifierExamples.due_tomorrow; js "so what"; ClassifierExamples.multiple_types].

(** A time change that names two days. *)
Definition moved_today : str :=
  js "The lesson was moved from today to tomorrow, new time 10:00".

End ClassifierProps.
(** Notions for the properties of the summarizer. *)
Module SummarizerProps.
Import FilterSpec FilterProps ContentClassifier SchoolChatSummarizer.

(** An engine reads every string that [toISOString] prints as the time it
    was printed from.  (The language fixes that much of [Date.parse]; what
    an engine makes of any other string is left open here.) *)
Definition conforms (engine : Engine) : Prop :=
  forall (s : str) (t : Z),
    JSDate.Date_parse s = Some t -> toISOString t = s -> Date_parse engine s = Some t.

(** A message [process] accepts: the four fields are strings, none of them
    empty, and the timestamp is a complete ISO string. *)
Definition acceptable_message (message : jsval) : Prop :=
  nonempty_string (get message "chat_id")
  /\ nonempty_string (get message "sender_id")
  /\ valid_timestamp (get message "timestamp")
  /\ nonempty_string (get message "text").

(** An input [process] accepts. *)
Definition acceptable (input : jsval) : Prop :=
  isArray (get input "messages") = true
  /\ isArray (get input "subscribed_chats") = true
  /\ (exists s e, round_trips (get (get input "period") "start") s
                  /\ round_trips (get (get input "period") "end") e /\ (s < e)%Z)
  /\ Forall acceptable_message (MessageFilter.elements (get input "messages")).

(** The object [filterMessages] makes of a message, and the input it hands
    to the filter. *)
Definition whatsapp (msg : jsval) : jsval :=
  JObject [(js "chat_id", get msg "chat_id"); (js "sender_id", get msg "sender_id");
           (js "timestamp", get msg "timestamp"); (js "text", get msg "text")].

Definition filterInput (input : jsval) : jsval :=
  JObject [(js "messages", JArray (map whatsapp (MessageFilter.elements (get input "messages"))));
           (js "subscribed_chats", get input "subscribed_chats");
           (js "period", get input "period")].

(** An item reports a message: it has the chat, the sender and the
    timestamp of the message, and its content is the text of the message,
    normalised and with the abbreviations expanded. *)
Definition reports (item : ExtractedOutputItem.t) (message : jsval) : Prop :=
  get message "chat_id" = JString (ExtractedOutputItem.chat_id item)
  /\ get message "sender_id" = JString (ExtractedOutputItem.sender_id item)
  /\ get message "timestamp" = JString (ExtractedOutputItem.timestamp item)
  /\ exists text, get message "text" = JString text
                  /\ ExtractedOutputItem.content item = ClassifierSpec.processed text.

(** The time an item is sorted by. *)
Definition time_of (item : ExtractedOutputItem.t) : Date :=
  JSDate.Date_parse (ExtractedOutputItem.timestamp item).

Definition not_after (a b : ExtractedOutputItem.t) : Prop :=
  exists x y, time_of a = Some x /\ time_of b = Some y /\ (x <= y)%Z.

Definition of_type (t : ItemType) (item : ExtractedOutputItem.t) : bool :=
  match ExtractedOutputItem.type item, t with
  | homework, homework => true
  | schedule_change, schedule_change => true
  | announcement, announcement => true
  | _, _ => false
  end.

(** The number of items of a type. *)
Definition items_of_type (t : ItemType) (items : list ExtractedOutputItem.t) : Z :=
  Z.of_nat (length (List.filter (of_type t) items)).

End SummarizerProps.

(** A run the statements are tried on. *)
Module SummarizerExamples.
Import Examples SchoolChatSummarizer.

(** An engine that reads the complete format only; its messages are those
    of V8. *)
Definition strict : Engine :=
  {| Date_parse := JSDate.Date_parse;
     error_message := fun e =>
       match e with
       | property_of_nullish value key =>
         js "Cannot read properties of " ++ toString value ++ js " (reading '" ++ js key
         ++ js "')"
       | invalid_time_value => js "Invalid time value"
       end |}.

(** A run on Wednesday 15 January 2025 that starts at 10:00 and takes 12
    milliseconds. *)
Definition clock : Clock :=
  {| startTime := 1736935200000%Z; classifyTime := fun _ => 1736935200005%Z;
     endTime := 1736935200012%Z; runTime := 1736935200012%Z |}.

Definition cancelled : jsval :=
  message "chat_001" "teacher_002" "2025-01-14T18:30:00.000Z"
          "Class cancelled tomorrow. Instead, complete homework pages 30-35. Field trip forms due Friday.".

Definition slips : jsval :=
  message "chat_002" "teacher_001" "2025-01-13T09:15:00.000Z"
          "Reminder: Permission slips for next week's field trip must be returned by Friday!".

(** Messages of two subscribed chats, out of order, among them one that is
    listed twice, one of another chat, one from before the period and one
    that is no item. *)
Definition week : jsval :=
  input [FilterInputs.homework_due; FilterInputs.other_chat; cancelled; hello;
         FilterInputs.last_year; slips; cancelled]
        ["chat_001"; "chat_002"]%string january.

(** [week] with a message that has no text. *)
Definition week_untexted : jsval :=
  input [FilterInputs.homework_due; message "chat_001" "teacher_001" "2025-01-15T10:00:00.000Z" ""]
        ["chat_001"]%string january.

Definition summarizer : t :=
  new {| opt_minConfidence := None; opt_debug := None; opt_sortByTimestamp := None |}.

Definition output_item (type : ItemType)
    (chat_id sender_id timestamp content : string) : ExtractedOutputItem.t :=
  {| ExtractedOutputItem.type := type;
     ExtractedOutputItem.chat_id := js chat_id;
     ExtractedOutputItem.sender_id := js sender_id;
     ExtractedOutputItem.timestamp := js timestamp;
     ExtractedOutputItem.content := js content |}.

(** What [process] returns for [week]. *)
Definition week_output : SummarizerOutput :=
  {| period := january;
     run_time := js "2025-01-15T10:00:00.012Z";
     extracted_items :=
       [output_item announcement "chat_002" "teacher_001" "2025-01-13T09:15:00.000Z"
             "Reminder: Permission slips for next week's field trip must be returned by Friday!";
        output_item homework "chat_001" "teacher_002" "2025-01-14T18:30:00.000Z"
             "Class cancelled tomorrow. Instead, complete homework pages 30-35. Field trip forms due Friday.";
        output_item announcement "chat_001" "teacher_001" "2025-01-15T10:00:00.000Z"
             "hello";
        output_item homework "chat_001" "teacher_001" "2025-01-16T08:00:00.000Z"
             "Math homework due tomorrow!"] |}.

(** An instance that has been used, with options of its own. *)
Definition used : t :=
  {| messageFilter := snd (MessageFilter.filter (messageFilter summarizer) Examples.three_copies);
     options := options summarizer;
     stats := {| totalMessages := 3; filteredMessages := 1; classifiedMessages := 1;
                 itemsByType := {| ItemsByType.homework := 0; ItemsByType.schedule_change := 0;
                                   ItemsByType.announcement := 1 |};
                 processingTime := 4 |} |}.

(** A batch of one message, the message as declared, and what [process]
    returns for the batch. *)
Definition single : jsval := input [FilterInputs.homework_due] ["chat_001"]%string january.

Definition homework_due : InputMessage.t :=
  {| InputMessage.chat_id := js "chat_001"; InputMessage.sender_id := js "teacher_001";
     InputMessage.timestamp := js "2025-01-16T08:00:00.000Z";
     InputMessage.text := js "Math homework due tomorrow!" |}.

Definition single_output : SummarizerOutput :=
  {| period := january;
     run_time := js "2025-01-15T10:00:00.012Z";
     extracted_items :=
       [output_item homework "chat_001" "teacher_001" "2025-01-16T08:00:00.000Z"
                    "Math homework due tomorrow!"] |}.

End SummarizerExamples.

(** What a match of a pattern is, as a relation between the state before
    and the state after it: the statements about the matches of a pattern
    are phrased with it, and the matcher is shown to find such matches
    only ([m_sound]). *)
Module RegexSpec.





End RegexSpec.

(** The dates [extractDates] collects, part by part, and the form of the
    tokens the numeric pattern matches. *)
Module ExtractionSpec.
Import ContentExtractor DateSpec.
Local Open Scope Z_scope.

(** The first match of the relative pattern in a text ([matches[0]]). *)
Definition first_relative_match (text : str) : option str :=
  match match_ text DATE_PATTERNS.relative with
  | Some relativeMatches => at_ relativeMatches 0
  | None => None
  end.

(** What the first loop of [extractDates] pushes. *)
Definition relativeDates (text : str) (now : Z) : list Date :=
  match match_ text DATE_PATTERNS.relative with
  | Some relativeMatches =>
    omap (fun match_ => match_ ≫= fun m => parseRelativeDate (toLowerCase m) now)
         relativeMatches
  | None => []
  end.

(** The matches of the numeric pattern in a text, left to right. *)
Definition numeric_tokens (text : str) : list MatchResult :=
  all_matches (reflag DATE_PATTERNS.numeric "g") text (S (length text)) 0.

(** What the second loop of [extractDates] pushes. *)
Definition numericDates (text : str) (now : Z) : list Date :=
  omap (fun match_ => parseNumericDate (at_ match_ 1) (at_ match_ 2) (at_ match_ 3) now)
       (matchAll text (reflag DATE_PATTERNS.numeric "g")).

(** What the third loop of [extractDates] pushes. *)
Definition textualDates (text : str) (now : Z) : list Date :=
  omap (fun match_ => at_ match_ 0 ≫= fun m0 => parseTextualDate m0 now)
       (matchAll text (reflag DATE_PATTERNS.textual "g")).





(** Three numeric dates: one that is no date when read day first, one
    without a year, one with a year of two digits. *)
Definition trip : str := js "Trip on 03/15/2025, forms by 31/12 or 15.3.25".

Definition essay : str := js "Finish the essay This Week".

Definition next_monday : str := js "See you next monday".

End ExtractionSpec.

(* ===================================================================== *)
(** * Properties *)
(* ===================================================================== *)

(** Linear arithmetic with division and remainder by constants. *)
Ltac div_lia := Z.to_euclidean_division_equations; lia.

(** Every pattern of the tables parses: none is the pattern without a match
    that [compile] falls back to. *)
Lemma patterns_parse :
  forallb (fun r => match source r with Class false [] => false | _ => true end)
    (map snd SUBJECT_PATTERNS
     ++ [ HOMEWORK_PATTERNS.keywords; HOMEWORK_PATTERNS.pages; HOMEWORK_PATTERNS.exercise;
          HOMEWORK_PATTERNS.chapter; SCHEDULE_PATTERNS.keywords; SCHEDULE_PATTERNS.timeChange;
          SCHEDULE_PATTERNS.cancellation; SCHEDULE_PATTERNS.locationChange;
          ANNOUNCEMENT_PATTERNS.event; ANNOUNCEMENT_PATTERNS.permissionSlip;
          ANNOUNCEMENT_PATTERNS.urgent; ANNOUNCEMENT_PATTERNS.reminder;
          DATE_PATTERNS.relative; DATE_PATTERNS.numeric; DATE_PATTERNS.textual;
          DATE_PATTERNS.weekday; DATE_PATTERNS.time; IMPORTANCE_INDICATORS.high;
          IMPORTANCE_INDICATORS.medium; IMPORTANCE_INDICATORS.low ]
     ++ map (fun '(abbr, _) => compile (js "\b" ++ abbr ++ js "\b") "gi") ABBREVIATIONS)
  = true.
Proof. vm_compute. reflexivity. Qed.

(* ===================================================================== *)
(** * Properties of the filter *)
(* ===================================================================== *)

Section FilterFacts.
Import MessageFilter FilterSpec.
Local Arguments js : simpl never.
Local Arguments key_of : simpl never.

Lemma str_eqb_eq (a b : str) : str_eqb a b = true <-> a = b.
Proof.
  revert b. induction a as [|x a IH]; intros [|y b]; simpl; split; try congruence; try easy.
  - rewrite andb_true_iff, N.eqb_eq, IH. intros [-> ->]. reflexivity.
  - intros [= -> ->]. rewrite N.eqb_refl. simpl. apply IH. reflexivity.
Qed.

Lemma filter_counting_acc (keep : jsval -> bool) (l kept : list jsval) (n : Z) :
  fold_left
    (fun '(kept, rejected) x =>
       if keep x then (kept ++ [x], rejected) else (kept, (rejected + 1)%Z))
    l (kept, n)
  = (kept ++ List.filter keep l,
     (n + (Z.of_nat (length l) - Z.of_nat (length (List.filter keep l))))%Z).
Proof.
  revert kept n. induction l as [|x l IH]; intros kept n; simpl.
  - rewrite app_nil_r. f_equal. lia.
  - destruct (keep x); rewrite IH; simpl.
    + rewrite <- app_assoc. simpl. f_equal. lia.
    + f_equal. lia.
Qed.

Lemma filter_counting_spec (keep : jsval -> bool) (l : list jsval) :
  filter_counting keep l
  = (List.filter keep l, (Z.of_nat (length l) - Z.of_nat (length (List.filter keep l)))%Z).
Proof. unfold filter_counting. rewrite filter_counting_acc. reflexivity. Qed.

Lemma getMessageKey_key (self : t) (message : jsval) :
  fst (getMessageKey self message) = key_of message.
Proof. reflexivity. Qed.

(** The loop of [removeDuplicates] keeps the first occurrence of each key. *)
Lemma removeDuplicates_loop_spec (l : list jsval) :
  forall self seen uniq,
    fst (removeDuplicates_loop self l seen uniq) = uniq ++ first_occurrences seen l.
Proof.
  induction l as [|x l IH]; intros self seen uniq.
  - simpl. rewrite app_nil_r. reflexivity.
  - change (removeDuplicates_loop self (x :: l) seen uniq)
      with (let '(key, self) := getMessageKey self x in
            if bool_decide (key ∈ seen)
            then removeDuplicates_loop self l seen uniq
            else removeDuplicates_loop self l ({[key]} ∪ seen) (uniq ++ [x])).
    change (first_occurrences seen (x :: l))
      with (if bool_decide (key_of x ∈ seen) then first_occurrences seen l
            else x :: first_occurrences ({[key_of x]} ∪ seen) l).
    pose proof (getMessageKey_key self x) as Hk.
    destruct (getMessageKey self x) as [key self']. simpl in Hk. subst key.
    destruct (bool_decide (key_of x ∈ seen)).
    + apply IH.
    + rewrite IH, <- app_assoc. reflexivity.
Qed.

Lemma removeDuplicates_spec (self : t) (l : list jsval) :
  fst (removeDuplicates self l) = first_occurrences ∅ l.
Proof. unfold removeDuplicates. rewrite removeDuplicates_loop_spec. reflexivity. Qed.

Lemma first_occurrences_In (l : list jsval) :
  forall seen m, In m (first_occurrences seen l) -> In m l /\ key_of m ∉ seen.
Proof.
  induction l as [|x l IH]; intros seen m; simpl; [tauto|].
  destruct (bool_decide_reflect (key_of x ∈ seen)) as [Hx|Hx].
  - intros H. destruct (IH _ _ H). tauto.
  - intros [<-|H]; [tauto|]. destruct (IH _ _ H) as [? Hn].
    split; [tauto|]. intros Hs. apply Hn, elem_of_union. auto.
Qed.


(** A message without an earlier message of the same key is kept as it is. *)
Lemma first_occurrences_first (l1 l2 : list jsval) (m : jsval) :
  forall seen, key_of m ∉ seen -> (forall x, In x l1 -> key_of x <> key_of m) ->
    In m (first_occurrences seen (l1 ++ m :: l2)).
Proof.
  induction l1 as [|x l1 IH]; intros seen Hm Hl; simpl.
  - rewrite bool_decide_eq_false_2 by assumption. simpl. tauto.
  - destruct (bool_decide (key_of x ∈ seen)).
    + apply IH; [assumption|]. intros y Hy. apply Hl. simpl. tauto.
    + right. apply IH.
      * assert (key_of x <> key_of m) by (apply Hl; simpl; tauto).
        rewrite elem_of_union, elem_of_singleton. intros [E | E]; [congruence|tauto].
      * intros y Hy. apply Hl. simpl. tauto.
Qed.



Lemma toISOString_nonempty (t : Z) : toISOString t <> [].
Proof.
  unfold toISOString. intros H.
  apply app_eq_nil in H as [_ H]. discriminate H.
Qed.

Lemma isValidTimestamp_iff (v : jsval) :
  isValidTimestamp v = true <-> valid_timestamp v.
Proof.
  unfold isValidTimestamp, valid_timestamp, round_trips. split.
  - destruct v as [| |b|n|s|l|ps]; simpl; rewrite ?orb_true_r; try discriminate.
    destruct s as [|c s]; simpl; [discriminate|].
    destruct (Date_parse (c :: s)) as [t|] eqn:E; [|discriminate].
    intros H. apply str_eqb_eq in H. exists t, (c :: s). auto.
  - intros (t & s & -> & Hp & Hs). simpl. rewrite Hp.
    destruct s as [|c s]; [exfalso; eapply toISOString_nonempty; eassumption|].
    simpl. apply str_eqb_eq. assumption.
Qed.

Lemma round_trips_Date_of (v : jsval) (t : Z) : round_trips v t -> Date_of v = Some t.
Proof. intros (s & -> & Hp & _). exact Hp. Qed.

Lemma nonempty_string_iff (v : jsval) :
  truthy v && is_string v = true <-> nonempty_string v.
Proof.
  unfold nonempty_string. split.
  - destruct v as [| |b|n|s|l|ps]; simpl; rewrite ?andb_false_r; try discriminate.
    destruct s; [discriminate|]. intros _. eexists. split; [reflexivity|discriminate].
  - intros (s & -> & Hs). destruct s; [congruence|reflexivity].
Qed.

Lemma valid_timestamp_truthy (v : jsval) : valid_timestamp v -> truthy v = true.
Proof.
  intros (t & s & -> & _ & Hs). destruct s; [|reflexivity].
  exfalso. eapply toISOString_nonempty; eassumption.
Qed.

(** The error of a message names something wrong with the message. *)
Lemma validateMessage_sound (message : jsval) (msg : string) :
  validateMessage message = Throw msg -> message_violation message msg.
Proof.
  unfold validateMessage. rewrite <- !negb_andb.
  destruct (truthy message && is_object message) eqn:E1; simpl.
  2:{ intros [= <-]. constructor. assumption. }
  destruct (truthy (get message "chat_id") && is_string (get message "chat_id")) eqn:E2; simpl.
  2:{ intros [= <-]. constructor. rewrite <- nonempty_string_iff. congruence. }
  destruct (truthy (get message "sender_id") && is_string (get message "sender_id")) eqn:E3; simpl.
  2:{ intros [= <-]. constructor. rewrite <- nonempty_string_iff. congruence. }
  destruct (isValidTimestamp (get message "timestamp")) eqn:E4.
  2:{ rewrite andb_false_r. simpl. intros [= <-]. constructor.
      rewrite <- isValidTimestamp_iff. congruence. }
  rewrite (valid_timestamp_truthy _ (proj1 (isValidTimestamp_iff _) E4)). simpl.
  destruct (is_string (get message "text")) eqn:E5; simpl; [discriminate|].
  intros [= <-]. constructor; assumption.
Qed.

(** A message that passes the checks has nothing wrong. *)
Lemma validateMessage_complete (message : jsval) (msg : string) :
  validateMessage message = Ok tt -> ~ message_violation message msg.
Proof.
  unfold validateMessage. rewrite <- !negb_andb. intros H V.
  destruct (truthy message && is_object message) eqn:E1; simpl in H; [|discriminate].
  destruct (truthy (get message "chat_id") && is_string (get message "chat_id")) eqn:E2;
    simpl in H; [|discriminate].
  destruct (truthy (get message "sender_id") && is_string (get message "sender_id")) eqn:E3;
    simpl in H; [|discriminate].
  destruct (isValidTimestamp (get message "timestamp")) eqn:E4.
  2:{ rewrite andb_false_r in H. discriminate. }
  rewrite (valid_timestamp_truthy _ (proj1 (isValidTimestamp_iff _) E4)) in H. simpl in H.
  destruct (is_string (get message "text")) eqn:E5; simpl in H; [|discriminate].
  inversion V as [V1|V1|V1|V1|V1].
  - congruence.
  - apply V1, nonempty_string_iff, E2.
  - apply V1, nonempty_string_iff, E3.
  - apply V1, isValidTimestamp_iff, E4.
  - congruence.
Qed.

Lemma validateMessages_sound (l : list jsval) (msg : string) :
  validateMessages l = Throw msg ->
  exists message, In message l /\ message_violation message msg.
Proof.
  induction l as [|x l IH]; simpl; [discriminate|].
  destruct (validateMessage x) as [[]|m] eqn:E.
  - intros H. destruct (IH H) as (y & ? & ?). exists y. tauto.
  - intros [= <-]. exists x. split; [tauto|]. apply validateMessage_sound, E.
Qed.

Lemma validateMessages_complete (l : list jsval) :
  validateMessages l = Ok tt -> forall message, In message l -> validateMessage message = Ok tt.
Proof.
  induction l as [|x l IH]; simpl; [tauto|].
  destruct (validateMessage x) as [[]|m] eqn:E; [|discriminate].
  intros H y [<-|Hy]; [assumption|]. apply IH; assumption.
Qed.

(** What an input that passes [validateInput] is known to satisfy. *)
Lemma validateInput_ok (input : jsval) :
  validateInput input = Ok tt ->
  truthy input = true
  /\ isArray (get input "messages") = true
  /\ isArray (get input "subscribed_chats") = true
  /\ truthy (get input "period") && is_object (get input "period") = true
  /\ (exists s e, round_trips (get (get input "period") "start") s
                  /\ round_trips (get (get input "period") "end") e /\ (s < e)%Z)
  /\ validateMessages (elements (get input "messages")) = Ok tt.
Proof.
  unfold validateInput.
  destruct (truthy input); simpl; [|discriminate].
  destruct (isArray (get input "messages")); simpl; [|discriminate].
  destruct (isArray (get input "subscribed_chats")); simpl; [|discriminate].
  rewrite <- negb_andb.
  destruct (truthy (get input "period") && is_object (get input "period")); simpl; [|discriminate].
  destruct (isValidTimestamp (get (get input "period") "start")) eqn:Es; simpl; [|discriminate].
  destruct (isValidTimestamp (get (get input "period") "end")) eqn:Ee; simpl; [|discriminate].
  apply isValidTimestamp_iff in Es as [s Hs], Ee as [e He].
  rewrite (round_trips_Date_of _ _ Hs), (round_trips_Date_of _ _ He). simpl.
  destruct (Z.leb_spec e s) as [Hle|Hlt]; [discriminate|].
  intros H. repeat split; try assumption; try reflexivity. exists s, e. auto.
Qed.

Lemma validateInput_sound (input : jsval) (msg : string) :
  validateInput input = Throw msg -> violation input msg.
Proof.
  unfold validateInput.
  destruct (truthy input) eqn:E0; simpl; [|intros [= <-]; constructor; assumption].
  destruct (isArray (get input "messages")) eqn:E1; simpl;
    [|intros [= <-]; apply messages_not_array; assumption].
  destruct (isArray (get input "subscribed_chats")) eqn:E2; simpl;
    [|intros [= <-]; apply chats_not_array; assumption].
  rewrite <- negb_andb.
  destruct (truthy (get input "period") && is_object (get input "period")) eqn:E3; simpl.
  2:{ intros [= <-]. apply period_not_object. assumption. }
  destruct (isValidTimestamp (get (get input "period") "start")) eqn:Es; simpl.
  2:{ intros [= <-]. apply bad_start. rewrite <- isValidTimestamp_iff. congruence. }
  destruct (isValidTimestamp (get (get input "period") "end")) eqn:Ee; simpl.
  2:{ intros [= <-]. apply bad_end. rewrite <- isValidTimestamp_iff. congruence. }
  apply isValidTimestamp_iff in Es as [s Hs], Ee as [e He].
  rewrite (round_trips_Date_of _ _ Hs), (round_trips_Date_of _ _ He). simpl.
  destruct (Z.leb_spec e s) as [Hle|Hlt].
  - intros [= <-]. eapply start_not_before_end; eassumption.
  - intros H. apply validateMessages_sound in H as (x & ? & ?).
    eapply bad_message; eassumption.
Qed.

Lemma validateInput_complete (input : jsval) (msg : string) :
  validateInput input = Ok tt -> ~ violation input msg.
Proof.
  intros H V. pose proof (validateInput_ok _ H) as (H0 & H1 & H2 & H3 & (s & e & Hs & He & Hlt) & Hm).
  inversion V as [V1|V1|V1|V1|V1|V1|s' e' Vs Ve Vle|x m Vin Vm]; try congruence.
  - apply V1. exists s. assumption.
  - apply V1. exists e. assumption.
  - apply round_trips_Date_of in Hs, He, Vs, Ve. assert (s' = s) by congruence.
    assert (e' = e) by congruence. lia.
  - eapply validateMessage_complete; [|eassumption].
    eapply validateMessages_complete; eassumption.
Qed.

Lemma subscribed_set (l : list jsval) (c : str) :
  c ∈ (list_to_set (strings_of l) : gset str) <-> In (JString c) l.
Proof.
  rewrite elem_of_list_to_set. unfold strings_of. rewrite list_elem_of_omap.
  rewrite <- list_elem_of_In. split.
  - intros (v & Hv & Hs). destruct v; try discriminate. congruence.
  - intros H. exists (JString c). auto.
Qed.

(** The three stages of a successful call, spelled out. *)
Lemma filter_ok (self : t) (input : jsval) (r : FilterResult) (self' : t) :
  MessageFilter.filter self input = (Ok r, self') ->
  let msgs := elements (get input "messages") in
  let sub := List.filter
               (fun message =>
                  match get message "chat_id" with
                  | JString c =>
                    bool_decide (c ∈ (list_to_set (strings_of (elements (get input "subscribed_chats")))
                                      : gset str))
                  | _ => false
                  end) msgs in
  let tf := List.filter (fun message => isMessageInPeriod message (get input "period")) sub in
  validateInput input = Ok tt
  /\ messages r = first_occurrences ∅ tf
  /\ totalProcessed (stats r) = Z.of_nat (length msgs)
  /\ filteredBySubscription (stats r) = (Z.of_nat (length msgs) - Z.of_nat (length sub))%Z
  /\ filteredByTimePeriod (stats r) = (Z.of_nat (length sub) - Z.of_nat (length tf))%Z
  /\ duplicatesRemoved (stats r) = (Z.of_nat (length tf) - Z.of_nat (length (messages r)))%Z
  /\ finalCount (stats r) = Z.of_nat (length (messages r)).
Proof.
  unfold MessageFilter.filter.
  destruct (validateInput input) as [[]|msg] eqn:Hv; [|discriminate].
  rewrite !filter_counting_spec.
  match goal with |- context [removeDuplicates self ?l] =>
    pose proof (removeDuplicates_spec self l) as Hd;
    destruct (removeDuplicates self l) as [uniq self''] end.
  simpl in Hd. subst uniq. intros [= <- <-]. simpl. auto 10.
Qed.


Lemma first_occurrences_length (l : list jsval) :
  forall seen, (length (first_occurrences seen l) <= length l)%nat.
Proof.
  induction l as [|x l IH]; intros seen; simpl; [lia|].
  destruct (bool_decide (key_of x ∈ seen)); simpl;
    [specialize (IH seen)|specialize (IH ({[key_of x]} ∪ seen))]; lia.
Qed.

End FilterFacts.

Section FilterTheorems.
Import MessageFilter FilterSpec.
Local Arguments js : simpl never.

Lemma isMessageInPeriod_iff (message period : jsval) (t s e : Z) :
  round_trips (get message "timestamp") t ->
  round_trips (get period "start") s ->
  round_trips (get period "end") e ->
  isMessageInPeriod message period = true <-> (s <= t < e)%Z.
Proof.
  intros Ht Hs He. unfold isMessageInPeriod.
  rewrite (round_trips_Date_of _ _ Ht), (round_trips_Date_of _ _ Hs), (round_trips_Date_of _ _ He).
  simpl. rewrite andb_true_iff, Z.leb_le, Z.ltb_lt. tauto.
Qed.

Lemma validated_timestamp (message : jsval) :
  validateMessage message = Ok tt -> valid_timestamp (get message "timestamp").
Proof.
  intros H. destruct (isValidTimestamp (get message "timestamp")) eqn:E.
  - apply isValidTimestamp_iff, E.
  - exfalso. eapply validateMessage_complete; [eassumption|].
    apply bad_timestamp. rewrite <- isValidTimestamp_iff. congruence.
Qed.

(** C4.  [filter] raises on every validation failure: whenever something is
    wrong with the input (the input is missing; [messages] or
    [subscribed_chats] is not an array; the period is not an object; a bound
    of the period is missing or fails the strict parse-and-round-trip check;
    the start is not before the end; a message is not an object, lacks a
    non-empty [chat_id] or [sender_id] string or a timestamp that passes the
    check, or has a [text] that is not a string), the call throws an error
    whose message names something that is wrong with this input, produces no
    result, and leaves the instance and its cache as they were. *)
Theorem filter_raises_on_invalid_input (self : t) (input : jsval) (msg : string) :
  violation input msg ->
  exists msg', MessageFilter.filter self input = (Throw msg', self) /\ violation input msg'.
Proof.
  intros V. unfold MessageFilter.filter.
  destruct (validateInput input) as [[]|msg'] eqn:Hv.
  - exfalso. eapply validateInput_complete; eassumption.
  - exists msg'. split; [reflexivity|]. apply validateInput_sound, Hv.
Qed.


(** C10.  The counters of a successful call are conserved: every message
    processed is counted once, as filtered by subscription, as filtered by
    time period, as a duplicate removed, or in the final count; and the
    final count is the length of the list returned. *)
Theorem filter_counters_conserved (self : t) (input : jsval) (r : FilterResult) (self' : t) :
  MessageFilter.filter self input = (Ok r, self') ->
  totalProcessed (stats r)
  = (filteredBySubscription (stats r) + filteredByTimePeriod (stats r)
     + duplicatesRemoved (stats r) + finalCount (stats r))%Z
  /\ finalCount (stats r) = Z.of_nat (length (messages r))
  /\ totalProcessed (stats r) = Z.of_nat (length (elements (get input "messages")))
  /\ (0 <= filteredBySubscription (stats r))%Z
  /\ (0 <= filteredByTimePeriod (stats r))%Z
  /\ (0 <= duplicatesRemoved (stats r))%Z.
Proof.
  intros H. apply filter_ok in H as (_ & Hm & H1 & H2 & H3 & H4 & H5). cbv zeta in *.
  rewrite H1, H2, H3, H4, H5.
  pose proof (first_occurrences_length
                (List.filter (fun message => isMessageInPeriod message (get input "period"))
                   (List.filter
                      (fun message =>
                         match get message "chat_id" with
                         | JString c =>
                           bool_decide
                             (c ∈ (list_to_set
                                     (strings_of (elements (get input "subscribed_chats")))
                                   : gset str))
                         | _ => false
                         end) (elements (get input "messages")))) ∅) as Hu.
  rewrite <- Hm in Hu.
  repeat match goal with |- context [List.filter ?f ?l] =>
    let H := fresh in pose proof (filter_length_le f l) as H;
    generalize dependent (List.filter f l); intros end.
  lia.
Qed.

End FilterTheorems.

Section FilterExamples.
Import MessageFilter FilterSpec Examples.

Lemma filter_raises_on_invalid_input_witness :
  exists msg',
    MessageFilter.filter (new default_options) backwards = (Throw msg', new default_options)
    /\ violation backwards msg'.
Proof.
  apply (filter_raises_on_invalid_input (new default_options) backwards
           "Period start must be before period end").
  apply (start_not_before_end backwards 1738367999999 1735689600000).
  - exists (js "2025-01-31T23:59:59.999Z"). repeat split; vm_compute; reflexivity.
  - exists (js "2025-01-01T00:00:00.000Z"). repeat split; vm_compute; reflexivity.
  - vm_compute. discriminate.
Defined.


Lemma filter_counters_conserved_witness :
  (3 = 0 + 0 + 2 + 1 /\ 1 = Z.of_nat (length [hello])
   /\ 3 = Z.of_nat (length (elements (get three_copies "messages")))
   /\ 0 <= 0 /\ 0 <= 0 /\ 0 <= 2)%Z.
Proof.
  apply (filter_counters_conserved (new default_options) three_copies
           {| messages := [hello];
              stats := {| totalProcessed := 3; filteredBySubscription := 0;
                          filteredByTimePeriod := 0; duplicatesRemoved := 2;
                          finalCount := 1 |} |}
           (snd (MessageFilter.filter (new default_options) three_copies))).
  vm_compute. reflexivity.
Defined.

(** C6.  The code at an input on which it departs from the claim: two
    subscribed, in-period messages whose (chat_id, sender_id, timestamp,
    text) tuples differ are given the same key, and the second one is
    dropped and counted as a duplicate. *)
Theorem dedup_drops_distinct_tuple :
  tuple_of collide_1 <> tuple_of collide_2
  /\ fst (MessageFilter.filter (new default_options) collision)
     = Ok {| messages := [collide_1];
             stats := {| totalProcessed := 2; filteredBySubscription := 0;
                         filteredByTimePeriod := 0; duplicatesRemoved := 1;
                         finalCount := 1 |} |}.
Proof.
  split.
  - vm_compute. discriminate.
  - vm_compute. reflexivity.
Qed.

End FilterExamples.

(* ===================================================================== *)
(** * Properties of the day and time arithmetic *)
(* ===================================================================== *)

Section DateFacts.
Import DateSpec.
Local Open Scope Z_scope.

Lemma year_of_day_spec (d : Z) :
  DayFromYear (YearFromDay d) <= d < DayFromYear (YearFromDay d + 1).
Proof.
  unfold YearFromDay.
  set (y := 1970 + 400 * d / 146097).
  assert (Hy : DayFromYear (y - 1) <= d < DayFromYear (y + 2)).
  { unfold DayFromYear, y. div_lia. }
  destruct (Z.ltb_spec d (DayFromYear y)).
  - replace (y - 1 + 1) with y by lia. lia.
  - destruct (Z.leb_spec (DayFromYear (y + 1)) d).
    + replace (y + 1 + 1) with (y + 2) by lia. lia.
    + lia.
Qed.

Lemma DayFromYear_mono (y1 y2 : Z) : y1 <= y2 -> DayFromYear y1 <= DayFromYear y2.
Proof. unfold DayFromYear. intros. div_lia. Qed.

Lemma DayFromYear_succ (y : Z) : DayFromYear (y + 1) = DayFromYear y + DaysInYear y.
Proof.
  unfold DayFromYear, DaysInYear, isLeap.
  destruct (Z.eqb_spec (y mod 4) 0), (Z.eqb_spec (y mod 100) 0), (Z.eqb_spec (y mod 400) 0);
    simpl; div_lia.
Qed.



Lemma DayWithinYear_range (d : Z) : 0 <= DayWithinYear d < DaysInYear (YearFromDay d).
Proof.
  unfold DayWithinYear. pose proof (year_of_day_spec d) as S.
  rewrite DayFromYear_succ in S. lia.
Qed.

Lemma leapAdj_range (y : Z) : leapAdj y = 0 \/ leapAdj y = 1.
Proof. unfold leapAdj. destruct (isLeap y); auto. Qed.

Lemma DaysInYear_leapAdj (y : Z) : DaysInYear y = 365 + leapAdj y.
Proof. unfold DaysInYear, leapAdj. destruct (isLeap y); reflexivity. Qed.

Lemma MonthFromDay_range (d : Z) : 0 <= MonthFromDay d <= 11.
Proof.
  unfold MonthFromDay.
  repeat match goal with |- context [?a <? ?b] => destruct (Z.ltb_spec a b) end; lia.
Qed.


Lemma monthStart_succ (y mn : Z) :
  0 <= mn <= 11 ->
  monthStart (leapAdj y) (mn + 1) = monthStart (leapAdj y) mn + DaysInMonth y mn.
Proof.
  intros H.
  assert (Hc : mn = 0 \/ mn = 1 \/ mn = 2 \/ mn = 3 \/ mn = 4 \/ mn = 5 \/ mn = 6
               \/ mn = 7 \/ mn = 8 \/ mn = 9 \/ mn = 10 \/ mn = 11) by lia.
  repeat (destruct Hc as [Hc | Hc]); subst mn; simpl; lia.
Qed.

Lemma monthStart_bounds (L mn : Z) :
  0 <= mn <= 11 -> 0 <= L <= 1 -> 0 <= monthStart L mn <= 334 + L.
Proof.
  intros H HL.
  assert (Hc : mn = 0 \/ mn = 1 \/ mn = 2 \/ mn = 3 \/ mn = 4 \/ mn = 5 \/ mn = 6
               \/ mn = 7 \/ mn = 8 \/ mn = 9 \/ mn = 10 \/ mn = 11) by lia.
  repeat (destruct Hc as [Hc | Hc]); subst mn; simpl; lia.
Qed.

Lemma DaysInMonth_range (y mn : Z) : 0 <= mn <= 11 -> 28 <= DaysInMonth y mn <= 31.
Proof.
  intros H. pose proof (leapAdj_range y).
  assert (Hc : mn = 0 \/ mn = 1 \/ mn = 2 \/ mn = 3 \/ mn = 4 \/ mn = 5 \/ mn = 6
               \/ mn = 7 \/ mn = 8 \/ mn = 9 \/ mn = 10 \/ mn = 11) by lia.
  repeat (destruct Hc as [Hc | Hc]); subst mn; simpl; lia.
Qed.

(** [MakeDay] of a month from 0 to 11. *)
Lemma MakeDay_month (y mn dt : Z) :
  0 <= mn <= 11 ->
  MakeDay y mn dt = DayFromYear y + monthStart (leapAdj y) mn + dt - 1.
Proof.
  intros H. unfold MakeDay.
  replace (mn / 12) with 0 by div_lia. replace (mn mod 12) with mn by div_lia.
  rewrite Z.add_0_r. reflexivity.
Qed.


(** The day of a date is found again from its year, month and date. *)
Lemma MakeDay_of_day (d : Z) :
  MakeDay (YearFromDay d) (MonthFromDay d) (DateFromDay d) = d.
Proof.
  rewrite MakeDay_month by apply MonthFromDay_range.
  unfold DateFromDay, DayWithinYear. lia.
Qed.

Lemma Day_MakeDate (day time : Z) :
  0 <= time < msPerDay -> Day (MakeDate day time) = day /\ TimeWithinDay (MakeDate day time) = time.
Proof.
  unfold Day, TimeWithinDay, MakeDate, msPerDay. intros H. split; div_lia.
Qed.

(** [date.setDate(date.getDate() + k)] moves a date by [k] days. *)
Lemma setDate_getDate_plus (t k : Z) :
  setDate t (getDate t + k) = TimeClip (t + k * msPerDay).
Proof.
  unfold setDate, getDate, getFullYear, getMonth. f_equal.
  rewrite MakeDay_month by apply MonthFromDay_range.
  unfold DateFromDay, DayWithinYear, MakeDate, TimeWithinDay, Day, msPerDay.
  div_lia.
Qed.


Lemma MonthFromDay_bounds (d : Z) :
  let L := leapAdj (YearFromDay d) in
  monthStart L (MonthFromDay d) <= DayWithinYear d < monthStart L (MonthFromDay d + 1).
Proof.
  intros L. pose proof (DayWithinYear_range d) as Hw. rewrite DaysInYear_leapAdj in Hw.
  fold L in Hw. unfold MonthFromDay. fold L.
  destruct (leapAdj_range (YearFromDay d)) as [HL | HL]; fold L in HL; rewrite HL in *;
    repeat match goal with |- context [?a <? ?b] => destruct (Z.ltb_spec a b) end;
    simpl; lia.
Qed.



Lemma is_digit_cases (c : N) :
  is_digit c = true ->
  (c = 48 \/ c = 49 \/ c = 50 \/ c = 51 \/ c = 52 \/ c = 53 \/ c = 54 \/ c = 55
   \/ c = 56 \/ c = 57)%N.
Proof.
  unfold is_digit, in_ranges, digit_ranges. simpl. rewrite orb_false_r, andb_true_iff.
  rewrite !N.leb_le. lia.
Qed.




End DateFacts.

Section DateTheorems.
Import DateSpec RelativeDateSpec ExtractionSpec ContentExtractor.
Local Open Scope Z_scope.
Local Arguments js : simpl never.




(** The extraction of a text end to end: a numeric date in a sentence is
    read day first (15 March 2025), and month first where the day-first
    reading is no calendar date. *)
Lemma extractDates_numeric_example :
  extractDates (js "Submit by 15/03/2025") a_wednesday = Some [Some 1741996800000]
  /\ extractDates (js "Bring it on 03/15/2025") a_wednesday = Some [Some 1741996800000]
  /\ JSDate.toISOString 1741996800000 = js "2025-03-15T00:00:00.000Z".
Proof. repeat split; vm_compute; reflexivity. Qed.


End DateTheorems.

(* ===================================================================== *)
(** * Properties of the arithmetic of doubles *)
(* ===================================================================== *)

Section DoubleFacts.
Import Double DoubleSpec.
Local Open Scope Q_scope.

Lemma two_pow_pos (e : Z) : 0 < two_pow e.
Proof. apply Qpower_0_lt. reflexivity. Qed.

Lemma two_pow_add (a b : Z) : two_pow (a + b) == two_pow a * two_pow b.
Proof. apply Qpower_plus. discriminate. Qed.

Lemma two_pow_le (a b : Z) : (a <= b)%Z -> two_pow a <= two_pow b.
Proof. intros H. apply Qpower_le_compat_l; [assumption|discriminate]. Qed.

Lemma two_pow_Z (a : Z) : (0 <= a)%Z -> two_pow a == inject_Z (2 ^ a).
Proof. intros H. unfold two_pow. rewrite Zpower_Qpower by assumption. reflexivity. Qed.

Lemma two_pow_succ (a : Z) : two_pow (a + 1) == 2 * two_pow a.
Proof. rewrite two_pow_add. change (two_pow 1) with 2. ring. Qed.

Lemma Qdiv_mult_cancel (b c : Q) : 0 < c -> b / c * c == b.
Proof. intros H. field. intros E. rewrite E in H. discriminate H. Qed.

Lemma Qle_div_iff (a b c : Q) : 0 < c -> (a <= b / c <-> a * c <= b).
Proof.
  intros H. rewrite <- (Qmult_le_r a (b / c) c H). rewrite Qdiv_mult_cancel by assumption.
  reflexivity.
Qed.

Lemma Qlt_div_iff (a b c : Q) : 0 < c -> (b / c < a <-> b < a * c).
Proof.
  intros H. rewrite <- (Qmult_lt_r (b / c) a c H). rewrite Qdiv_mult_cancel by assumption.
  reflexivity.
Qed.

(** The exponent [ulp_exp] finds is that of the binade of [x]. *)
Lemma ulp_exp_spec (x : Q) :
  0 < x -> two_pow (ulp_exp x + 52) <= x /\ x < two_pow (ulp_exp x + 53).
Proof.
  intros Hx. destruct x as [n d]. 
  assert (Hn : (0 < n)%Z).
  { unfold Qlt in Hx. simpl in Hx. lia. }
  unfold ulp_exp. cbn [Qnum Qden].
  set (a := Z.log2 n). set (b := Z.log2 (Z.pos d)).
  pose proof (Z.log2_spec n Hn) as Ha. fold a in Ha.
  pose proof (Z.log2_spec (Z.pos d) ltac:(lia)) as Hb. fold b in Hb.
  pose proof (Z.log2_nonneg n) as Ha0. fold a in Ha0.
  pose proof (Z.log2_nonneg (Z.pos d)) as Hb0. fold b in Hb0.
  set (k := (a - b - 53)%Z).
  (* n # d lies strictly between 2^(k+52) and 2^(k+54) *)
  assert (Hx' : n # d == inject_Z n / inject_Z (Z.pos d)) by apply Qmake_Qdiv.
  assert (Hd : 0 < inject_Z (Z.pos d)) by (unfold Qlt; simpl; lia).
  assert (HA : two_pow a <= inject_Z n /\ inject_Z n < two_pow (a + 1)).
  { rewrite !two_pow_Z by lia. rewrite <- Zle_Qle, <- Zlt_Qlt.
    replace (a + 1)%Z with (Z.succ a) by lia. exact Ha. }
  assert (HB : two_pow b <= inject_Z (Z.pos d) /\ inject_Z (Z.pos d) < two_pow (b + 1)).
  { rewrite !two_pow_Z by lia. rewrite <- Zle_Qle, <- Zlt_Qlt.
    replace (b + 1)%Z with (Z.succ b) by lia. exact Hb. }
  assert (Hlo : two_pow (k + 52) < n # d).
  { rewrite Hx'. apply Qlt_shift_div_l; [assumption|].
    assert (E : two_pow (k + 52) * two_pow (b + 1) == two_pow a).
    { rewrite <- two_pow_add. unfold k. f_equiv. lia. }
    pose proof (two_pow_pos (k + 52)). pose proof (two_pow_pos (b + 1)).
    destruct HA, HB. nra. }
  assert (Hhi : n # d < two_pow (k + 54)).
  { rewrite Hx'. apply Qlt_shift_div_r; [assumption|].
    assert (E : two_pow (k + 54) * two_pow b == two_pow (a + 1)).
    { rewrite <- two_pow_add. unfold k. f_equiv. lia. }
    pose proof (two_pow_pos (k + 54)). pose proof (two_pow_pos b).
    destruct HA, HB. nra. }
  destruct (Qle_bool (two_pow 53) ((n # d) / two_pow k)) eqn:E.
  - apply Qle_bool_iff in E.
    apply (proj1 (Qle_div_iff _ _ _ (two_pow_pos k))) in E.
    rewrite <- two_pow_add in E.
    replace (k + 1 + 52)%Z with (53 + k)%Z by lia.
    replace (k + 1 + 53)%Z with (k + 54)%Z by lia. split; assumption.
  - assert (E' : ~ two_pow 53 <= (n # d) / two_pow k).
    { rewrite <- Qle_bool_iff. congruence. }
    apply Qnot_le_lt in E'.
    apply (proj1 (Qlt_div_iff _ _ _ (two_pow_pos k))) in E'.
    rewrite <- two_pow_add in E'.
    replace (k + 53)%Z with (53 + k)%Z by lia. split; [apply Qlt_le_weak|]; assumption.
Qed.


Lemma rne_floor (q : Q) : (Qfloor q <= rne q <= Qfloor q + 1)%Z.
Proof.
  unfold rne. destruct (q - inject_Z (Qfloor q) ?= 1 # 2); [destruct (Z.even _)|..]; lia.
Qed.

Lemma rne_ge_int (z : Z) (q : Q) : inject_Z z <= q -> (z <= rne q)%Z.
Proof.
  intros H. apply Qfloor_resp_le in H. rewrite Qfloor_Z in H.
  pose proof (rne_floor q). lia.
Qed.

Lemma rne_le_int (z : Z) (q : Q) : q <= inject_Z z -> (rne q <= z)%Z.
Proof.
  intros H. pose proof (Qfloor_le q) as Hf.
  assert (Hz : (Qfloor q <= z)%Z).
  { rewrite Zle_Qle. eapply Qle_trans; eassumption. }
  destruct (Z.eq_dec (Qfloor q) z) as [E | E].
  - unfold rne. rewrite E in *.
    assert (Hq : Qcompare (q - inject_Z z) (1 # 2) = Lt).
    { apply (proj1 (Qlt_alt _ _)). lra. }
    rewrite Hq. lia.
  - pose proof (rne_floor q). lia.
Qed.

Lemma round_pos_eq (x : Q) :
  0 < x -> round x == inject_Z (rne (x / two_pow (ulp_exp x))) * two_pow (ulp_exp x).
Proof.
  intros H. unfold round.
  assert (Hc : Qcompare x 0 = Gt) by (apply (proj1 (Qgt_alt _ _)); assumption).
  rewrite Hc. apply Qred_correct.
Qed.

Lemma round_zero (x : Q) : x == 0 -> round x = 0.
Proof.
  intros H. unfold round.
  assert (Hc : Qcompare x 0 = Eq) by (apply (proj1 (Qeq_alt _ _)); assumption).
  rewrite Hc. reflexivity.
Qed.

(** The mantissa of the double nearest to [x > 0] has 53 bits. *)
Lemma round_mantissa (x : Q) :
  0 < x -> (2 ^ 52 <= rne (x / two_pow (ulp_exp x)) <= 2 ^ 53)%Z.
Proof.
  intros H. destruct (ulp_exp_spec x H) as [Hlo Hhi].
  pose proof (two_pow_pos (ulp_exp x)) as Hp.
  rewrite Z.add_comm, two_pow_add in Hlo. rewrite Z.add_comm, two_pow_add in Hhi.
  split.
  - apply rne_ge_int. rewrite <- two_pow_Z by lia. apply Qle_div_iff; assumption.
  - apply rne_le_int. rewrite <- two_pow_Z by lia. apply Qlt_le_weak.
    apply Qlt_div_iff; assumption.
Qed.

Lemma round_format (x : Q) : 0 <= x -> format (round x).
Proof.
  intros H. destruct (Qlt_le_dec 0 x) as [Hp | Hz].
  - right. exists (rne (x / two_pow (ulp_exp x))), (ulp_exp x).
    split; [apply round_mantissa, Hp|apply round_pos_eq, Hp].
  - left. rewrite round_zero; [reflexivity|]. apply Qle_antisym; assumption.
Qed.

Lemma round_nonneg (x : Q) : 0 <= x -> 0 <= round x.
Proof.
  intros H. destruct (round_format x H) as [E | (m & e & Hm & E)]; rewrite E; [apply Qle_refl|].
  apply Qmult_le_0_compat; [|apply Qlt_le_weak, two_pow_pos].
  change 0 with (inject_Z 0). rewrite <- Zle_Qle. lia.
Qed.

(** Rounding does not go below a double that the exact value is not
    below. *)
Lemma round_ge_format (x y : Q) : format y -> 0 <= y -> y <= x -> y <= round x.
Proof.
  intros [E | (m & e' & Hm & E)] H0 Hxy.
  - rewrite E. apply round_nonneg. lra.
  - assert (Hy : 0 < y).
    { rewrite E. apply Qmult_lt_0_compat; [|apply two_pow_pos].
      change 0 with (inject_Z 0). rewrite <- Zlt_Qlt. lia. }
    assert (Hx : 0 < x) by lra.
    rewrite (round_pos_eq x Hx).
    set (e := ulp_exp x). destruct (ulp_exp_spec x Hx) as [Hlo Hhi]. fold e in Hlo, Hhi.
    pose proof (round_mantissa x Hx) as Hr. fold e in Hr.
    pose proof (two_pow_pos e) as Hpe. pose proof (two_pow_pos e') as Hpe'.
    assert (Hm52 : two_pow 52 <= inject_Z m <= two_pow 53).
    { rewrite !two_pow_Z by lia. rewrite <- !Zle_Qle. exact Hm. }
    assert (Hr52 : two_pow 52 <= inject_Z (rne (x / two_pow e))).
    { rewrite two_pow_Z by lia. rewrite <- Zle_Qle. apply Hr. }
    destruct (Z.lt_trichotomy e' e) as [Hlt | [Heq | Hgt]].
    + (* y is in a binade below that of x *)
      assert (Hs : two_pow (e' + 53) <= two_pow (e + 52)) by (apply two_pow_le; lia).
      rewrite two_pow_add, (two_pow_add e 52) in Hs.
      rewrite E. destruct Hm52. nra.
    + subst e'. rewrite E. apply Qmult_le_compat_r; [|lra].
      rewrite <- Zle_Qle. apply rne_ge_int.
      apply Qle_div_iff; [assumption|]. rewrite <- E. assumption.
    + (* impossible: y would be above x *)
      exfalso.
      assert (Hs : two_pow (e + 53) <= two_pow (e' + 52)) by (apply two_pow_le; lia).
      rewrite two_pow_add, (two_pow_add e' 52) in Hs.
      rewrite (two_pow_add e 53) in Hhi.
      rewrite E in Hxy. destruct Hm52. nra.
Qed.

Lemma format_0 : format 0.
Proof. left. reflexivity. Qed.

Lemma format_min (x y : Q) : format x -> format y -> format (Double.min x y).
Proof. intros Hx Hy. unfold Double.min. destruct (ltb y x); assumption. Qed.

Lemma ltb_lt (x y : Q) : ltb x y = true <-> x < y.
Proof.
  unfold ltb. rewrite Qlt_alt. destruct (Qcompare x y); split; congruence.
Qed.

Lemma ltb_ge (x y : Q) : ltb x y = false <-> y <= x.
Proof.
  rewrite <- not_true_iff_false, ltb_lt. split; [apply Qnot_lt_le|apply Qle_not_lt].
Qed.

Lemma min_spec (x y : Q) : Double.min x y <= x /\ Double.min x y <= y
                           /\ (Double.min x y = x \/ Double.min x y = y).
Proof.
  unfold Double.min. destruct (ltb y x) eqn:E.
  - apply ltb_lt in E. split; [lra|]. split; [lra|auto].
  - apply ltb_ge in E. split; [lra|]. split; [lra|auto].
Qed.

(** Adding a number that is not negative to a double does not give less. *)
Lemma add_ge (x b : Q) : format x -> 0 <= x -> 0 <= b -> x <= Double.add x b.
Proof. intros Hf Hx Hb. unfold Double.add. apply round_ge_format; [assumption..|lra]. Qed.

Lemma add_format (x b : Q) : 0 <= x -> 0 <= b -> format (Double.add x b).
Proof. intros Hx Hb. apply round_format. lra. Qed.

Lemma add_nonneg (x b : Q) : 0 <= x -> 0 <= b -> 0 <= Double.add x b.
Proof. intros Hx Hb. apply round_nonneg. lra. Qed.

(** A step [if c then score + b else score] of a score. *)
Lemma boost_step (c : bool) (x b : Q) :
  format x -> 0 <= x -> 0 <= b ->
  let x' := if c then Double.add x b else x in
  format x' /\ 0 <= x' /\ x <= x'.
Proof.
  intros Hf Hx Hb. destruct c; simpl.
  - split; [apply add_format; assumption|]. split; [apply add_nonneg; assumption|].
    apply add_ge; assumption.
  - split; [assumption|]. split; [assumption|apply Qle_refl].
Qed.


(** The model computes what binary64 arithmetic computes: on every choice
    of the weights of the homework score and of the schedule-change score;
    for every quotient of lengths up to 8, on every choice of the weights
    of the importance score; and, for the quotients of lengths up to 2, on
    every choice of the weights of the announcement score that starts from
    such an importance. *)
Lemma scores_agree_with_binary64 :
  forallb (fun steps =>
             Binary64.agree (Binary64.score_model 0 steps)
               (Binary64.score_binary64 (Binary64.of_Z 0) steps))
    (Binary64.choices [5; 3; 3; 2; 2; 2] ++ Binary64.choices [5; 4; 5; 3; 2; 2])%Z
  && forallb (fun '(c, w) =>
                forallb (fun steps =>
                           Binary64.agree
                             (Binary64.score_model (Double.div (inject_Z c) (inject_Z w)) steps)
                             (Binary64.score_binary64 (Binary64.decimal c w) steps))
                  (Binary64.choices [3; 2; 1; 4]%Z))
       (Binary64.ratios 8)
  && forallb (fun '(c, w) =>
                forallb (fun steps =>
                           let x := Binary64.score_model
                                      (Double.div (inject_Z c) (inject_Z w)) steps in
                           let y := Binary64.score_binary64 (Binary64.decimal c w) steps in
                           forallb (fun steps' =>
                                      Binary64.agree (Binary64.score_model x steps')
                                        (Binary64.score_binary64 y steps'))
                             (Binary64.choices [3; 4; 3; 2; 2]%Z))
                  (Binary64.choices [3; 2; 1; 4]%Z))
       (Binary64.ratios 2)
  = true.
Proof. vm_compute. reflexivity. Qed.

End DoubleFacts.

(* ===================================================================== *)
(** * Properties of the matcher and of the extractor *)
(* ===================================================================== *)

Section ExtractorFacts.
Import ContentExtractor.
Local Arguments js : simpl never.

(** A match succeeds through its continuation. *)
Lemma m_through (ic : bool) (r : regex) :
  forall (k : cont) (s res : mstate),
    m ic r k s = Some res -> exists s', k s' = Some res.
Proof.
  induction r as [| c | neg rs | | | | r1 IH1 r2 IH2 | r1 IH1 r2 IH2 | lo hi r1 IH1 | i r1 IH1];
    intros k s res; cbn [m].
  - eauto.
  - destruct (advance s) as [[d s']|]; [|discriminate].
    destruct (unit_eqb ic c d); [eauto|discriminate].
  - destruct (advance s) as [[d s']|]; [|discriminate].
    destruct (xorb neg (class_has ic rs d)); [eauto|discriminate].
  - destruct (xorb (word_before s) (word_after s)); [eauto|discriminate].
  - destruct (before s); [eauto|discriminate].
  - destruct (rest s); [eauto|discriminate].
  - intros H. apply IH1 in H as [s1 H]. apply IH2 in H. exact H.
  - destruct (m ic r1 k s) eqn:E.
    + intros [= <-]. eapply IH1, E.
    + apply IH2.
  - generalize (S (length (rest s)) + lo)%nat as fuel. generalize 0%nat as n. revert s.
    intros s n fuel. revert n s.
    induction fuel as [|fuel IHf]; intros n s; [discriminate|].
    set (stop := if (lo <=? n)%nat then k s else None).
    assert (Hstop : stop = Some res -> exists s', k s' = Some res).
    { unfold stop. destruct (lo <=? n)%nat; [eauto|discriminate]. }
    destruct (match hi with Some h => (n <? h)%nat | None => true end); [|exact Hstop].
    match goal with |- match ?X with _ => _ end = _ -> _ => destruct X eqn:E end;
      [|exact Hstop].
    intros [= <-]. apply IH1 in E as [s1 E].
    destruct ((n <? lo)%nat || (idx s <? idx s1)%nat); [|discriminate].
    eapply IHf, E.
  - intros H. apply IH1 in H as [s1 H]. eauto.
Qed.

(** A pattern of the form [\b(...)\b]: its match array has both entries. *)
Lemma match_here_group1 (r : RegExp) (a : regex) (input : str) (s : mstate)
    (res : MatchResult) :
  source r = Seq WordBoundary (Seq (Group 1 a) WordBoundary) -> ngroups r = 1%nat ->
  match_here r input s = Some res ->
  exists m0 g1, m_array res = [Some m0; Some g1].
Proof.
  intros Hs Hn. unfold match_here. rewrite Hs, Hn.
  destruct (m _ _ _ s) as [s'|] eqn:E; [|discriminate].
  intros [= <-]. cbn [m_array map seq].
  cbn [m] in E. destruct (xorb (word_before s) (word_after s)); [|discriminate].
  apply m_through in E as [s1 E]. cbn [m] in E.
  match type of E with (if ?c then _ else _) = _ => destruct c; [|discriminate] end.
  injection E as <-. unfold capture. cbn [caps find fst Nat.eqb snd].
  eauto.
Qed.

Lemma search_match_here (r : RegExp) (input : str) (fuel : nat) :
  forall s res, search r input fuel s = Some res ->
    exists s', match_here r input s' = Some res.
Proof.
  induction fuel as [|fuel IH]; intros s res; cbn [search].
  - destruct (match_here r input s) eqn:E; [intros [= <-]; eauto|discriminate].
  - destruct (match_here r input s) eqn:E; [intros [= <-]; eauto|].
    destruct (advance s) as [[c s']|]; [apply IH|discriminate].
Qed.

Lemma match_group1 (r : RegExp) (a : regex) (input : str) (arr : list (option str)) :
  source r = Seq WordBoundary (Seq (Group 1 a) WordBoundary) -> ngroups r = 1%nat ->
  match_ input r = Some arr -> exists m0 g1, arr = [Some m0; Some g1].
Proof.
  intros Hs Hn. unfold match_, exec_from.
  destruct (length input <? 0)%nat; [discriminate|].
  destruct (search _ _ _ _) as [res|] eqn:E; [|discriminate].
  intros [= <-]. apply search_match_here in E as [s' E].
  eapply match_here_group1; eassumption.
Qed.

Lemma relative_loop_total (now : Z) (matches : list str) :
  forall dates, exists dates', relative_loop (map Some matches) now dates = Some dates'.
Proof.
  induction matches as [|x l IH]; intros dates; cbn [map relative_loop]; [eauto|].
  destruct (parseRelativeDate (toLowerCase x) now); apply IH.
Qed.

(** Extraction does not throw. *)
Lemma extractDates_total (text : str) (now : Z) :
  exists dates, extractDates text now = Some dates.
Proof.
  unfold extractDates. cbv zeta.
  destruct (match_ text DATE_PATTERNS.relative) as [arr|] eqn:E.
  - eapply match_group1 in E as (m0 & g1 & ->); [|reflexivity|reflexivity].
    destruct (relative_loop_total now [m0; g1] []) as [ds Hds].
    cbn [map] in Hds. rewrite Hds.
    cbn [mbind option_bind]. eauto.
  - cbn [mbind option_bind]. eauto.
Qed.

Lemma extractContent_total (text : str) (now : Z) :
  exists e, extractContent default_options text now = Some e
            /\ processedText e = expandAbbreviations (normalizeText text).
Proof.
  unfold extractContent. cbn [default_options opt_normalizeText opt_expandAbbreviations
                              opt_extractSubjects opt_extractDates].
  cbv zeta.
  destruct (extractDates_total (expandAbbreviations (normalizeText text)) now) as [ds Hds].
  rewrite Hds. cbn [mbind option_bind]. eexists. split; reflexivity.
Qed.

End ExtractorFacts.

(* ===================================================================== *)
(** * The matches the matcher finds *)
(* ===================================================================== *)

Section MatcherSound.
Import RegexSpec.



End MatcherSound.

(* ===================================================================== *)
(** * What the date patterns match *)
(* ===================================================================== *)

Section Tokens.
Import RegexSpec ContentExtractor DateSpec ExtractionSpec.
Local Arguments js : simpl never.












End Tokens.
Section NumericTokens.
Import RegexSpec ContentExtractor DateSpec ExtractionSpec.
Local Arguments js : simpl never.




End NumericTokens.
Section ExtractedDates.
Import RegexSpec ContentExtractor DateSpec ExtractionSpec.
Local Arguments js : simpl never.
Local Open Scope Z_scope.



(** A loop that pushes what is not [null]. *)
Lemma fold_left_omap {A B : Type} (step : list A -> B -> list A) (f : B -> option A) :
  (forall acc x, step acc x = push_some acc (f x)) ->
  forall l acc, fold_left step l acc = acc ++ omap f l.
Proof.
  intros Hstep. induction l as [|x l IH]; intros acc; cbn [fold_left].
  - symmetry. apply app_nil_r.
  - rewrite IH, Hstep. change (omap f (x :: l)) with
      (match f x with Some y => y :: omap f l | None => omap f l end).
    destruct (f x); cbn [push_some]; [rewrite <- app_assoc|]; reflexivity.
Qed.

Lemma relative_loop_omap (now : Z) (matches : list str) :
  forall dates,
    relative_loop (map Some matches) now dates
    = Some (dates ++ omap (fun match_ => match_ ≫= fun m => parseRelativeDate (toLowerCase m) now)
                          (map Some matches)).
Proof.
  induction matches as [|x l IH]; intros dates; cbn [map relative_loop].
  - rewrite app_nil_r. reflexivity.
  - change (omap ?f (Some x :: ?l')) with
      (match parseRelativeDate (toLowerCase x) now with
       | Some y => y :: omap f l' | None => omap f l' end).
    destruct (parseRelativeDate (toLowerCase x) now); rewrite IH; [rewrite <- app_assoc|];
      reflexivity.
Qed.

(** A pattern of the form [\b(...)\b]: the group is the whole match. *)
Lemma match_here_group1_whole (r : RegExp) (a : regex) (input : str) (s : mstate)
    (res : MatchResult) :
  source r = Seq WordBoundary (Seq (Group 1 a) WordBoundary) -> ngroups r = 1%nat ->
  match_here r input s = Some res ->
  exists m0, m_array res = [Some m0; Some m0].
Proof.
  intros Hs Hn. unfold match_here. rewrite Hs, Hn.
  destruct (m _ _ _ s) as [s'|] eqn:E; [|discriminate].
  intros [= <-]. cbn [m_array map seq].
  cbn [m] in E. destruct (xorb (word_before s) (word_after s)); [|discriminate].
  apply m_through in E as [s1 E]. cbn [m] in E.
  match type of E with (if ?c then _ else _) = _ => destruct c; [|discriminate] end.
  injection E as <-. unfold capture. cbn [caps find fst Nat.eqb snd before idx].
  eauto.
Qed.

Lemma match_group1_whole (r : RegExp) (a : regex) (input : str) (arr : list (option str)) :
  source r = Seq WordBoundary (Seq (Group 1 a) WordBoundary) -> ngroups r = 1%nat ->
  match_ input r = Some arr -> exists m0, arr = [Some m0; Some m0].
Proof.
  intros Hs Hn. unfold match_, exec_from.
  destruct (length input <? 0)%nat; [discriminate|].
  destruct (search _ _ _ _) as [res|] eqn:E; [|discriminate].
  intros [= <-]. apply search_match_here in E as [s' E].
  eapply match_here_group1_whole; eassumption.
Qed.

(** The relative dates of a text the relative pattern matches. *)
Lemma relativeDates_match (text : str) (now : Z) (arr : list (option str)) :
  match_ text DATE_PATTERNS.relative = Some arr ->
  exists m0, arr = [Some m0; Some m0]
             /\ relativeDates text now
                = match parseRelativeDate (toLowerCase m0) now with
                  | Some date => [date; date]
                  | None => []
                  end.
Proof.
  intros E. unfold relativeDates. rewrite E.
  eapply match_group1_whole in E as (m0 & ->); [|reflexivity|reflexivity].
  exists m0. split; [reflexivity|].
  change (omap ?f [Some m0; Some m0]) with
    (match parseRelativeDate (toLowerCase m0) now with
     | Some y => y :: match parseRelativeDate (toLowerCase m0) now with
                      | Some y' => [y'] | None => [] end
     | None => match parseRelativeDate (toLowerCase m0) now with
               | Some y' => [y'] | None => [] end
     end).
  destruct (parseRelativeDate (toLowerCase m0) now); reflexivity.
Qed.

(** The dates of a text are those of the three loops, in this order. *)
Lemma extractDates_parts (text : str) (now : Z) :
  extractDates text now
  = Some (relativeDates text now ++ numericDates text now ++ textualDates text now).
Proof.
  unfold extractDates, relativeDates, numericDates, textualDates. cbv zeta.
  assert (Hrel : exists dates,
             match match_ text DATE_PATTERNS.relative with
             | Some relativeMatches => relative_loop relativeMatches now []
             | None => Some []
             end = Some dates
             /\ dates = match match_ text DATE_PATTERNS.relative with
                        | Some relativeMatches =>
                          omap (fun match_ => match_ ≫= fun m => parseRelativeDate (toLowerCase m) now)
                               relativeMatches
                        | None => []
                        end).
  { destruct (match_ text DATE_PATTERNS.relative) as [arr|] eqn:E; [|eauto].
    eapply match_group1 in E as (m0 & g1 & ->); [|reflexivity|reflexivity].
    eexists. split; [apply (relative_loop_omap now [m0; g1] [])|reflexivity]. }
  destruct Hrel as (dates & -> & <-). cbn [mbind option_bind].
  f_equal.
  rewrite (fold_left_omap _ (fun match_ => at_ match_ 0 ≫= fun m0 => parseTextualDate m0 now)).
  - rewrite (fold_left_omap _ (fun match_ =>
               parseNumericDate (at_ match_ 1) (at_ match_ 2) (at_ match_ 3) now)).
    + rewrite <- app_assoc. reflexivity.
    + reflexivity.
  - intros acc x. destruct (at_ x 0); reflexivity.
Qed.


End ExtractedDates.

(* ===================================================================== *)
(** * The dates extracted from a text *)
(* ===================================================================== *)

Section ExtractionTheorems.
Import RegexSpec ContentExtractor DateSpec RelativeDateSpec ExtractionSpec.
Local Arguments js : simpl never.
Local Open Scope Z_scope.



(** The text of the example, evaluated: [03/15/2025] is no date when read
    day first and is read month first, [31/12] takes the year of [now], and
    the year of [15.3.25] is 1925. *)
Lemma extractDates_numeric_tokens_example :
  map m_array (numeric_tokens trip)
  = [ [Some (js "03/15/2025"); Some (js "03"); Some (js "15"); Some (js "2025")];
      [Some (js "31/12"); Some (js "31"); Some (js "12"); None];
      [Some (js "15.3.25"); Some (js "15"); Some (js "3"); Some (js "25")] ]
  /\ getFullYear a_wednesday = 2025
  /\ extractDates trip a_wednesday
     = Some [Some 1741996800000; Some 1767139200000; Some (-1413763200000)]
  /\ toISOString 1741996800000 = js "2025-03-15T00:00:00.000Z"
  /\ toISOString 1767139200000 = js "2025-12-31T00:00:00.000Z"
  /\ toISOString (-1413763200000) = js "1925-03-15T00:00:00.000Z".
Proof. repeat split; vm_compute; reflexivity. Qed.




(** The text of the example, evaluated: the Friday two days after the
    Wednesday, twice. *)
Lemma extractDates_this_week_example :
  this_week_keyword essay = false
  /\ first_relative_match essay = Some (js "This Week")
  /\ extractDates essay a_wednesday
     = Some [Some (a_wednesday + 2 * msPerDay); Some (a_wednesday + 2 * msPerDay)].
Proof. repeat split; vm_compute; reflexivity. Qed.

End ExtractionTheorems.

Section ClassifierTheorems.
Import ContentExtractor ContentClassifier ClassifierSpec ClassifierExamples.
Import Double DoubleSpec.
Local Arguments js : simpl never.
Local Open Scope Q_scope.

Lemma lit_nonneg (q : Q) : 0 <= q -> 0 <= lit q.
Proof. apply round_nonneg. Qed.

Lemma lit_1 : lit 1.0 = 1.
Proof. vm_compute. reflexivity. Qed.

Lemma of_nat_nonneg (n : nat) : 0 <= of_nat n.
Proof. unfold of_nat. change 0 with (inject_Z 0). rewrite <- Zle_Qle. lia. Qed.

Lemma ratio_facts (c w : nat) : format (of_nat c / of_nat w)%D /\ 0 <= (of_nat c / of_nat w)%D.
Proof.
  assert (H : 0 <= of_nat c / of_nat w).
  { pose proof (of_nat_nonneg c) as Hc. pose proof (of_nat_nonneg w) as Hw.
    unfold Qdiv. apply Qmult_le_0_compat; [assumption|]. apply Qinv_le_0_compat, Hw. }
  unfold Double.div. split; [apply round_format|apply round_nonneg]; assumption.
Qed.

(** The importance score is a double between 0 and 1. *)
Lemma calculateImportance_range (text : str) :
  format (calculateImportance text)
  /\ 0 <= calculateImportance text /\ calculateImportance text <= 1.
Proof.
  unfold calculateImportance. cbv zeta.
  destruct (length _ =? 0)%nat; [split; [apply format_0|split; discriminate]|].
  match goal with |- context [(of_nat ?c / of_nat ?w)%D] =>
    destruct (ratio_facts c w) as [F0 P0]; generalize dependent (of_nat c / of_nat w)%D end.
  intros x0 F0 P0.
  destruct (boost_step (test HOMEWORK_PATTERNS.keywords text)
              x0 (lit 0.3) F0 P0
              ltac:(apply lit_nonneg; vm_compute; discriminate)) as (F1 & P1 & _).
  cbv zeta in F1, P1.
  set (x1 := if test HOMEWORK_PATTERNS.keywords text then (x0 + lit 0.3)%D else x0) in *. clearbody x1.
  destruct (boost_step (test DATE_PATTERNS.numeric text || test DATE_PATTERNS.relative text)
              x1 (lit 0.2) F1 P1 ltac:(apply lit_nonneg; vm_compute; discriminate)) as (F2 & P2 & _).
  cbv zeta in F2, P2.
  set (x2 := if test DATE_PATTERNS.numeric text || test DATE_PATTERNS.relative text then (x1 + lit 0.2)%D else x1) in *. clearbody x2.
  destruct (boost_step (test exclamation_re text)
              x2 (lit 0.1) F2 P2
              ltac:(apply lit_nonneg; vm_compute; discriminate)) as (F3 & P3 & _).
  cbv zeta in F3, P3.
  set (x3 := if test exclamation_re text then (x2 + lit 0.1)%D else x2) in *. clearbody x3.
  destruct (boost_step (test urgent_re text)
              x3 (lit 0.4) F3 P3
              ltac:(apply lit_nonneg; vm_compute; discriminate)) as (F4 & P4 & _).
  cbv zeta in F4, P4.
  set (x4 := if test urgent_re text then (x3 + lit 0.4)%D else x3) in *. clearbody x4.
  rewrite lit_1. destruct (min_spec x4 1) as (_ & Hle & [E | E]).
  - split; [rewrite E; assumption|]. split; [rewrite E; assumption|assumption].
  - rewrite E. split; [|split; discriminate].
    rewrite <- lit_1. apply round_format. discriminate.
Qed.

(** The announcement score is not below the importance it starts from. *)
Lemma calculateAnnouncementScore_ge (text : str) (x : Q) :
  format x -> 0 <= x -> x <= 1 -> x <= calculateAnnouncementScore text x.
Proof.
  intros F0 P0 H1. unfold calculateAnnouncementScore. cbv zeta.
  destruct (boost_step (test ANNOUNCEMENT_PATTERNS.event text)
              x (lit 0.3) F0 P0
              ltac:(apply lit_nonneg; vm_compute; discriminate)) as (F1 & P1 & L1).
  cbv zeta in F1, P1, L1.
  set (x1 := if test ANNOUNCEMENT_PATTERNS.event text then (x + lit 0.3)%D else x) in *. clearbody x1.
  destruct (boost_step (test ANNOUNCEMENT_PATTERNS.permissionSlip text)
              x1 (lit 0.4) F1 P1
              ltac:(apply lit_nonneg; vm_compute; discriminate)) as (F2 & P2 & L2).
  cbv zeta in F2, P2, L2.
  set (x2 := if test ANNOUNCEMENT_PATTERNS.permissionSlip text then (x1 + lit 0.4)%D else x1) in *. clearbody x2.
  destruct (boost_step (test ANNOUNCEMENT_PATTERNS.urgent text)
              x2 (lit 0.3) F2 P2
              ltac:(apply lit_nonneg; vm_compute; discriminate)) as (F3 & P3 & L3).
  cbv zeta in F3, P3, L3.
  set (x3 := if test ANNOUNCEMENT_PATTERNS.urgent text then (x2 + lit 0.3)%D else x2) in *. clearbody x3.
  destruct (boost_step (test ANNOUNCEMENT_PATTERNS.reminder text)
              x3 (lit 0.2) F3 P3
              ltac:(apply lit_nonneg; vm_compute; discriminate)) as (F4 & P4 & L4).
  cbv zeta in F4, P4, L4.
  set (x4 := if test ANNOUNCEMENT_PATTERNS.reminder text then (x3 + lit 0.2)%D else x3) in *. clearbody x4.
  destruct (boost_step (test infoIndicators text)
              x4 (lit 0.2) F4 P4
              ltac:(apply lit_nonneg; vm_compute; discriminate)) as (F5 & P5 & L5).
  cbv zeta in F5, P5, L5.
  set (x5 := if test infoIndicators text then (x4 + lit 0.2)%D else x4) in *. clearbody x5.
  rewrite lit_1. destruct (min_spec x5 1) as (_ & _ & [E | E]); rewrite E; lra.
Qed.


(** What [classifyMessage] does once extraction has succeeded. *)
Lemma classifyMessage_unfold (now : Z) (message : str) (metadata : Metadata.t) :
  exists e,
    extractContent default_options message now = Some e
    /\ processedText e = processed message
    /\ classifyMessage now message metadata
       = let text := processed message in
         let importance := calculateImportance text in
         if (importance <? lit 0.1)%D then None
         else if (calculateHomeworkScore text >? lit 0.6)%D then
           Some (createHomeworkItem text message metadata (subjects e) (dates e) (pages e)
                   (exerciseNumbers e) (calculateHomeworkScore text))
         else if (calculateScheduleChangeScore text >? lit 0.6)%D then
           Some (createScheduleChangeItem text message metadata (subjects e) (dates e)
                   (calculateScheduleChangeScore text))
         else if (calculateAnnouncementScore text importance >? lit 0.4)%D then
           Some (createAnnouncementItem text message metadata (dates e)
                   (calculateAnnouncementScore text importance))
         else None.
Proof.
  destruct (extractContent_total message now) as (e & He & Hp).
  exists e. split; [assumption|]. split; [exact Hp|].
  unfold classifyMessage, processed. rewrite He, Hp. reflexivity.
Qed.

(** C1, the claim as stated fails: a homework score above 0.6 does not make
    a homework item when the importance of the message is below 0.1. *)
Lemma homework_score_without_importance :
  (calculateHomeworkScore (processed diluted) >? lit 0.6)%D = true
  /\ (calculateImportance (processed diluted) <? lit 0.1)%D = true
  /\ classifyMessage now diluted metadata = None.
Proof. vm_compute. auto. Qed.

(** C1, amended.  For every message and metadata, if the importance of the
    processed text is not below 0.1 and its homework score exceeds 0.6, the
    result is a homework item whose confidence is the homework score,
    whatever the schedule-change and announcement scores are: homework is
    tested first and the scores are never compared with each other. *)
Theorem homework_has_priority (now : Z) (message : str) (metadata : Metadata.t) :
  (calculateImportance (processed message) <? lit 0.1)%D = false ->
  (calculateHomeworkScore (processed message) >? lit 0.6)%D = true ->
  exists r,
    classifyMessage now message metadata = Some r
    /\ item_type (item r) = homework
    /\ confidence r = calculateHomeworkScore (processed message).
Proof.
  intros Hi Hh. destruct (classifyMessage_unfold now message metadata) as (e & _ & _ & ->).
  cbv zeta. rewrite Hi, Hh. eexists. split; [reflexivity|]. split; reflexivity.
Qed.

Lemma homework_has_priority_witness :
  (calculateScheduleChangeScore (processed multiple_types) >? lit 0.6)%D = true
  /\ exists r,
       classifyMessage ClassifierExamples.now multiple_types metadata = Some r
       /\ item_type (item r) = homework
       /\ confidence r = calculateHomeworkScore (processed multiple_types).
Proof.
  split; [vm_compute; reflexivity|].
  apply (homework_has_priority ClassifierExamples.now multiple_types metadata);
    vm_compute; reflexivity.
Defined.

(** The gate of [classifyMessage]: an importance below 0.1 gives [null]. *)
Lemma low_importance_is_null (now : Z) (message : str) (metadata : Metadata.t) :
  (calculateImportance (processed message) <? lit 0.1)%D = true ->
  classifyMessage now message metadata = None.
Proof.
  intros Hi. destruct (classifyMessage_unfold now message metadata) as (e & _ & _ & ->).
  cbv zeta. rewrite Hi. reflexivity.
Qed.

(** C2.  The code at inputs on which it departs from the claim: the empty
    text, the white-space text and the one-word text of the test data have
    fewer than three tokens that are not stop words, and each is classified
    as an announcement with confidence 1. *)
Theorem short_messages_are_announcements :
  let announced message :=
    (length (content_tokens (processed message)) < 3)%nat
    /\ exists r, classifyMessage ClassifierExamples.now message metadata = Some r
                 /\ item_type (item r) = announcement /\ confidence r = 1 in
  announced [] /\ announced whitespace_only /\ announced very_short.
Proof.
  assert (H : forall (message : str) (r : ClassificationResult),
             (length (content_tokens (processed message)) <? 3)%nat = true ->
             classifyMessage ClassifierExamples.now message metadata = Some r ->
             item_type (item r) = announcement -> confidence r = 1 ->
             (length (content_tokens (processed message)) < 3)%nat
             /\ exists r, classifyMessage ClassifierExamples.now message metadata = Some r
                          /\ item_type (item r) = announcement /\ confidence r = 1).
  { intros message r H1 H2 H3 H4. split; [apply Nat.ltb_lt, H1|]. exists r. auto. }
  cbv zeta. split; [|split]; eapply H; vm_compute; reflexivity.
Qed.

(** C9.  A message whose importance exceeds 0.4 is never classified as
    [null]: the announcement score is not below the importance, so it
    exceeds 0.4 too, and when neither the homework nor the schedule-change
    score exceeds 0.6 the result is an announcement item with that score. *)
Theorem important_message_is_classified (now : Z) (message : str) (metadata : Metadata.t) :
  (calculateImportance (processed message) >? lit 0.4)%D = true ->
  calculateImportance (processed message)
  <= calculateAnnouncementScore (processed message) (calculateImportance (processed message))
  /\ (calculateAnnouncementScore (processed message)
        (calculateImportance (processed message)) >? lit 0.4)%D = true
  /\ exists r,
       classifyMessage now message metadata = Some r
       /\ ((calculateHomeworkScore (processed message) >? lit 0.6)%D = false ->
           (calculateScheduleChangeScore (processed message) >? lit 0.6)%D = false ->
           item_type (item r) = announcement
           /\ confidence r
              = calculateAnnouncementScore (processed message)
                  (calculateImportance (processed message))).
Proof.
  intros Hi.
  destruct (classifyMessage_unfold now message metadata) as (e & _ & _ & ->). cbv zeta.
  destruct (calculateImportance_range (processed message)) as (F & P & L1).
  pose proof (calculateAnnouncementScore_ge (processed message) _ F P L1) as Hge.
  revert Hi F P L1 Hge.
  generalize (calculateImportance (processed message)) as importance.
  intros importance Hi F P L1.
  generalize (calculateAnnouncementScore (processed message) importance) as score.
  intros score Hge.
  assert (Ha : (score >? lit 0.4)%D = true).
  { unfold gtb in *. apply ltb_lt. apply ltb_lt in Hi. lra. }
  assert (Hlow : (importance <? lit 0.1)%D = false).
  { apply ltb_ge. unfold gtb in Hi. apply ltb_lt in Hi.
    assert (lit 0.1 <= lit 0.4) by (vm_compute; discriminate). lra. }
  split; [assumption|]. split; [assumption|].
  rewrite Hlow, Ha.
  destruct (calculateHomeworkScore (processed message) >? lit 0.6)%D;
    [eexists; split; [reflexivity|intros H; discriminate H]|].
  destruct (calculateScheduleChangeScore (processed message) >? lit 0.6)%D;
    [eexists; split; [reflexivity|intros _ H; discriminate H]|].
  eexists. split; [reflexivity|]. intros _ _. split; reflexivity.
Qed.

Lemma important_message_is_classified_witness :
  calculateImportance (processed permission_slips)
  <= calculateAnnouncementScore (processed permission_slips)
       (calculateImportance (processed permission_slips))
  /\ (calculateAnnouncementScore (processed permission_slips)
        (calculateImportance (processed permission_slips)) >? lit 0.4)%D = true
  /\ exists r,
       classifyMessage ClassifierExamples.now permission_slips metadata = Some r
       /\ ((calculateHomeworkScore (processed permission_slips) >? lit 0.6)%D = false ->
           (calculateScheduleChangeScore (processed permission_slips) >? lit 0.6)%D = false ->
           item_type (item r) = announcement
           /\ confidence r
              = calculateAnnouncementScore (processed permission_slips)
                  (calculateImportance (processed permission_slips))).
Proof.
  apply (important_message_is_classified ClassifierExamples.now permission_slips metadata).
  vm_compute. reflexivity.
Defined.


Lemma match_here_exclamation (input before rest : str) :
  match match_here exclamation_re input (mkState before rest []) with
  | Some _ => true
  | None => false
  end = startsWith rest [33%N].
Proof.
  destruct rest as [|c rest]; [reflexivity|].
  unfold match_here, exclamation_re. cbn [source ignoreCase m].
  unfold advance, class_has, in_ranges.
  cbn [RegExp.rest RegExp.before caps existsb fst snd xorb startsWith].
  destruct (N.eqb_spec c 33) as [-> | Hne].
  - rewrite N.leb_refl. destruct rest; reflexivity.
  - destruct (N.leb_spec 33 c), (N.leb_spec c 33); try reflexivity. lia.
Qed.

Lemma search_exclamation (input : str) (fuel : nat) :
  forall before rest,
    (length rest <= fuel)%nat ->
    match search exclamation_re input fuel (mkState before rest []) with
    | Some _ => true
    | None => false
    end = includes rest [33%N].
Proof.
  induction fuel as [|fuel IH]; intros before rest Hlen.
  - destruct rest; [|simpl in Hlen; lia].
    pose proof (match_here_exclamation input before []) as H.
    cbn [search]. destruct (match_here _ _ _); exact H.
  - pose proof (match_here_exclamation input before rest) as H.
    cbn [search]. destruct (match_here _ _ _).
    + destruct rest; cbn [includes]; rewrite <- H; reflexivity.
    + destruct rest as [|c rest]; [reflexivity|].
      cbn [includes advance RegExp.rest RegExp.before caps]. rewrite <- H.
      apply IH. simpl in Hlen. lia.
Qed.

(** [/[!]/.test(text)]: the text contains an exclamation mark. *)
Lemma test_exclamation (text : str) : test exclamation_re text = contains "!" text.
Proof.
  unfold test, exec_from, contains. cbn [Nat.ltb Nat.leb].
  pose proof (search_exclamation text (length text) [] text (le_n _)) as H.
  change (state_at text 0) with (mkState [] text []).
  destruct (search exclamation_re text (length text) (mkState [] text [])); exact H.
Qed.

Lemma tokens_pieces (text : str) :
  Forall (fun piece => piece <> []) (pieces text) -> tokens text = pieces text.
Proof.
  unfold tokens. generalize (pieces text) as l.
  induction l as [|x l IH]; intros H; [reflexivity|].
  inversion H as [|? ? Hx Hl]; subst. simpl. destruct x; [congruence|].
  f_equal. apply IH, Hl.
Qed.

(** C3, the claim as stated fails: a text that only the weekday pattern of
    [DATE_PATTERNS] matches gets no date boost; and the empty text, which
    has no token, scores 1. *)
Lemma importance_not_as_claimed :
  (any_date_pattern the_monday = true
   /\ calculateImportance the_monday == 1 # 2
   /\ ~ calculateImportance the_monday == importance_as_claimed the_monday)
  /\ (content_tokens [] = []
      /\ calculateImportance [] == 1
      /\ ~ calculateImportance [] == importance_as_claimed []).
Proof.
  split.
  - split; [vm_compute; reflexivity|]. split; [vm_compute; reflexivity|].
    intros H. apply Qeq_bool_iff in H. vm_compute in H. discriminate H.
  - split; [vm_compute; reflexivity|]. split; [vm_compute; reflexivity|].
    intros H. apply Qeq_bool_iff in H. vm_compute in H. discriminate H.
Qed.

(** C3, amended.  For every text whose pieces are all non-empty (a non-empty
    text without white space at its ends), [calculateImportance] returns the
    ratio of the tokens that are not stop words to all tokens, plus 0.3 if
    the homework-keyword pattern matches, plus 0.2 if the numeric or the
    relative date pattern matches, plus 0.1 if the text contains "!", plus
    0.4 if an urgency keyword matches, and at most 1; the result is between
    0 and 1, and it is 0 when every token is a stop word. *)
Theorem calculateImportance_formula (text : str) :
  Forall (fun piece => piece <> []) (pieces text) ->
  calculateImportance text = importance_amended text
  /\ (0 <= calculateImportance text /\ calculateImportance text <= 1)
  /\ (content_tokens text = [] -> calculateImportance text = 0).
Proof.
  intros H. apply tokens_pieces in H.
  assert (Hc : content_tokens text
               = List.filter (fun word => negb (bool_decide (word ∈ STOP_WORDS)))
                   (split (toLowerCase text) words_re)).
  { unfold content_tokens. rewrite H. reflexivity. }
  split; [|split].
  - unfold importance_amended, importance_with, plus_if. rewrite H, Hc.
    unfold calculateImportance, pieces. cbv zeta.
    rewrite test_exclamation.
    destruct (List.filter _ _); reflexivity.
  - apply calculateImportance_range.
  - rewrite Hc. unfold calculateImportance. intros ->. reflexivity.
Qed.

Lemma calculateImportance_formula_witness :
  calculateImportance due_tomorrow = importance_amended due_tomorrow
  /\ (0 <= calculateImportance due_tomorrow /\ calculateImportance due_tomorrow <= 1)
  /\ (content_tokens due_tomorrow = [] -> calculateImportance due_tomorrow = 0).
Proof.
  apply (calculateImportance_formula due_tomorrow).
  vm_compute. repeat (apply List.Forall_cons; [discriminate|]). apply List.Forall_nil.
Defined.

End ClassifierTheorems.

(* ===================================================================== *)
(** * Further properties of the filter *)
(* ===================================================================== *)

Section FilterFurther.
Import MessageFilter FilterSpec FilterProps.
Local Arguments js : simpl never.
Local Arguments key_of : simpl never.

Lemma filter_filter (f g : jsval -> bool) (l : list jsval) :
  List.filter g (List.filter f l) = List.filter (fun x => f x && g x) l.
Proof.
  induction l as [|x l IH]; simpl; [reflexivity|].
  destruct (f x); simpl; [destruct (g x)|]; rewrite IH; reflexivity.
Qed.

Lemma filter_all (f : jsval -> bool) (l : list jsval) :
  (forall x, In x l -> f x = true) -> List.filter f l = l.
Proof.
  induction l as [|x l IH]; intros H; simpl; [reflexivity|].
  rewrite (H x) by (simpl; tauto). f_equal. apply IH. intros y Hy. apply H. simpl. tauto.
Qed.

Lemma filter_sublist (f : jsval -> bool) (l : list jsval) : List.filter f l `sublist_of` l.
Proof.
  induction l as [|x l IH]; simpl; [constructor|].
  destruct (f x); [apply sublist_skip|apply sublist_cons]; assumption.
Qed.

Lemma filter_split (f : jsval -> bool) (l l1 l2 : list jsval) (x : jsval) :
  List.filter f l = l1 ++ x :: l2 ->
  exists k1 k2, l = k1 ++ x :: k2 /\ List.filter f k1 = l1 /\ List.filter f k2 = l2.
Proof.
  revert l1. induction l as [|y l IH]; intros l1; simpl.
  - destruct l1; discriminate.
  - destruct (f y) eqn:E.
    + destruct l1 as [|z l1]; simpl.
      * intros [= -> <-]. exists [], l. simpl. auto.
      * intros [= -> H]. destruct (IH _ H) as (k1 & k2 & -> & <- & <-).
        exists (z :: k1), k2. simpl. rewrite E. auto.
    + intros H. destruct (IH _ H) as (k1 & k2 & -> & <- & <-).
      exists (y :: k1), k2. simpl. rewrite E. auto.
Qed.

Lemma first_occurrences_sublist (l : list jsval) :
  forall seen, first_occurrences seen l `sublist_of` l.
Proof.
  induction l as [|x l IH]; intros seen; simpl; [constructor|].
  destruct (bool_decide (key_of x ∈ seen)); [apply sublist_cons|apply sublist_skip]; apply IH.
Qed.

Lemma first_occurrences_NoDup (l : list jsval) :
  forall seen, NoDup (map key_of (first_occurrences seen l)).
Proof.
  induction l as [|x l IH]; intros seen; simpl; [constructor|].
  destruct (bool_decide (key_of x ∈ seen)); [apply IH|].
  simpl. constructor; [|apply IH].
  rewrite list_elem_of_In, in_map_iff. intros (y & Hk & Hy).
  apply first_occurrences_In in Hy as [_ Hy]. apply Hy.
  rewrite elem_of_union, elem_of_singleton. auto.
Qed.

Lemma first_occurrences_id (l : list jsval) :
  forall seen, NoDup (map key_of l) -> (forall x, In x l -> key_of x ∉ seen) ->
    first_occurrences seen l = l.
Proof.
  induction l as [|x l IH]; intros seen Hn Hs; simpl; [reflexivity|].
  rewrite bool_decide_eq_false_2 by (apply Hs; simpl; tauto).
  simpl in Hn. apply NoDup_cons in Hn as [Hx Hn]. f_equal. apply IH; [assumption|].
  intros y Hy. rewrite elem_of_union, elem_of_singleton. intros [E|E].
  - apply Hx. rewrite <- E, list_elem_of_In. apply in_map. assumption.
  - revert E. apply Hs. simpl. tauto.
Qed.

(** The first message of a list that has a given key. *)
Lemma first_with_key (l : list jsval) (m : jsval) :
  In m l ->
  exists m' l1 l2, l = l1 ++ m' :: l2 /\ key_of m' = key_of m
                   /\ forall x, In x l1 -> key_of x <> key_of m.
Proof.
  induction l as [|y l IH]; simpl; [tauto|].
  destruct (decide (key_of y = key_of m)) as [E|E].
  - intros _. exists y, [], l. simpl. tauto.
  - intros [->|H]; [congruence|].
    destruct (IH H) as (m' & l1 & l2 & -> & Hk & Hl).
    exists m', (y :: l1), l2. simpl. split; [reflexivity|]. split; [assumption|].
    intros x [<-|Hx]; [assumption|]. apply Hl, Hx.
Qed.

Lemma validateMessages_all (l : list jsval) :
  (forall message, In message l -> validateMessage message = Ok tt) ->
  validateMessages l = Ok tt.
Proof.
  induction l as [|x l IH]; intros H; simpl; [reflexivity|].
  rewrite (H x) by (simpl; tauto). apply IH. intros y Hy. apply H. simpl. tauto.
Qed.

(** What a call computes on an input that passes [validateInput]. *)
Lemma filter_spec (self : t) (input : jsval) :
  validateInput input = Ok tt ->
  let msgs := elements (get input "messages") in
  let tf := List.filter (passes input) msgs in
  fst (MessageFilter.filter self input)
  = Ok {| messages := first_occurrences ∅ tf;
          stats := {| totalProcessed := Z.of_nat (length msgs);
                      filteredBySubscription :=
                        Z.of_nat (length msgs)
                        - Z.of_nat (length (List.filter (is_subscribed input) msgs));
                      filteredByTimePeriod :=
                        Z.of_nat (length (List.filter (is_subscribed input) msgs))
                        - Z.of_nat (length tf);
                      duplicatesRemoved :=
                        Z.of_nat (length tf) - Z.of_nat (length (first_occurrences ∅ tf));
                      finalCount := Z.of_nat (length (first_occurrences ∅ tf)) |} |}.
Proof.
  intros Hv. cbv zeta. unfold MessageFilter.filter. rewrite Hv.
  rewrite !filter_counting_spec.
  match goal with |- context [removeDuplicates self ?l] =>
    pose proof (removeDuplicates_spec self l) as Hd;
    destruct (removeDuplicates self l) as [uniq self''] end.
  simpl in Hd. subst uniq. simpl.
  unfold passes. rewrite <- filter_filter. reflexivity.
Qed.

Lemma filter_state (self : t) (input : jsval) :
  validateInput input = Ok tt ->
  snd (MessageFilter.filter self input)
  = snd (removeDuplicates self (List.filter (passes input) (elements (get input "messages")))).
Proof.
  intros Hv. unfold MessageFilter.filter. rewrite Hv.
  rewrite !filter_counting_spec, filter_filter.
  change (fun x => (match get x "chat_id" with
                    | JString c =>
                      bool_decide
                        (c ∈ (list_to_set (strings_of (elements (get input "subscribed_chats")))
                              : gset str))
                    | _ => false
                    end) && isMessageInPeriod x (get input "period"))
    with (passes input).
  destruct (removeDuplicates self
              (List.filter (passes input) (elements (get input "messages")))) as [uniq self''].
  reflexivity.
Qed.

Lemma filter_throws (self : t) (input : jsval) (msg : string) :
  validateInput input = Throw msg -> MessageFilter.filter self input = (Throw msg, self).
Proof. intros Hv. unfold MessageFilter.filter. rewrite Hv. reflexivity. Qed.

Lemma filter_validated (self : t) (input : jsval) (r : FilterResult) (self' : t) :
  MessageFilter.filter self input = (Ok r, self') -> validateInput input = Ok tt.
Proof.
  unfold MessageFilter.filter. destruct (validateInput input) as [[]|msg]; [reflexivity|discriminate].
Qed.

(** On a validated input the two tests say what they are meant to say. *)
Lemma passes_iff (input m : jsval) :
  validateInput input = Ok tt -> In m (elements (get input "messages")) ->
  (passes input m = true <-> admissible input m).
Proof.
  intros Hv Hin.
  pose proof (validateInput_ok _ Hv) as (_ & _ & _ & _ & (s & e & Hs & He & Hlt) & Hms).
  destruct (validated_timestamp m) as [t Ht].
  { eapply validateMessages_complete; eassumption. }
  pose proof (isMessageInPeriod_iff m _ t s e Ht Hs He) as Hiff.
  unfold passes, admissible, is_subscribed, subscribed, in_period.
  rewrite andb_true_iff, Hiff. split.
  - intros [H1 H2]. split.
    + destruct (get m "chat_id") as [| |b|n|c|l|ps]; try discriminate.
      exists c. split; [reflexivity|]. apply subscribed_set.
      apply bool_decide_eq_true in H1. exact H1.
    + exists t, s, e. auto.
  - intros [(c & Hc & Hsub) (t' & s' & e' & Ht' & Hs' & He' & Hr)]. split.
    + rewrite Hc. apply bool_decide_eq_true_2, subscribed_set, Hsub.
    + apply round_trips_Date_of in Ht, Hs, He, Ht', Hs', He'.
      assert (t' = t) by congruence. assert (s' = s) by congruence.
      assert (e' = e) by congruence. lia.
Qed.


Lemma filter_output_passes (self : t) (input : jsval) (r : FilterResult) (self' : t) :
  MessageFilter.filter self input = (Ok r, self') ->
  validateInput input = Ok tt
  /\ messages r = first_occurrences ∅ (List.filter (passes input) (elements (get input "messages")))
  /\ forall x, In x (messages r) ->
       In x (elements (get input "messages")) /\ passes input x = true.
Proof.
  intros H. pose proof (filter_validated _ _ _ _ H) as Hv.
  pose proof (filter_spec self input Hv) as Hs. cbv zeta in Hs. rewrite H in Hs.
  simpl in Hs. injection Hs as ->. simpl.
  split; [assumption|]. split; [reflexivity|].
  intros x Hx. apply first_occurrences_In in Hx as [Hx _]. apply filter_In in Hx. exact Hx.
Qed.

Lemma validateInput_eq (a b : jsval) :
  truthy a = truthy b ->
  isArray (get a "messages") = isArray (get b "messages") ->
  isArray (get a "subscribed_chats") = isArray (get b "subscribed_chats") ->
  get a "period" = get b "period" ->
  validateMessages (elements (get a "messages")) = validateMessages (elements (get b "messages")) ->
  validateInput a = validateInput b.
Proof.
  intros H0 H1 H2 H3 H4. unfold validateInput. rewrite H0, H1, H2, H3, H4. reflexivity.
Qed.

Lemma array_holder_truthy (v : jsval) (key : string) :
  isArray (get v key) = true -> truthy v = true.
Proof. destruct v; simpl; try discriminate; reflexivity. Qed.

(** The cache after the loop of [removeDuplicates]. *)
Lemma removeDuplicates_loop_cache (l : list jsval) :
  forall self seen uniq,
    let self' := snd (removeDuplicates_loop self l seen uniq) in
    options self' = options self
    /\ dom (cache self) ⊆ dom (cache self')
    /\ (forall k, k ∈ dom (cache self') ->
          k ∈ dom (cache self) \/ exists m, In m l /\ key_of m = k)
    /\ (getCacheSize self' <= Z.max (getCacheSize self) (cacheSize (options self)))%Z
    /\ (enableCache (options self) = false -> self' = self).
Proof.
  induction l as [|x l IH]; intros self seen uniq.
  - simpl. split; [reflexivity|]. split; [reflexivity|]. split; [auto|]. split; [lia|auto].
  - change (removeDuplicates_loop self (x :: l) seen uniq)
      with (let '(key, self) := getMessageKey self x in
            if bool_decide (key ∈ seen)
            then removeDuplicates_loop self l seen uniq
            else removeDuplicates_loop self l ({[key]} ∪ seen) (uniq ++ [x])).
    assert (Hstep : let self1 := snd (getMessageKey self x) in
                    options self1 = options self
                    /\ dom (cache self) ⊆ dom (cache self1)
                    /\ (forall k, k ∈ dom (cache self1) -> k ∈ dom (cache self) \/ key_of x = k)
                    /\ (getCacheSize self1 <= Z.max (getCacheSize self) (cacheSize (options self)))%Z
                    /\ (enableCache (options self) = false -> self1 = self)).
    { unfold getMessageKey. cbv zeta. fold (key_of x).
      destruct (enableCache (options self)); simpl.
      2:{ split; [reflexivity|]. split; [reflexivity|]. split; [auto|]. split; [lia|auto]. }
      destruct (Z.ltb_spec (Z.of_nat (size (cache self))) (cacheSize (options self))) as [Hlt|Hge];
        simpl.
      2:{ split; [reflexivity|]. split; [reflexivity|]. split; [auto|]. split; [lia|discriminate]. }
      split; [reflexivity|]. split; [|split; [|split; [|discriminate]]].
      - rewrite dom_insert. apply union_subseteq_r.
      - intros k. rewrite dom_insert, elem_of_union, elem_of_singleton. intros [->|Hk]; auto.
      - unfold getCacheSize. simpl.
        pose proof (map_size_insert (key_of x) true (cache self)) as Hsz.
        destruct (cache self !! key_of x); simpl in Hsz;
          (eapply Z.le_trans; [apply Z.eq_le_incl, (f_equal Z.of_nat Hsz)|lia]). }
    pose proof (getMessageKey_key self x) as Hk.
    destruct (getMessageKey self x) as [key self1]. simpl in Hk, Hstep. subst key.
    destruct Hstep as (Ho & Hd & Hn & Hs & He).
    assert (Hrest : forall seen' uniq',
               let self' := snd (removeDuplicates_loop self1 l seen' uniq') in
               options self' = options self
               /\ dom (cache self) ⊆ dom (cache self')
               /\ (forall k, k ∈ dom (cache self') ->
                     k ∈ dom (cache self) \/ exists m, In m (x :: l) /\ key_of m = k)
               /\ (getCacheSize self' <= Z.max (getCacheSize self) (cacheSize (options self)))%Z
               /\ (enableCache (options self) = false -> self' = self)).
    { intros seen' uniq'. destruct (IH self1 seen' uniq') as (Ho' & Hd' & Hn' & Hs' & He').
      cbv zeta. split; [congruence|]. split; [etrans; eassumption|].
      split; [|split].
      - intros k Hk. destruct (Hn' k Hk) as [Hk1|(m & Hm & Hkm)].
        + destruct (Hn k Hk1) as [?|?]; [auto|]. right. exists x. simpl. auto.
        + right. exists m. simpl. auto.
      - rewrite Ho in Hs'. lia.
      - intros Hf. rewrite He' by congruence. auto. }
    destruct (bool_decide (key_of x ∈ seen)); apply Hrest.
Qed.

(** X1.  On success the messages returned are messages of the input, in the
    order of the input, and each of them is from a subscribed chat and has
    its timestamp in the period: the filter returns nothing it was not
    given and nothing it should have dropped. *)
Theorem filter_output_admissible (self : t) (input : jsval) (r : FilterResult) (self' : t) :
  MessageFilter.filter self input = (Ok r, self') ->
  messages r `sublist_of` elements (get input "messages")
  /\ Forall (admissible input) (messages r).
Proof.
  intros H. destruct (filter_output_passes _ _ _ _ H) as (Hv & Hm & Hp). split.
  - rewrite Hm. etrans; [apply first_occurrences_sublist|apply filter_sublist].
  - apply List.Forall_forall. intros x Hx. destruct (Hp x Hx) as [Hin Hpass].
    apply (passes_iff input x Hv Hin), Hpass.
Qed.

(** X2.  Duplicates are resolved by key, first occurrence first: no two
    messages returned have the same key, and for every message of the input
    that is subscribed and in the period, the first such message of the
    input with its key is among the messages returned. *)
Theorem filter_first_occurrence_wins (self : t) (input : jsval) (r : FilterResult) (self' : t) :
  MessageFilter.filter self input = (Ok r, self') ->
  NoDup (map key_of (messages r))
  /\ forall m, In m (elements (get input "messages")) -> admissible input m ->
       exists m' l1 l2,
         elements (get input "messages") = l1 ++ m' :: l2
         /\ key_of m' = key_of m
         /\ admissible input m'
         /\ (forall x, In x l1 -> admissible input x -> key_of x <> key_of m)
         /\ In m' (messages r).
Proof.
  intros H. destruct (filter_output_passes _ _ _ _ H) as (Hv & Hm & Hp). split.
  - rewrite Hm. apply first_occurrences_NoDup.
  - intros m Hin Hadm.
    assert (Htf : In m (List.filter (passes input) (elements (get input "messages")))).
    { apply filter_In. split; [assumption|]. apply (passes_iff input m Hv Hin), Hadm. }
    destruct (first_with_key _ _ Htf) as (m' & t1 & t2 & Hsplit & Hk & Hfirst).
    destruct (filter_split _ _ _ _ _ Hsplit) as (k1 & k2 & Hmsgs & Hk1 & Hk2).
    assert (Hout : In m' (messages r)).
    { rewrite Hm, Hsplit. apply first_occurrences_first; [apply not_elem_of_empty|].
      intros x Hx. rewrite Hk. apply Hfirst, Hx. }
    exists m', k1, k2. split; [assumption|]. split; [assumption|]. split; [|split; [|assumption]].
    + destruct (Hp m' Hout) as [Hin' Hpass]. apply (passes_iff input m' Hv Hin'), Hpass.
    + intros x Hx Hax. apply Hfirst. rewrite <- Hk1. apply filter_In. split; [assumption|].
      apply (passes_iff input x Hv); [|assumption].
      rewrite Hmsgs. apply in_or_app. auto.
Qed.

(** X3.  Filtering is idempotent: a second call on the messages returned,
    with the same subscribed chats and the same period, on any instance,
    returns these messages unchanged and counts nothing as dropped. *)
Theorem filter_idempotent (self : t) (input : jsval) (r : FilterResult) (self' self2 : t)
    (input' : jsval) :
  MessageFilter.filter self input = (Ok r, self') ->
  get input' "messages" = JArray (messages r) ->
  get input' "subscribed_chats" = get input "subscribed_chats" ->
  get input' "period" = get input "period" ->
  fst (MessageFilter.filter self2 input')
  = Ok {| messages := messages r; stats := nothing_dropped (length (messages r)) |}.
Proof.
  intros H Hmsgs Hchats Hperiod.
  destruct (filter_output_passes _ _ _ _ H) as (Hv & Hm & Hp).
  pose proof (validateInput_ok _ Hv) as (H0 & H1 & H2 & _ & _ & Hvm).
  assert (Hpass : forall x, passes input' x = passes input x).
  { intros x. unfold passes, is_subscribed. rewrite Hchats, Hperiod. reflexivity. }
  assert (Hv' : validateInput input' = Ok tt).
  { rewrite <- Hv. apply validateInput_eq.
    - rewrite H0. apply (array_holder_truthy input' "messages"). rewrite Hmsgs. reflexivity.
    - rewrite Hmsgs, H1. reflexivity.
    - rewrite Hchats. reflexivity.
    - assumption.
    - rewrite Hmsgs, Hvm. simpl. apply validateMessages_all.
      intros x Hx. eapply validateMessages_complete; [eassumption|]. apply Hp, Hx. }
  rewrite (filter_spec self2 input' Hv'). cbv zeta. rewrite Hmsgs. simpl elements.
  assert (Hall : List.filter (passes input') (messages r) = messages r).
  { apply filter_all. intros x Hx. rewrite Hpass. apply Hp, Hx. }
  assert (Hsub : List.filter (is_subscribed input') (messages r) = messages r).
  { apply filter_all. intros x Hx. specialize (Hpass x). unfold passes in Hpass.
    destruct (Hp x Hx) as [_ Hx']. unfold passes in Hx'. apply andb_true_iff in Hx' as [Hx' _].
    unfold is_subscribed in *. rewrite Hchats. exact Hx'. }
  rewrite Hall, Hsub.
  assert (Hid : first_occurrences ∅ (messages r) = messages r).
  { apply first_occurrences_id; [|intros; apply not_elem_of_empty].
    rewrite Hm. apply first_occurrences_NoDup. }
  rewrite Hid. unfold nothing_dropped. rewrite !Z.sub_diag. reflexivity.
Qed.

(** X4.  The result of a call does not depend on the instance it is made
    on: neither the options nor the content of the cache change the
    messages returned, the statistics or the error. *)
Theorem filter_result_ignores_cache (self1 self2 : t) (input : jsval) :
  fst (MessageFilter.filter self1 input) = fst (MessageFilter.filter self2 input).
Proof.
  destruct (validateInput input) as [[]|msg] eqn:Hv.
  - rewrite !filter_spec by assumption. reflexivity.
  - rewrite !(filter_throws _ _ _ Hv). reflexivity.
Qed.

(** X5.  What a call does to the cache of its instance: the options stay;
    no key is removed; a key that is added is the key of a message of the
    input that passed the subscription and period tests; the size does not
    grow beyond [cacheSize] (or beyond what it was, if that was more); with
    [enableCache] off the instance is unchanged; and [clearCache] leaves a
    cache of size 0. *)
Theorem filter_cache_bounded (self : t) (input : jsval) :
  let self' := snd (MessageFilter.filter self input) in
  options self' = options self
  /\ dom (cache self) ⊆ dom (cache self')
  /\ (forall k, k ∈ dom (cache self') ->
        k ∈ dom (cache self)
        \/ exists m, In m (elements (get input "messages")) /\ passes input m = true
                     /\ key_of m = k)
  /\ (getCacheSize self' <= Z.max (getCacheSize self) (cacheSize (options self)))%Z
  /\ (enableCache (options self) = false -> self' = self)
  /\ getCacheSize (clearCache self') = 0%Z.
Proof.
  cbv zeta.
  assert (Hclear : forall s, getCacheSize (clearCache s) = 0%Z) by reflexivity.
  destruct (validateInput input) as [[]|msg] eqn:Hv.
  2:{ rewrite (filter_throws _ _ _ Hv). simpl. split; [reflexivity|]. split; [reflexivity|].
      split; [auto|]. split; [lia|]. split; [auto|apply Hclear]. }
  rewrite (filter_state self input Hv).
  destruct (removeDuplicates_loop_cache
              (List.filter (passes input) (elements (get input "messages"))) self ∅ [])
    as (Ho & Hd & Hn & Hs & He).
  split; [exact Ho|]. split; [exact Hd|].
  split; [|split; [exact Hs|split; [exact He|apply Hclear]]].
  intros k Hk. destruct (Hn k Hk) as [?|(m & Hm & Hkm)]; [auto|].
  right. exists m. apply filter_In in Hm. tauto.
Qed.

(** X6.  Only the set of strings in [subscribed_chats] matters: two inputs
    with the same messages and period whose arrays of subscribed chats hold
    the same strings (in any order, any number of times, beside any entries
    that are not strings) give the same result. *)
Theorem filter_subscription_is_a_set (self : t) (input1 input2 : jsval) :
  get input1 "messages" = get input2 "messages" ->
  get input1 "period" = get input2 "period" ->
  isArray (get input1 "subscribed_chats") = true ->
  isArray (get input2 "subscribed_chats") = true ->
  (forall c, In (JString c) (elements (get input1 "subscribed_chats"))
             <-> In (JString c) (elements (get input2 "subscribed_chats"))) ->
  fst (MessageFilter.filter self input1) = fst (MessageFilter.filter self input2).
Proof.
  intros Hmsgs Hperiod Ha1 Ha2 Hset.
  assert (Hv : validateInput input1 = validateInput input2).
  { apply validateInput_eq.
    - rewrite (array_holder_truthy _ _ Ha1), (array_holder_truthy _ _ Ha2). reflexivity.
    - rewrite Hmsgs. reflexivity.
    - rewrite Ha1, Ha2. reflexivity.
    - assumption.
    - rewrite Hmsgs. reflexivity. }
  assert (Hsub : forall x, is_subscribed input1 x = is_subscribed input2 x).
  { intros x. unfold is_subscribed. destruct (get x "chat_id"); try reflexivity.
    apply bool_decide_ext. rewrite !subscribed_set. apply Hset. }
  assert (Hsubs : forall l, List.filter (is_subscribed input1) l = List.filter (is_subscribed input2) l).
  { intros l. apply filter_ext. assumption. }
  assert (Hpass : forall l, List.filter (passes input1) l = List.filter (passes input2) l).
  { intros l. apply filter_ext. intros x. unfold passes. rewrite Hsub, Hperiod. reflexivity. }
  destruct (validateInput input1) as [[]|msg] eqn:Hv1.
  - rewrite (filter_spec self input1 Hv1), (filter_spec self input2 (eq_sym Hv)). cbv zeta.
    rewrite Hmsgs, !Hpass, !Hsubs. reflexivity.
  - rewrite (filter_throws _ _ _ Hv1), (filter_throws _ _ _ (eq_sym Hv)). reflexivity.
Qed.

End FilterFurther.

Section FilterFurtherExamples.
Import MessageFilter FilterSpec FilterProps Examples FilterInputs.

Lemma filter_output_admissible_witness :
  [hello; homework_due] `sublist_of` elements (get mixed "messages")
  /\ Forall (admissible mixed) [hello; homework_due].
Proof.
  apply (filter_output_admissible uncached mixed mixed_result uncached).
  vm_compute. reflexivity.
Defined.

Lemma filter_first_occurrence_wins_witness :
  NoDup (map key_of [hello; homework_due])
  /\ forall m, In m (elements (get mixed "messages")) -> admissible mixed m ->
       exists m' l1 l2,
         elements (get mixed "messages") = l1 ++ m' :: l2
         /\ key_of m' = key_of m
         /\ admissible mixed m'
         /\ (forall x, In x l1 -> admissible mixed x -> key_of x <> key_of m)
         /\ In m' [hello; homework_due].
Proof.
  apply (filter_first_occurrence_wins uncached mixed mixed_result uncached).
  vm_compute. reflexivity.
Defined.

Lemma filter_idempotent_witness :
  fst (MessageFilter.filter (new default_options) mixed_again)
  = Ok {| messages := [hello; homework_due]; stats := nothing_dropped 2 |}.
Proof.
  apply (filter_idempotent uncached mixed mixed_result uncached (new default_options)
           mixed_again).
  - vm_compute. reflexivity.
  - vm_compute. reflexivity.
  - vm_compute. reflexivity.
  - vm_compute. reflexivity.
Defined.

Lemma filter_subscription_is_a_set_witness :
  fst (MessageFilter.filter (new default_options) mixed)
  = fst (MessageFilter.filter (new default_options) mixed_listed_twice).
Proof.
  apply (filter_subscription_is_a_set (new default_options) mixed mixed_listed_twice).
  - vm_compute. reflexivity.
  - vm_compute. reflexivity.
  - vm_compute. reflexivity.
  - vm_compute. reflexivity.
  - intros c. vm_compute. intuition discriminate.
Defined.

End FilterFurtherExamples.

(* ===================================================================== *)
(** * Further properties of the date extraction *)
(* ===================================================================== *)

Section DateFurther.
Import DateSpec ContentExtractor.
Local Open Scope Z_scope.
Local Arguments js : simpl never.

Lemma DateFromDay_pos (d : Z) : 1 <= DateFromDay d.
Proof.
  pose proof (MonthFromDay_bounds d) as H. cbv zeta in H. unfold DateFromDay. lia.
Qed.

Lemma MakeDay_next_year (y d : Z) :
  DayFromYear y <= MakeDay y (MonthFromDay d) (DateFromDay d).
Proof.
  pose proof (MonthFromDay_range d) as Hm.
  rewrite MakeDay_month by assumption.
  pose proof (DateFromDay_pos d).
  pose proof (monthStart_bounds (leapAdj y) (MonthFromDay d) Hm) as Hb.
  destruct (leapAdj_range y) as [E|E]; rewrite E in *; lia.
Qed.

Lemma before_next_year (t : Z) : t < DayFromYear (getFullYear t + 1) * msPerDay.
Proof.
  unfold getFullYear. pose proof (year_of_day_spec (Day t)) as [_ H].
  unfold Day, msPerDay in *.
  pose proof (Z.mul_succ_div_gt t 86400000 ltac:(lia)). lia.
Qed.

Lemma TimeClip_Some (t t' : Z) : TimeClip t = Some t' -> t' = t.
Proof. unfold TimeClip. destruct (_ <? _); congruence. Qed.

(** X7.  The relative keywords shift the date by whole days and keep the
    time of day: with [today] the result is [now], with [tomorrow] it is
    24 hours later, with [yesterday] 24 hours earlier, with [next week]
    seven times 24 hours later (also across the end of a month or a year);
    the keywords are looked for in this order; a text without any of the
    keywords gives [null]. *)
Theorem parseRelativeDate_shifts (text : str) (now : Z) :
  let has (english hebrew : string) := includes text (js english) || includes text (js hebrew) in
  (has "today"%string "היום"%string = true -> parseRelativeDate text now = Some (Some now))
  /\ (has "today"%string "היום"%string = false -> has "tomorrow"%string "מחר"%string = true ->
      parseRelativeDate text now = Some (TimeClip (now + msPerDay)))
  /\ (has "today"%string "היום"%string = false -> has "tomorrow"%string "מחר"%string = false ->
      has "yesterday"%string "אתמול"%string = true ->
      parseRelativeDate text now = Some (TimeClip (now - msPerDay)))
  /\ (has "today"%string "היום"%string = false -> has "tomorrow"%string "מחר"%string = false ->
      has "yesterday"%string "אתמול"%string = false -> has "next week"%string "השבוע הבא"%string = true ->
      parseRelativeDate text now = Some (TimeClip (now + 7 * msPerDay)))
  /\ (has "today"%string "היום"%string = false -> has "tomorrow"%string "מחר"%string = false ->
      has "yesterday"%string "אתמול"%string = false -> has "next week"%string "השבוע הבא"%string = false ->
      has "this week"%string "השבוע"%string = false ->
      parseRelativeDate text now = None).
Proof.
  cbv zeta. unfold parseRelativeDate. cbv zeta.
  repeat split.
  - intros ->. reflexivity.
  - intros -> ->. rewrite setDate_getDate_plus, Z.mul_1_l. reflexivity.
  - intros -> -> ->.
    replace (getDate now - 1) with (getDate now + -1) by lia.
    rewrite setDate_getDate_plus. replace (now + -1 * msPerDay) with (now - msPerDay) by lia.
    reflexivity.
  - intros -> -> -> ->. rewrite setDate_getDate_plus. reflexivity.
  - intros -> -> -> -> ->. reflexivity.
Qed.

(** X8.  A textual date is never in the past: whenever [parseTextualDate]
    returns a valid date, it is midnight of a day that is not before [now]
    (a day and month that have passed this year are taken in the next
    year). *)
Theorem parseTextualDate_not_in_past (text : str) (now t : Z) :
  parseTextualDate text now = Some (Some t) -> now <= t /\ TimeWithinDay t = 0.
Proof.
  unfold parseTextualDate. cbv zeta.
  destruct (fold_left _ _ _) as [[d|] [mn|]]; try discriminate.
  destruct (d =? 0); [discriminate|].
  unfold Date_ymd.
  set (yr := if (0 <=? getFullYear now) && (getFullYear now <=? 99)
             then 1900 + getFullYear now else getFullYear now).
  destruct (TimeClip (MakeDate (MakeDay yr mn d) 0)) as [t0|] eqn:E0; [|discriminate].
  apply TimeClip_Some in E0.
  assert (Ht0 : TimeWithinDay t0 = 0).
  { subst t0. apply (Day_MakeDate (MakeDay yr mn d) 0). unfold msPerDay. lia. }
  simpl. destruct (Z.ltb_spec t0 now) as [Hlt|Hge].
  - unfold setFullYear. rewrite Ht0. intros [= H]. apply TimeClip_Some in H. subst t.
    split.
    + pose proof (before_next_year now).
      pose proof (MakeDay_next_year (getFullYear now + 1) (Day t0)).
      unfold getMonth, getDate, MakeDate, msPerDay in *. lia.
    + apply Day_MakeDate. unfold msPerDay. lia.
  - intros [= <-]. split; [lia|assumption].
Qed.

Lemma parseTextualDate_not_in_past_witness :
  1736935200000 <= 1767398400000 /\ TimeWithinDay 1767398400000 = 0.
Proof.
  apply (parseTextualDate_not_in_past (js "3 January") 1736935200000 1767398400000).
  vm_compute. reflexivity.
Defined.

End DateFurther.

Section RelativeDates.
Import ContentExtractor ExtractionSpec.
Local Arguments js : simpl never.

(** X13.  A relative date is listed twice, and only the first match of
    the relative pattern counts.  When the pattern matches, the loop of
    [extractDates] runs over the match array, which holds the match and,
    once more, its only group.  If the matched text holds a keyword, the
    date of the keyword is pushed twice, and what [extractDates] returns is
    these two dates, then the dates of the numeric tokens, then those of
    the textual ones; if it holds none (as [next monday]), no relative date
    is pushed, and the numeric and textual dates are all there is. *)
Theorem relative_date_is_listed_twice (text : str) (now : Z) :
  test DATE_PATTERNS.relative text = true ->
  exists m0,
    match_ text DATE_PATTERNS.relative = Some [Some m0; Some m0]
    /\ extractDates text now
       = Some (match parseRelativeDate (toLowerCase m0) now with
               | Some date => [date; date]
               | None => []
               end ++ numericDates text now ++ textualDates text now).
Proof.
  intros Ht. unfold test in Ht.
  destruct (match_ text DATE_PATTERNS.relative) as [arr|] eqn:E.
  - destruct (relativeDates_match text now arr E) as (m0 & -> & Hr).
    exists m0. split; [reflexivity|]. rewrite extractDates_parts, Hr. reflexivity.
  - unfold match_ in E. destruct (exec_from DATE_PATTERNS.relative text 0); discriminate.
Qed.

Lemma relative_date_is_listed_twice_witness :
  (exists m0,
     match_ ClassifierExamples.due_tomorrow DATE_PATTERNS.relative = Some [Some m0; Some m0]
     /\ extractDates ClassifierExamples.due_tomorrow ClassifierExamples.now
        = Some (match parseRelativeDate (toLowerCase m0) ClassifierExamples.now with
                | Some date => [date; date]
                | None => []
                end ++ numericDates ClassifierExamples.due_tomorrow ClassifierExamples.now
                    ++ textualDates ClassifierExamples.due_tomorrow ClassifierExamples.now))
  /\ (exists m0,
        match_ next_monday DATE_PATTERNS.relative = Some [Some m0; Some m0]
        /\ extractDates next_monday ClassifierExamples.now
           = Some (match parseRelativeDate (toLowerCase m0) ClassifierExamples.now with
                   | Some date => [date; date]
                   | None => []
                   end ++ numericDates next_monday ClassifierExamples.now
                       ++ textualDates next_monday ClassifierExamples.now)).
Proof.
  split.
  - apply (relative_date_is_listed_twice ClassifierExamples.due_tomorrow ClassifierExamples.now).
    vm_compute. reflexivity.
  - apply (relative_date_is_listed_twice next_monday ClassifierExamples.now).
    vm_compute. reflexivity.
Defined.

(** The two texts of the example, evaluated: the date of [tomorrow] twice,
    and no date for [next monday]. *)
Lemma relative_dates_example :
  first_relative_match next_monday = Some (js "next monday")
  /\ parseRelativeDate (js "next monday") ClassifierExamples.now = None
  /\ extractDates next_monday ClassifierExamples.now = Some []
  /\ exists date,
       extractDates ClassifierExamples.due_tomorrow ClassifierExamples.now
       = Some [date; date].
Proof.
  split; [vm_compute; reflexivity|]. split; [vm_compute; reflexivity|].
  split; [vm_compute; reflexivity|]. eexists. vm_compute. reflexivity.
Qed.

End RelativeDates.

(* ===================================================================== *)
(** * Properties of the text processing *)
(* ===================================================================== *)

Section RunMatching.
Import TextSpec.
Local Arguments js : simpl never.

Lemma take_drop_while (P : N -> bool) (s : str) : take_while P s ++ drop_while P s = s.
Proof. induction s as [|c r IH]; simpl; [reflexivity|]. destruct (P c); simpl; congruence. Qed.

Lemma firstn_take_while (P : N -> bool) (s : str) :
  firstn (length (take_while P s)) s = take_while P s.
Proof. induction s as [|c r IH]; simpl; [reflexivity|]. destruct (P c); simpl; congruence. Qed.

Lemma skipn_take_while (P : N -> bool) (s : str) :
  skipn (length (take_while P s)) s = drop_while P s.
Proof. induction s as [|c r IH]; simpl; [reflexivity|]. destruct (P c); simpl; congruence. Qed.

Lemma take_while_length (P : N -> bool) (s : str) : (length (take_while P s) <= length s)%nat.
Proof. induction s as [|c r IH]; simpl; [lia|]. destruct (P c); simpl; lia. Qed.

Lemma drop_while_head (P : N -> bool) (s : str) (d : N) (r : str) :
  drop_while P s = d :: r -> P d = false.
Proof.
  induction s as [|c s IH]; simpl; [discriminate|].
  destruct (P c) eqn:E; [assumption|]. intros [= <- <-]. assumption.
Qed.

(** A pattern for one code unit, repeated once or more: it matches the
    longest run. *)
Lemma plus_matches_runs (P : N -> bool) (u : regex) (g : bool) :
  one_unit P u ->
  matches_runs P (fun s => length (take_while P s)) (mkRegExp (Repeat 1 None u) 0 false g).
Proof.
  intros Hu. split; [reflexivity|]. split; [reflexivity|]. split.
  { intros d rest Hd. simpl. rewrite Hd. simpl. pose proof (take_while_length P rest). lia. }
  intros s. cbn [source m].
  assert (Hf : (length (rest s) < S (length (rest s)) + 1)%nat) by lia.
  revert Hf. generalize (S (length (rest s)) + 1)%nat as fuel. intros fuel Hf.
  rewrite firstn_take_while, skipn_take_while.
  match goal with |- ?f fuel 0%nat s = _ =>
    enough (H : forall fuel n s, (length (rest s) < fuel)%nat ->
              f fuel n s
              = if (1 <=? n)%nat || (0 <? length (take_while P (rest s)))%nat
                then Some (mkState (rev (take_while P (rest s)) ++ before s)
                             (drop_while P (rest s)) (caps s))
                else None)
  end.
  { rewrite (H fuel 0%nat s Hf). simpl.
    destruct (rest s) as [|d r]; simpl; [reflexivity|]. destruct (P d); reflexivity. }
  clear s fuel Hf. induction fuel as [|fuel IH]; intros n s Hf; [lia|].

  cbv zeta. rewrite Hu. unfold advance.
  destruct s as [b [|d r] cs]; cbn [rest before caps] in *.
  - simpl. rewrite orb_false_r. reflexivity.
  - cbn [take_while drop_while]. destruct (P d) eqn:Hd.
    + unfold idx at 1 2. cbn [before length]. rewrite (proj2 (Nat.ltb_lt (length b) (S (length b)))) by lia.
      rewrite orb_true_r. rewrite IH by (cbn [rest]; simpl in Hf; lia).
      cbn [rest before caps length]. rewrite orb_true_r.
      simpl. rewrite <- app_assoc. reflexivity.
    + simpl. rewrite orb_false_r. reflexivity.
Qed.

(** A pattern for one code unit. *)
Lemma unit_matches_runs (P : N -> bool) (u : regex) (g : bool) :
  one_unit P u -> matches_runs P (fun _ => 1%nat) (mkRegExp u 0 false g).
Proof.
  intros Hu. split; [reflexivity|]. split; [reflexivity|]. split.
  { intros d rest _. simpl. lia. }
  intros s. cbn [source]. rewrite Hu. unfold advance.
  destruct s as [b [|d r] cs]; cbn [rest before caps]; [reflexivity|].
  destruct (P d); reflexivity.
Qed.

Lemma one_unit_Char (c : N) : one_unit (N.eqb c) (Char c).
Proof. intros k s. reflexivity. Qed.

Lemma one_unit_Class (rs : list (N * N)) : one_unit (in_ranges rs) (Class false rs).
Proof. intros k s. reflexivity. Qed.

End RunMatching.

Section Replacing.
Import TextSpec.
Local Arguments js : simpl never.

Variable P : N -> bool.
Variable len : str -> nat.
Variable r : RegExp.
Hypothesis Hr : matches_runs P len r.
Variable input : str.

Let notP : N -> bool := fun c => negb (P c).

Lemma match_here_runs (s : mstate) :
  match_here r input s
  = match rest s with
    | d :: _ =>
      if P d
      then Some (mkMatch (idx s) (idx s + len (rest s))
                   [Some (substring input (idx s) (idx s + len (rest s)))])
      else None
    | [] => None
    end.
Proof using Hr.
  destruct Hr as (Hic & Hng & Hlen & Hm).
  unfold match_here. rewrite Hic, Hm, Hng.
  destruct (rest s) as [|d rr] eqn:E; [reflexivity|].
  destruct (P d) eqn:Hd; [|reflexivity].
  cbn [map seq caps]. unfold idx at 2 4. cbn [before].
  rewrite length_app, length_rev, firstn_length_le by (apply Hlen, Hd).
  fold (idx s). rewrite (Nat.add_comm _ (idx s)). reflexivity.
Qed.

Lemma search_runs (fuel : nat) :
  forall s : mstate, (length (rest s) <= fuel)%nat ->
    search r input fuel s
    = match drop_while notP (rest s) with
      | [] => None
      | s1 =>
        let i := (idx s + length (take_while notP (rest s)))%nat in
        Some (mkMatch i (i + len s1) [Some (substring input i (i + len s1))])
      end.
Proof using Hr.
  induction fuel as [|fuel IH]; intros [b [|d rr] cs] Hf; cbn [rest] in Hf;
    cbn [search]; rewrite match_here_runs; cbn [rest take_while drop_while]; unfold notP;
    try (simpl in Hf; lia).
  - reflexivity.
  - destruct fuel; reflexivity.
  - destruct (P d) eqn:Hd; cbn [negb].
    + cbv zeta. cbn [length]. rewrite Nat.add_0_r. reflexivity.
    + unfold advance. cbn [rest before caps]. rewrite IH by (cbn [rest]; simpl in Hf; lia).
      cbn [rest]. fold notP. destruct (drop_while notP rr) as [|d1 r1]; [reflexivity|].
      cbv zeta. unfold idx. cbn [before length].
      replace (S (length b) + length (take_while notP rr))%nat
        with (length b + S (length (take_while notP rr)))%nat by lia.
      reflexivity.
Qed.

Lemma exec_from_runs (i : nat) :
  (i <= length input)%nat ->
  exec_from r input i
  = match drop_while notP (skipn i input) with
    | [] => None
    | s1 =>
      let j := (i + length (take_while notP (skipn i input)))%nat in
      Some (mkMatch j (j + len s1) [Some (firstn (len s1) s1)])
    end.
Proof using Hr.
  intros Hi. unfold exec_from. rewrite (proj2 (Nat.ltb_ge _ _)) by lia.
  rewrite search_runs by (unfold state_at; cbn [rest]; rewrite length_skipn; lia).
  unfold state_at, idx. cbn [rest before]. rewrite length_rev, firstn_length_le by lia.
  destruct (drop_while notP (skipn i input)) as [|d1 r1] eqn:E; [reflexivity|].
  cbv zeta. do 4 f_equal. unfold substring.
  replace (i + length (take_while notP (skipn i input)) + len (d1 :: r1)
           - (i + length (take_while notP (skipn i input))))%nat
    with (len (d1 :: r1)) by lia.
  rewrite (Nat.add_comm i), <- skipn_skipn, skipn_take_while, E. reflexivity.
Qed.

(** Replacing all matches in [input], whatever function satisfies the
    equation of the replacement. *)
Lemma replace_unique (by_ : str) (f : str -> str) :
  (forall s, f s = match drop_while notP s with
                   | [] => s
                   | s1 => take_while notP s ++ by_ ++ f (skipn (len s1) s1)
                   end) ->
  replace input r by_ = f input.
Proof using Hr.
  intros Hf. unfold replace.
  enough (H : forall fuel i, (i <= length input)%nat -> (length input - i < fuel)%nat ->
            replace_from input (all_matches r input fuel i) i by_ = f (skipn i input)).
  { apply (H (S (length input)) 0%nat); lia. }
  induction fuel as [|fuel IH]; intros i Hi Hfuel; [lia|].
  cbn [all_matches]. rewrite exec_from_runs by assumption. rewrite (Hf (skipn i input)).
  pose proof (take_drop_while notP (skipn i input)) as Hsplit.
  destruct (drop_while notP (skipn i input)) as [|d1 r1] eqn:E; [reflexivity|].
  cbv zeta. cbn [m_end m_index replace_from].
  assert (Hd1 : P d1 = true).
  { apply drop_while_head in E. unfold notP in E. destruct (P d1); [reflexivity|discriminate]. }
  destruct Hr as (_ & _ & Hlen & _). specialize (Hlen d1 r1 Hd1).
  assert (Hlen' : (length (take_while notP (skipn i input)) + length (d1 :: r1)
                   = length input - i)%nat).
  { rewrite <- length_app, Hsplit, length_skipn. reflexivity. }
  rewrite (proj2 (Nat.eqb_neq _ _)) by lia.
  rewrite IH by lia.
  unfold substring.
  replace (i + length (take_while notP (skipn i input)) - i)%nat
    with (length (take_while notP (skipn i input))) by lia.
  rewrite firstn_take_while.
  rewrite (Nat.add_comm (i + _)), <- skipn_skipn.
  rewrite (Nat.add_comm i), <- skipn_skipn, skipn_take_while, E. reflexivity.
Qed.

End Replacing.

Section Normalizing.
Import TextSpec ContentExtractor.
Local Arguments js : simpl never.

Lemma collapse_no_run (P : N -> bool) (by_ : str) (s : str) :
  collapse P by_ false s
  = take_while (fun c => negb (P c)) s
    ++ collapse P by_ false (drop_while (fun c => negb (P c)) s).
Proof.
  induction s as [|c s IH]; [reflexivity|]. cbn [take_while drop_while].
  destruct (P c) eqn:E; cbn [negb]; [reflexivity|].
  cbn [collapse]. rewrite E. simpl. f_equal. exact IH.
Qed.

Lemma collapse_in_run (P : N -> bool) (by_ : str) (s : str) :
  collapse P by_ true s = collapse P by_ false (drop_while P s).
Proof.
  induction s as [|c s IH]; [reflexivity|]. cbn [collapse drop_while].
  destruct (P c) eqn:E; [exact IH|]. cbn [collapse]. rewrite E. reflexivity.
Qed.

Lemma collapse_equation (P : N -> bool) (by_ : str) (s : str) :
  collapse P by_ false s
  = match drop_while (fun c => negb (P c)) s with
    | [] => s
    | s1 => take_while (fun c => negb (P c)) s
            ++ by_ ++ collapse P by_ false (skipn (length (take_while P s1)) s1)
    end.
Proof.
  rewrite collapse_no_run.
  pose proof (take_drop_while (fun c => negb (P c)) s) as Hs.
  destruct (drop_while (fun c => negb (P c)) s) as [|d r] eqn:E.
  - rewrite app_nil_r in *. assumption.
  - f_equal. apply drop_while_head in E.
    assert (Hd : P d = true) by (destruct (P d); [reflexivity|discriminate]).
    rewrite skipn_take_while. cbn [collapse]. rewrite Hd.
    rewrite collapse_in_run. cbn [drop_while]. rewrite Hd. reflexivity.
Qed.

Lemma collapse_none (P : N -> bool) (by_ : str) (s : str) :
  forallb (fun c => negb (P c)) s = true -> forall b, collapse P by_ b s = s.
Proof.
  induction s as [|c s IH]; intros H b; [reflexivity|]. cbn [forallb] in H.
  apply andb_true_iff in H as [Hc Hs]. cbn [collapse].
  destruct (P c); [discriminate|]. f_equal. apply IH, Hs.
Qed.

(** Replacing every run by [by_]. *)
Lemma replace_runs (P : N -> bool) (u : regex) (g : bool) (input by_ : str) :
  one_unit P u ->
  replace input (mkRegExp (Repeat 1 None u) 0 false g) by_ = collapse P by_ false input.
Proof.
  intros Hu. apply (replace_unique P _ _ (plus_matches_runs P u g Hu)).
  intros s. apply collapse_equation.
Qed.

(** Replacing a character by itself. *)
Lemma replace_same (P : N -> bool) (u : regex) (g : bool) (input : str) (c : N) :
  one_unit P u -> (forall d, P d = true -> d = c) ->
  replace input (mkRegExp u 0 false g) [c] = input.
Proof.
  intros Hu Hc. apply (replace_unique P _ _ (unit_matches_runs P u g Hu) input [c] (fun s => s)).
  intros s. pose proof (take_drop_while (fun c => negb (P c)) s) as Hs.
  destruct (drop_while (fun c => negb (P c)) s) as [|d r] eqn:E; [reflexivity|].
  apply drop_while_head in E.
  assert (Hd : P d = true) by (destruct (P d); [reflexivity|discriminate]).
  rewrite (Hc d Hd) in Hs. simpl. symmetry. exact Hs.
Qed.

(** The white space the first replacement leaves is single spaces. *)
Lemma collapse_ws_units (s : str) :
  forall b c, In c (collapse is_ws [32%N] b s) -> is_ws c = false \/ c = 32%N.
Proof.
  induction s as [|x s IH]; intros b c; cbn [collapse]; [intros []|].
  destruct (is_ws x) eqn:E.
  - intros H. apply in_app_or in H as [H|H]; [|eapply IH, H].
    destruct b; [destruct H|]. destruct H as [<-|[]]. auto.
  - intros [<-|H]; [auto|eapply IH, H].
Qed.

(** The four replacements of [normalizeText] amount to the first. *)
Lemma normalizeText_collapse (text : str) :
  normalizeText text = trim (collapse is_ws [32%N] false text).
Proof.
  unfold normalizeText. cbv zeta.
  change spaces_re with (mkRegExp (Repeat 1 None (Class false ws_ranges)) 0 false true).
  change newlines_re with (mkRegExp (Repeat 1 None (Char 10)) 0 false true).
  change quotes_re with (mkRegExp (Class false [(34, 34); (34, 34)]%N) 0 false true).
  change apostrophes_re with (mkRegExp (Class false [(39, 39); (39, 39)]%N) 0 false true).
  change (js " ") with [32%N]. change (js "'") with [39%N].
  rewrite (replace_runs is_ws _ _ _ _ (one_unit_Class ws_ranges)).
  rewrite (replace_runs _ _ _ _ _ (one_unit_Char 10)).
  rewrite collapse_none.
  2:{ apply forallb_forall. intros c Hc. apply collapse_ws_units in Hc as [Hc| ->]; [|reflexivity].
      destruct (N.eqb_spec 10 c) as [<-|]; [discriminate|reflexivity]. }
  rewrite (replace_same _ _ _ _ _ (one_unit_Class _)).
  2:{ intros d. unfold in_ranges. cbn [existsb fst snd]. rewrite !orb_false_r, orb_diag.
      rewrite andb_true_iff, !N.leb_le. lia. }
  rewrite (replace_same _ _ _ _ _ (one_unit_Class _)).
  2:{ intros d. unfold in_ranges. cbn [existsb fst snd]. rewrite !orb_false_r, orb_diag.
      rewrite andb_true_iff, !N.leb_le. lia. }
  reflexivity.
Qed.


Lemma trimStart_collapse (s : str) :
  trimStart (collapse is_ws [32%N] false s) = collapse is_ws [32%N] true s.
Proof.
  assert (H : forall r, trimStart (collapse is_ws [32%N] true r) = collapse is_ws [32%N] true r).
  { induction r as [|x r IH]; [reflexivity|]. cbn [collapse].
    destruct (is_ws x) eqn:E; [exact IH|]. cbn [trimStart]. rewrite E. reflexivity. }
  destruct s as [|x s]; [reflexivity|]. cbn [collapse].
  destruct (is_ws x) eqn:E.
  - cbn [app trimStart]. change (is_ws 32) with true. cbv iota. apply H.
  - cbn [trimStart]. rewrite E. reflexivity.
Qed.

(** The replacement leaves the words separated by single spaces, and
    possibly a space at the end. *)
Lemma collapse_respace (s : str) :
  (exists tl, (tl = [] \/ tl = [32%N])
              /\ collapse is_ws [32%N] true s = respace at_start s ++ tl)
  /\ (exists tl, (tl = [] \/ tl = [32%N])
                 /\ collapse is_ws [32%N] false s = respace in_word s ++ tl)
  /\ (exists tl, (tl = [] \/ tl = [32%N])
                 /\ 32%N :: collapse is_ws [32%N] true s = respace after_space s ++ tl).
Proof.
  induction s as [|x s (IHa & IHb & IHc)].
  - split; [|split]; [exists []|exists []|exists [32%N]]; auto.
  - cbn [collapse respace]. destruct (is_ws x) eqn:E.
    + split; [exact IHa|]. split; [exact IHc|exact IHc].
    + destruct IHb as (tl & Htl & ->). split; [|split]; exists tl; auto.
Qed.

Lemma respace_end (s : str) :
  forall st, match rev (respace st s) with c :: _ => is_ws c = false | [] => True end.
Proof.
  induction s as [|x s IH]; intros st; [exact I|]. cbn [respace].
  destruct (is_ws x) eqn:E; [apply IH|].
  assert (H : match rev (x :: respace in_word s) with c :: _ => is_ws c = false | [] => True end).
  { cbn [rev]. specialize (IH in_word). destruct (rev (respace in_word s)); assumption. }
  destruct st; try exact H.
  change (rev (32%N :: x :: respace in_word s)) with (rev (x :: respace in_word s) ++ [32%N]).
  destruct (rev (x :: respace in_word s)) eqn:E'; [|exact H].
  exfalso. cbn [rev] in E'. destruct (rev (respace in_word s)); discriminate.
Qed.

(** [normalizeText] in one pass. *)
Lemma normalizeText_respace (text : str) : normalizeText text = respace at_start text.
Proof.
  rewrite normalizeText_collapse. unfold trim. rewrite trimStart_collapse.
  destruct (collapse_respace text) as ((tl & Htl & ->) & _).
  pose proof (respace_end text at_start) as He.
  assert (Ht : trimStart (rev (respace at_start text ++ tl)) = rev (respace at_start text)).
  { destruct Htl as [-> | ->].
    - rewrite app_nil_r. destruct (rev (respace at_start text)); [reflexivity|].
      cbn [trimStart]. rewrite He. reflexivity.
    - rewrite rev_app_distr. cbn [rev app trimStart]. change (is_ws 32) with true. cbv iota.
      destruct (rev (respace at_start text)); [reflexivity|].
      cbn [trimStart]. rewrite He. reflexivity. }
  rewrite Ht. apply rev_involutive.
Qed.

Lemma respace_single_spaced (s : str) :
  single_spaced_after None (respace at_start s) = true
  /\ forall p, is_ws p = false ->
       single_spaced_after (Some p) (respace in_word s) = true
       /\ single_spaced_after (Some p) (respace after_space s) = true.
Proof.
  induction s as [|x s (IHa & IHb)].
  - split; [reflexivity|]. intros p Hp. cbn [respace single_spaced_after]. rewrite Hp. auto.
  - cbn [respace]. destruct (is_ws x) eqn:E.
    + split; [exact IHa|]. intros p Hp. split; apply IHb, Hp.
    + split; [|intros p Hp; split].
      * cbn [single_spaced_after]. rewrite E. apply IHb, E.
      * cbn [single_spaced_after]. rewrite E. apply IHb, E.
      * cbn [single_spaced_after]. change (is_ws 32) with true. cbv iota.
        rewrite N.eqb_refl, Hp, E. apply IHb, E.
Qed.

Lemma respace_non_space (s : str) : forall st, non_space (respace st s) = non_space s.
Proof.
  unfold non_space. induction s as [|x s IH]; intros st; [reflexivity|]. cbn [respace List.filter].
  destruct (is_ws x) eqn:E; cbn [negb]; [apply IH|].
  destruct st; cbn [List.filter]; change (is_ws 32) with true; cbn [negb]; rewrite ?E; cbn [negb];
    f_equal; apply IH.
Qed.

Lemma respace_fixed (s : str) :
  (single_spaced_after None s = true -> respace at_start s = s)
  /\ forall p, single_spaced_after (Some p) s = true ->
       if is_ws p then respace after_space s = 32%N :: s else respace in_word s = s.
Proof.
  induction s as [|x s (IHa & IHb)].
  - split; [reflexivity|]. intros p. cbn [respace single_spaced_after].
    destruct (is_ws p); [intros H; discriminate H|reflexivity].
  - cbn [respace single_spaced_after]. destruct (is_ws x) eqn:E.
    + split; [rewrite andb_false_r; discriminate|].
      intros p Hp. apply andb_true_iff in Hp as [Hp Hs]. apply andb_true_iff in Hp as [Hx Hp].
      apply N.eqb_eq in Hx. destruct (is_ws p); [discriminate|].
      specialize (IHb x Hs). rewrite E in IHb. rewrite IHb. congruence.
    + split.
      * intros Hs. cbn [andb] in Hs. specialize (IHb x Hs). rewrite E in IHb. congruence.
      * intros p Hs. cbn [andb] in Hs. specialize (IHb x Hs). rewrite E in IHb.
        destruct (is_ws p); congruence.
Qed.

(** X9.  What [normalizeText] returns is single-spaced: every white-space
    character in it is a space U+0020 that follows a character that is not
    white space, and it does not end in white space (so it neither begins
    nor ends with a space and has no two spaces in a row, and no tab or
    line break).  The characters that are not white space are those of the
    text, in their order. *)
Theorem normalizeText_single_spaced (text : str) :
  single_spaced (normalizeText text) = true
  /\ non_space (normalizeText text) = non_space text.
Proof.
  rewrite normalizeText_respace. split.
  - apply respace_single_spaced.
  - apply respace_non_space.
Qed.

(** X10.  The texts that [normalizeText] leaves as they are are exactly
    the single-spaced ones; in particular it is idempotent. *)
Theorem normalizeText_fixed_points (text : str) :
  (normalizeText text = text <-> single_spaced text = true)
  /\ normalizeText (normalizeText text) = normalizeText text.
Proof.
  assert (H : forall s, single_spaced s = true -> normalizeText s = s).
  { intros s Hs. rewrite normalizeText_respace. apply respace_fixed, Hs. }
  split; [split|].
  - intros <-. rewrite normalizeText_respace. apply respace_single_spaced.
  - apply H.
  - apply H. rewrite normalizeText_respace. apply respace_single_spaced.
Qed.

End Normalizing.

(* ===================================================================== *)
(** * Texts without word characters *)
(* ===================================================================== *)

Section Wordless.
Import TextSpec WordlessSpec ClassifierSpec ContentExtractor ContentClassifier.
Local Arguments js : simpl never.

(** A pattern that begins with [\b] does not match where no word character
    is next to the position. *)
Lemma m_needs_word (ic : bool) (r : regex) :
  needs_word_boundary r = true ->
  forall (k : cont) (s : mstate),
    word_before s = false -> word_after s = false -> m ic r k s = None.
Proof.
  induction r as [| c | neg rs | | | | r1 IH1 r2 IH2 | r1 IH1 r2 IH2 | lo hi r1 IH1 | i r1 IH1];
    cbn [needs_word_boundary]; try discriminate; intros Hn k s Hb Ha; cbn [m].
  - rewrite Hb, Ha. reflexivity.
  - apply IH1; assumption.
  - apply andb_true_iff in Hn as [H1 H2]. rewrite IH1, IH2 by assumption. reflexivity.
  - apply IH1; assumption.
Qed.

Lemma wordless_app (a b : str) : wordless (a ++ b) = wordless a && wordless b.
Proof. apply forallb_app. Qed.

Lemma search_wordless (r : RegExp) (input : str) (fuel : nat) :
  needs_word_boundary (source r) = true ->
  forall s : mstate, wordless (before s) = true -> wordless (rest s) = true ->
    search r input fuel s = None.
Proof.
  intros Hn. induction fuel as [|fuel IH]; intros [b rs cs] Hb Hr; cbn [before rest] in *;
    cbn [search]; unfold match_here;
    (rewrite m_needs_word;
     [|assumption
      |unfold word_before; cbn [before]; destruct b as [|c b]; [reflexivity|];
       cbn [wordless forallb] in Hb; apply andb_true_iff in Hb as [Hc _];
       destruct (is_word c); [discriminate|reflexivity]
      |unfold word_after; cbn [rest]; destruct rs as [|c rs]; [reflexivity|];
       cbn [wordless forallb] in Hr; apply andb_true_iff in Hr as [Hc _];
       destruct (is_word c); [discriminate|reflexivity]]).
  - reflexivity.
  - unfold advance. cbn [rest before caps]. destruct rs as [|c rs]; [reflexivity|].
    cbn [wordless forallb] in Hr. apply andb_true_iff in Hr as [Hc Hr].
    apply IH; cbn [before rest]; [|assumption].
    cbn [wordless forallb]. rewrite Hc. exact Hb.
Qed.

Lemma exec_from_wordless (r : RegExp) (input : str) (i : nat) :
  needs_word_boundary (source r) = true -> wordless input = true ->
  exec_from r input i = None.
Proof.
  intros Hn Hw. unfold exec_from. destruct (length input <? i)%nat; [reflexivity|].
  rewrite <- (firstn_skipn i input), wordless_app in Hw. apply andb_true_iff in Hw as [H1 H2].
  apply search_wordless; [assumption| |assumption].
  unfold state_at. cbn [before]. unfold wordless in *. rewrite forallb_forall in *.
  intros c Hc. apply H1. apply in_rev. assumption.
Qed.

Lemma test_wordless (r : RegExp) (text : str) :
  needs_word_boundary (source r) = true -> wordless text = true -> test r text = false.
Proof. intros Hn Hw. unfold test. rewrite exec_from_wordless by assumption. reflexivity. Qed.

Lemma replace_wordless (r : RegExp) (text by_ : str) :
  needs_word_boundary (source r) = true -> wordless text = true -> replace text r by_ = text.
Proof.
  intros Hn Hw. unfold replace. cbn [all_matches].
  rewrite exec_from_wordless by assumption. reflexivity.
Qed.

Lemma abbreviation_patterns_need_word :
  forallb (fun r => needs_word_boundary (source r)) abbreviation_patterns = true.
Proof. vm_compute. reflexivity. Qed.

Lemma scoring_patterns_need_word :
  forallb (fun r => needs_word_boundary (source r)) scoring_patterns = true.
Proof. vm_compute. reflexivity. Qed.

Lemma expandAbbreviations_wordless (text : str) :
  wordless text = true -> expandAbbreviations text = text.
Proof.
  intros Hw. unfold expandAbbreviations.
  pose proof abbreviation_patterns_need_word as H. unfold abbreviation_patterns in H.
  revert H. generalize sortedAbbreviations as l.
  induction l as [|[abbr full] l IH]; intros H; [reflexivity|].
  cbn [map forallb] in H. apply andb_true_iff in H as [H1 H2].
  cbn [fold_left]. rewrite replace_wordless by assumption. apply IH, H2.
Qed.

Lemma respace_wordless (s : str) :
  wordless s = true -> forall st, wordless (respace st s) = true.
Proof.
  unfold wordless. induction s as [|x s IH]; intros H st; [reflexivity|].
  cbn [forallb] in H. apply andb_true_iff in H as [Hx Hs]. cbn [respace].
  destruct (is_ws x); [apply IH, Hs|].
  destruct st; cbn [forallb]; rewrite ?Hx, IH by assumption; reflexivity.
Qed.

Lemma processed_wordless (message : str) :
  wordless message = true ->
  processed message = normalizeText message /\ wordless (processed message) = true.
Proof.
  intros Hw. unfold processed.
  assert (H : wordless (normalizeText message) = true).
  { rewrite normalizeText_respace. apply respace_wordless, Hw. }
  rewrite expandAbbreviations_wordless by assumption. auto.
Qed.

(** X11.  A text without word characters (no ASCII letter, no digit, no
    underscore) is left as it is by [expandAbbreviations]: each abbreviation
    is looked for between two assertions [\b], which hold only next to a
    word character.  So an abbreviation in Hebrew letters that stands by
    itself or among Hebrew words is not expanded. *)
Theorem expandAbbreviations_needs_word_characters (text : str) :
  wordless text = true -> expandAbbreviations text = text.
Proof. apply expandAbbreviations_wordless. Qed.

Lemma expandAbbreviations_needs_word_characters_witness :
  In hebrew_abbreviation (map fst ABBREVIATIONS)
  /\ expandAbbreviations hebrew_abbreviation = hebrew_abbreviation.
Proof.
  split.
  - vm_compute. tauto.
  - apply (expandAbbreviations_needs_word_characters hebrew_abbreviation).
    vm_compute. reflexivity.
Defined.

(** X12.  A message without word characters (for instance one in Hebrew
    letters and punctuation only, without digits) is never classified as
    homework or as a schedule change: every pattern of the two scores
    begins with [\b], so both scores are 0.  If the message is classified
    at all, it is as an announcement, with its importance score as the
    confidence. *)
Theorem wordless_message_is_no_homework (now : Z) (message : str) (metadata : Metadata.t) :
  wordless message = true ->
  calculateHomeworkScore (processed message) = 0%Q
  /\ calculateScheduleChangeScore (processed message) = 0%Q
  /\ forall r, classifyMessage now message metadata = Some r ->
       item_type (item r) = announcement
       /\ confidence r = calculateImportance (processed message).
Proof.
  intros Hw. destruct (processed_wordless message Hw) as [_ Hp].
  pose proof scoring_patterns_need_word as Hs. unfold scoring_patterns in Hs.
  cbn [forallb] in Hs. repeat (apply andb_true_iff in Hs as [?Hr Hs]).
  assert (Hhw : calculateHomeworkScore (processed message) = 0%Q).
  { unfold calculateHomeworkScore. rewrite !test_wordless by assumption. reflexivity. }
  assert (Hsc : calculateScheduleChangeScore (processed message) = 0%Q).
  { unfold calculateScheduleChangeScore. rewrite !test_wordless by assumption. reflexivity. }
  split; [assumption|]. split; [assumption|].
  intros r. destruct (classifyMessage_unfold now message metadata) as (e & _ & _ & ->).
  cbv zeta. rewrite Hhw, Hsc.
  destruct (calculateImportance (processed message) <? Double.lit 0.1)%D; [discriminate|].
  change (0%Q >? Double.lit 0.6)%D with false. cbv iota.
  assert (Han : calculateAnnouncementScore (processed message)
                  (calculateImportance (processed message))
                = calculateImportance (processed message)).
  { unfold calculateAnnouncementScore. rewrite !test_wordless by assumption. cbv zeta.
    unfold Double.min. rewrite lit_1.
    destruct (calculateImportance_range (processed message)) as (_ & _ & Hle).
    rewrite (proj2 (ltb_ge _ _)) by assumption. reflexivity. }
  rewrite Han.
  destruct (calculateImportance (processed message) >? Double.lit 0.4)%D; [|discriminate].
  intros [= <-]. split; reflexivity.
Qed.

Lemma wordless_message_is_no_homework_witness :
  calculateHomeworkScore (processed hebrew_literature) = 0%Q
  /\ calculateScheduleChangeScore (processed hebrew_literature) = 0%Q
  /\ forall r, classifyMessage ClassifierExamples.now hebrew_literature ClassifierExamples.metadata
               = Some r ->
       item_type (item r) = announcement
       /\ confidence r = calculateImportance (processed hebrew_literature).
Proof.
  apply (wordless_message_is_no_homework ClassifierExamples.now hebrew_literature
           ClassifierExamples.metadata).
  vm_compute. reflexivity.
Defined.

End Wordless.

(* ===================================================================== *)
(** * Further properties of the classifier *)
(* ===================================================================== *)

Section DoubleFurther.
Import Double DoubleSpec.
Local Open Scope Q_scope.

(** Rounding does not go above a double that the exact value is not
    above. *)
Lemma round_le_format (x y : Q) : format y -> 0 <= x -> x <= y -> round x <= y.
Proof.
  intros Fy H0 Hxy. destruct (Qlt_le_dec 0 x) as [Hx|Hx].
  2:{ rewrite round_zero by (apply Qle_antisym; assumption). lra. }
  destruct Fy as [E | (m & e' & Hm & E)]; [lra|].
  rewrite (round_pos_eq x Hx).
  set (e := ulp_exp x). destruct (ulp_exp_spec x Hx) as [Hlo Hhi]. fold e in Hlo, Hhi.
  pose proof (round_mantissa x Hx) as Hr. fold e in Hr.
  pose proof (two_pow_pos e) as Hpe. pose proof (two_pow_pos e') as Hpe'.
  assert (Hm52 : two_pow 52 <= inject_Z m <= two_pow 53).
  { rewrite !two_pow_Z by lia. rewrite <- !Zle_Qle. exact Hm. }
  assert (Hr53 : inject_Z (rne (x / two_pow e)) <= two_pow 53).
  { rewrite (two_pow_Z 53) by lia. rewrite <- Zle_Qle. apply Hr. }
  assert (Hr0 : 0 <= inject_Z (rne (x / two_pow e))).
  { change 0 with (inject_Z 0). rewrite <- Zle_Qle. lia. }
  destruct (Z.lt_trichotomy e' e) as [Hlt | [Heq | Hgt]].
  - (* y is not above the lower end of the binade of x: x is that end *)
    assert (Hs : two_pow (e' + 53) <= two_pow (e + 52)) by (apply two_pow_le; lia).
    rewrite two_pow_add, (two_pow_add e 52) in Hs.
    rewrite (two_pow_add e 52) in Hlo.
    assert (Hxe : x / two_pow e <= inject_Z (2 ^ 52)).
    { apply Qle_shift_div_r; [assumption|]. rewrite <- two_pow_Z by lia.
      rewrite E in Hxy. destruct Hm52. nra. }
    apply rne_le_int in Hxe. rewrite Zle_Qle, <- two_pow_Z in Hxe by lia.
    rewrite E. destruct Hm52. nra.
  - subst e'. rewrite E. apply Qmult_le_compat_r; [|lra].
    rewrite <- Zle_Qle. apply rne_le_int.
    apply Qle_shift_div_r; [assumption|]. rewrite <- E. assumption.
  - assert (Hs : two_pow (e + 53) <= two_pow (e' + 52)) by (apply two_pow_le; lia).
    rewrite two_pow_add, (two_pow_add e' 52) in Hs.
    rewrite E. destruct Hm52. nra.
Qed.

(** A positive integer below [2^53] is a double. *)
Lemma format_int (n : Z) : (0 <= n < 2 ^ 53)%Z -> format (inject_Z n).
Proof.
  intros Hn. destruct (Z.eq_dec n 0%Z) as [->|Hz]; [left; reflexivity|]. right.
  assert (Hpos : (0 < n)%Z) by lia.
  pose proof (Z.log2_spec n Hpos) as [Hl1 Hl2].
  pose proof (Z.log2_nonneg n) as Hl0.
  assert (Hl53 : (Z.log2 n < 53)%Z) by (apply Z.log2_lt_pow2; lia).
  set (k := (52 - Z.log2 n)%Z).
  exists (n * 2 ^ k)%Z, (- k)%Z. split.
  - replace (2 ^ 52)%Z with (2 ^ Z.log2 n * 2 ^ k)%Z
      by (rewrite <- Z.pow_add_r by lia; f_equal; lia).
    replace (2 ^ 53)%Z with (2 ^ Z.succ (Z.log2 n) * 2 ^ k)%Z
      by (rewrite <- Z.pow_add_r by lia; f_equal; lia).
    assert (0 < 2 ^ k)%Z by (apply Z.pow_pos_nonneg; lia). nia.
  - rewrite inject_Z_mult, <- two_pow_Z by lia.
    assert (H1 : two_pow k * two_pow (- k) == 1).
    { rewrite <- two_pow_add. replace (k + - k)%Z with 0%Z by lia. reflexivity. }
    rewrite <- Qmult_assoc, H1. ring.
Qed.

End DoubleFurther.

Section ClassifierFurther.
Import Double DoubleSpec ClassifierSpec ClassifierProps ContentExtractor ContentClassifier.
Local Open Scope Q_scope.
Local Arguments js : simpl never.

Lemma score_le_1 (x : Q) : Double.min x (lit 1.0) <= 1.
Proof. eapply Qle_trans; [apply min_spec|]. rewrite lit_1. apply Qle_refl. Qed.

Lemma calculateHomeworkScore_le (text : str) : calculateHomeworkScore text <= 1.
Proof. unfold calculateHomeworkScore. cbv zeta. apply score_le_1. Qed.

Lemma calculateScheduleChangeScore_le (text : str) : calculateScheduleChangeScore text <= 1.
Proof. unfold calculateScheduleChangeScore. cbv zeta. apply score_le_1. Qed.

Lemma calculateAnnouncementScore_le (text : str) (x : Q) : calculateAnnouncementScore text x <= 1.
Proof. unfold calculateAnnouncementScore. cbv zeta. apply score_le_1. Qed.

(** What every result of [classifyMessage] satisfies. *)
Lemma classifyMessage_facts (now : Z) (message : str) (metadata : Metadata.t)
    (r : ClassificationResult) :
  classifyMessage now message metadata = Some r ->
  item_chat_id (item r) = Metadata.chat_id metadata
  /\ item_sender_id (item r) = Metadata.sender_id metadata
  /\ item_timestamp (item r) = Metadata.timestamp metadata
  /\ item_content (item r) = processed message
  /\ item_original_message (item r) = message
  /\ threshold (item_type (item r)) < confidence r
  /\ confidence r <= 1.
Proof.
  destruct (classifyMessage_unfold now message metadata) as (e & _ & _ & ->). cbv zeta.
  generalize (calculateHomeworkScore_le (processed message)).
  generalize (calculateScheduleChangeScore_le (processed message)).
  generalize (calculateAnnouncementScore_le (processed message)
                (calculateImportance (processed message))).
  generalize (calculateAnnouncementScore (processed message)
                (calculateImportance (processed message))) as an.
  generalize (calculateScheduleChangeScore (processed message)) as sc.
  generalize (calculateHomeworkScore (processed message)) as hw.
  generalize (calculateImportance (processed message)) as importance.
  generalize (processed message) as text.
  intros text importance hw sc an Han Hsc Hhw.
  destruct (importance <? lit 0.1)%D; [intros H; discriminate H|].
  destruct (hw >? lit 0.6)%D eqn:Ehw.
  { intros [= <-]. cbn [createHomeworkItem item confidence item_type item_chat_id item_sender_id
                        item_timestamp item_content item_original_message threshold
                        HomeworkItem.chat_id HomeworkItem.sender_id HomeworkItem.timestamp
                        HomeworkItem.content HomeworkItem.original_message].
    repeat (split; [reflexivity|]). split; [exact (proj1 (ltb_lt _ _) Ehw)|exact Hhw]. }
  destruct (sc >? lit 0.6)%D eqn:Esc.
  { intros [= <-]. unfold createScheduleChangeItem. cbv zeta.
    destruct (if _ : bool then (_, _) else _) as [original_time new_time].
    cbn [item confidence item_type item_chat_id item_sender_id
         item_timestamp item_content item_original_message threshold
         ScheduleChangeItem.chat_id ScheduleChangeItem.sender_id ScheduleChangeItem.timestamp
         ScheduleChangeItem.content ScheduleChangeItem.original_message].
    repeat (split; [reflexivity|]). split; [exact (proj1 (ltb_lt _ _) Esc)|exact Hsc]. }
  destruct (an >? lit 0.4)%D eqn:Ean; [|intros H; discriminate H].
  intros [= <-]. cbn [createAnnouncementItem item confidence item_type item_chat_id
                      item_sender_id item_timestamp item_content item_original_message threshold
                      AnnouncementItem.chat_id AnnouncementItem.sender_id
                      AnnouncementItem.timestamp AnnouncementItem.content
                      AnnouncementItem.original_message].
  repeat (split; [reflexivity|]). split; [exact (proj1 (ltb_lt _ _) Ean)|exact Han].
Qed.

(** X14.  Every result of [classifyMessage] carries the chat, the sender
    and the timestamp of the metadata and the message as it was given; its
    content is the normalised text with the abbreviations expanded; and its
    confidence exceeds the threshold of its type (0.6 for homework and
    schedule changes, 0.4 for announcements) and is at most 1. *)
Theorem classifyMessage_result (now : Z) (message : str) (metadata : Metadata.t)
    (r : ClassificationResult) :
  classifyMessage now message metadata = Some r ->
  item_chat_id (item r) = Metadata.chat_id metadata
  /\ item_sender_id (item r) = Metadata.sender_id metadata
  /\ item_timestamp (item r) = Metadata.timestamp metadata
  /\ item_content (item r) = processed message
  /\ item_original_message (item r) = message
  /\ threshold (item_type (item r)) < confidence r
  /\ confidence r <= 1.
Proof. apply classifyMessage_facts. Qed.

Lemma classifyMessage_result_witness :
  exists r,
    classifyMessage ClassifierExamples.now ClassifierExamples.due_tomorrow
      ClassifierExamples.metadata = Some r
    /\ item_type (item r) = homework
    /\ item_chat_id (item r) = Metadata.chat_id ClassifierExamples.metadata
    /\ item_sender_id (item r) = Metadata.sender_id ClassifierExamples.metadata
    /\ item_timestamp (item r) = Metadata.timestamp ClassifierExamples.metadata
    /\ item_content (item r) = processed ClassifierExamples.due_tomorrow
    /\ item_original_message (item r) = ClassifierExamples.due_tomorrow
    /\ threshold (item_type (item r)) < confidence r
    /\ confidence r <= 1.
Proof.
  eexists. split; [vm_compute; reflexivity|]. split; [reflexivity|].
  apply (classifyMessage_result ClassifierExamples.now ClassifierExamples.due_tomorrow
           ClassifierExamples.metadata).
  vm_compute. reflexivity.
Defined.

Lemma classifyMessages_from_facts (now : nat -> Z) (messages : list Message.t) :
  forall i,
    (length (classifyMessages_from now i messages) <= length messages)%nat
    /\ Forall (fun r => 0 <= confidence r /\ confidence r <= 1)
         (classifyMessages_from now i messages).
Proof.
  induction messages as [|x l IH]; intros i; cbn [classifyMessages_from].
  - split; [simpl; lia|constructor].
  - destruct (IH (S i)) as [Hl Hf].
    destruct (classifyMessage _ _ _) as [r|] eqn:E; [|split; [simpl; lia|assumption]].
    split; [simpl; lia|]. apply List.Forall_cons; [|assumption].
    apply classifyMessage_facts in E as (_ & _ & _ & _ & _ & Hlo & Hhi).
    split; [|assumption].
    assert (0 <= threshold (item_type (item r)))
      by (destruct (item_type (item r)); apply lit_nonneg; discriminate).
    lra.
Qed.

Lemma count_cons (t : ItemType) (r : ClassificationResult) (l : list ClassificationResult) :
  count t (r :: l) = ((if has_type t r then 1 else 0) + count t l)%Z.
Proof.
  unfold count. cbn [List.filter]. destruct (has_type t r); cbn [length]; lia.
Qed.

(** The counters of [getClassificationStats] after the loop. *)
Lemma stats_loop (results : list ClassificationResult) :
  Forall (fun r => 0 <= confidence r /\ confidence r <= 1) results ->
  forall (hw sc an : Z) (t : Q) (k : Z),
    (0 <= k)%Z -> (k + Z.of_nat (length results) < 2 ^ 53)%Z ->
    0 <= t -> t <= inject_Z k ->
    let '(hw', sc', an', t') := fold_left stats_step results (hw, sc, an, t) in
    hw' = (hw + count homework results)%Z
    /\ sc' = (sc + count schedule_change results)%Z
    /\ an' = (an + count announcement results)%Z
    /\ (count homework results + count schedule_change results + count announcement results
        = Z.of_nat (length results))%Z
    /\ 0 <= t' /\ t' <= inject_Z (k + Z.of_nat (length results)).
Proof.
  induction 1 as [|r l [Hr0 Hr1] Hl IH]; intros hw sc an t k Hk Hk53 Ht0 Htk.
  - cbn [fold_left]. unfold count. cbn [List.filter length]. rewrite !Z.add_0_r.
    repeat split; try lia; assumption.
  - cbn [fold_left]. rewrite !count_cons.
    assert (Ht0' : 0 <= (t + confidence r)%D) by (apply add_nonneg; assumption).
    assert (Htk' : (t + confidence r)%D <= inject_Z (k + 1)).
    { unfold Double.add. apply round_le_format.
      - apply format_int. cbn [length] in Hk53. lia.
      - lra.
      - rewrite inject_Z_plus. change (inject_Z 1) with 1. lra. }
    cbn [length] in Hk53.
    assert (Hk' : (0 <= k + 1)%Z) by lia.
    assert (Hk53' : (k + 1 + Z.of_nat (length l) < 2 ^ 53)%Z) by lia.
    replace (k + Z.of_nat (length (r :: l)))%Z with (k + 1 + Z.of_nat (length l))%Z
      by (cbn [length]; lia).
    replace (Z.of_nat (length (r :: l))) with (1 + Z.of_nat (length l))%Z
      by (cbn [length]; lia).
    unfold stats_step at 2. unfold has_type.
    destruct (item_type (item r));
      [specialize (IH (hw + 1)%Z sc an _ _ Hk' Hk53' Ht0' Htk')
      |specialize (IH hw (sc + 1)%Z an _ _ Hk' Hk53' Ht0' Htk')
      |specialize (IH hw sc (an + 1)%Z _ _ Hk' Hk53' Ht0' Htk')];
      destruct (fold_left stats_step l _) as [[[hw' sc'] an'] t'];
      destruct IH as (H1 & H2 & H3 & H4 & H5 & H6);
      (split; [lia|]); (split; [lia|]); (split; [lia|]); (split; [lia|]);
      (split; assumption).
Qed.

(** X15.  The statistics of a batch add up: [total] is the number of
    messages, [classified] the number of results, each of the counters
    [homework], [scheduleChanges] and [announcements] the number of results
    of its type, so the three sum up to [classified], which is at most
    [total]; the average confidence is between 0 and 1, and it is 0 when
    nothing is classified. *)
Theorem classification_stats_add_up (now : nat -> Z) (messages : list Message.t) :
  (Z.of_nat (length messages) < 2 ^ 32)%Z ->
  let st := getClassificationStats now messages in
  let results := classifyMessages now messages in
  ClassificationStats.total st = Z.of_nat (length messages)
  /\ ClassificationStats.classified st = Z.of_nat (length results)
  /\ ClassificationStats.homework st = count homework results
  /\ ClassificationStats.scheduleChanges st = count schedule_change results
  /\ ClassificationStats.announcements st = count announcement results
  /\ (ClassificationStats.classified st
      = ClassificationStats.homework st + ClassificationStats.scheduleChanges st
        + ClassificationStats.announcements st)%Z
  /\ (ClassificationStats.classified st <= ClassificationStats.total st)%Z
  /\ 0 <= ClassificationStats.avgConfidence st
  /\ ClassificationStats.avgConfidence st <= 1
  /\ (ClassificationStats.classified st = 0%Z -> ClassificationStats.avgConfidence st = 0).
Proof.
  intros Hlen. cbv zeta. unfold getClassificationStats. cbv zeta.
  destruct (classifyMessages_from_facts now messages 0) as [Hl Hf].
  fold (classifyMessages now messages) in Hl, Hf.
  set (results := classifyMessages now messages) in *.
  assert (H53 : (0 + Z.of_nat (length results) < 2 ^ 53)%Z) by lia.
  assert (H00 : 0 <= 0) by apply Qle_refl.
  assert (H0k : 0 <= inject_Z 0) by apply Qle_refl.
  pose proof (stats_loop results Hf 0 0 0 0 0 (Z.le_refl 0) H53 H00 H0k) as H.
  destruct (fold_left stats_step results _) as [[[hw sc] an] t].
  destruct H as (H1 & H2 & H3 & H4 & H5 & H6).
  cbn [ClassificationStats.total ClassificationStats.classified ClassificationStats.homework
       ClassificationStats.scheduleChanges ClassificationStats.announcements
       ClassificationStats.avgConfidence].
  rewrite Z.add_0_l in *. subst hw sc an.
  split; [reflexivity|]. split; [reflexivity|]. split; [reflexivity|]. split; [reflexivity|].
  split; [reflexivity|]. split; [lia|]. split; [lia|].
  destruct (Nat.ltb_spec 0 (length results)) as [Hpos|Hzero].
  - assert (Hn : 0 < of_nat (length results)).
    { unfold of_nat. change 0 with (inject_Z 0). rewrite <- Zlt_Qlt. lia. }
    split; [|split; [|lia]].
    + unfold Double.div. apply round_nonneg. apply Qle_shift_div_l; [assumption|]. lra.
    + unfold Double.div. apply round_le_format.
      * change 1 with (inject_Z 1). apply format_int. lia.
      * apply Qle_shift_div_l; [assumption|]. lra.
      * apply Qle_shift_div_r; [assumption|]. unfold of_nat. lra.
  - split; [lra|]. split; [lra|reflexivity].
Qed.

Lemma classification_stats_add_up_witness :
  let st := getClassificationStats (fun _ => ClassifierExamples.now) batch in
  let results := classifyMessages (fun _ => ClassifierExamples.now) batch in
  ClassificationStats.total st = 3%Z
  /\ ClassificationStats.classified st = Z.of_nat (length results)
  /\ ClassificationStats.homework st = count homework results
  /\ ClassificationStats.scheduleChanges st = count schedule_change results
  /\ ClassificationStats.announcements st = count announcement results
  /\ (ClassificationStats.classified st
      = ClassificationStats.homework st + ClassificationStats.scheduleChanges st
        + ClassificationStats.announcements st)%Z
  /\ (ClassificationStats.classified st <= ClassificationStats.total st)%Z
  /\ 0 <= ClassificationStats.avgConfidence st
  /\ ClassificationStats.avgConfidence st <= 1
  /\ (ClassificationStats.classified st = 0%Z -> ClassificationStats.avgConfidence st = 0).
Proof.
  apply (classification_stats_add_up (fun _ => ClassifierExamples.now) batch).
  vm_compute. reflexivity.
Defined.

End ClassifierFurther.

(* ===================================================================== *)
(** * Properties of the summarizer *)
(* ===================================================================== *)

Section SummarizerFurther.
Import FilterSpec FilterProps SummarizerProps ClassifierProps.
Import ContentExtractor ContentClassifier SchoolChatSummarizer.
Local Arguments js : simpl never.

(** ** The object handed to the filter *)

Lemma get_whatsapp (msg : jsval) :
  get (whatsapp msg) "chat_id" = get msg "chat_id"
  /\ get (whatsapp msg) "sender_id" = get msg "sender_id"
  /\ get (whatsapp msg) "timestamp" = get msg "timestamp"
  /\ get (whatsapp msg) "text" = get msg "text".
Proof. repeat split; reflexivity. Qed.

Lemma get_filterInput (input : jsval) :
  get (filterInput input) "messages"
  = JArray (map whatsapp (MessageFilter.elements (get input "messages")))
  /\ get (filterInput input) "subscribed_chats" = get input "subscribed_chats"
  /\ get (filterInput input) "period" = get input "period".
Proof. repeat split; reflexivity. Qed.

Lemma get_object (v : jsval) (key : string) :
  get v key <> JUndefined -> exists ps, v = JObject ps.
Proof. destruct v; simpl; try congruence. eauto. Qed.

Lemma nonempty_string_truthy (v : jsval) : nonempty_string v -> truthy v = true.
Proof. intros (s & -> & Hs). destruct s; [congruence|reflexivity]. Qed.

Lemma to_WhatsAppMessage_object (ps : list (str * jsval)) :
  to_WhatsAppMessage (JObject ps) = Return (whatsapp (JObject ps)).
Proof. reflexivity. Qed.

Lemma map_completion_whatsapp (l : list jsval) :
  Forall (fun msg => exists ps, msg = JObject ps) l ->
  map_completion to_WhatsAppMessage l = Return (map whatsapp l).
Proof.
  induction 1 as [|x l (ps & ->) _ IH]; [reflexivity|].
  cbn [map_completion map]. rewrite to_WhatsAppMessage_object, IH. reflexivity.
Qed.

Lemma classify_eq (engine : Engine) (now : Z) (m : InputMessage.t) :
  classify engine now m
  = classifyMessage now (InputMessage.text m)
      {| Metadata.chat_id := InputMessage.chat_id m;
         Metadata.sender_id := InputMessage.sender_id m;
         Metadata.timestamp := Date_parse engine (InputMessage.timestamp m) |}.
Proof. reflexivity. Qed.

(** ** The validation of the summarizer *)

Lemma validateMessages_Return (engine : Engine) (l : list jsval) :
  forall index,
    validateMessages engine l index = Return tt ->
    Forall (fun msg => (exists ps, msg = JObject ps) /\ truthy (get msg "text") = true) l.
Proof.
  induction l as [|msg l IH]; intros index H; [constructor|].
  cbn [validateMessages] in H.
  destruct (truthy (get msg "chat_id")) eqn:E1;
    [|destruct msg; simpl in H; discriminate H].
  destruct (truthy (get msg "text")) eqn:E4;
    [|destruct msg; simpl in H; rewrite ?orb_true_r in H; discriminate H].
  assert (Ho : exists ps, msg = JObject ps).
  { apply (get_object msg "chat_id"). intros E. rewrite E in E1. discriminate E1. }
  constructor; [split; [assumption|exact E4]|].
  destruct Ho as (ps & ->).
  destruct (_ || _) in H; [discriminate H|].
  destruct (new_Date engine _) in H; [|discriminate H].
  eapply IH, H.
Qed.

Lemma validateInput_Return (engine : Engine) (input : jsval) :
  validateInput engine input = Return tt ->
  isArray (get input "messages") = true
  /\ isArray (get input "subscribed_chats") = true
  /\ Forall (fun msg => (exists ps, msg = JObject ps) /\ truthy (get msg "text") = true)
            (MessageFilter.elements (get input "messages")).
Proof.
  unfold validateInput.
  destruct (negb (truthy input)); [intros H; discriminate H|].
  destruct (isArray (get input "messages")); [|intros H; discriminate H].
  destruct (isArray (get input "subscribed_chats")); [|intros H; discriminate H].
  cbn [negb].
  destruct (_ || _); [intros H; discriminate H|].
  cbv zeta. destruct (new_Date engine _); [|intros H; discriminate H].
  destruct (new_Date engine _); [|intros H; discriminate H].
  destruct (date_geb _ _); [intros H; discriminate H|].
  intros H. split; [reflexivity|]. split; [reflexivity|].
  eapply validateMessages_Return, H.
Qed.

Lemma validateMessages_accepts (engine : Engine) (l : list jsval) :
  conforms engine -> Forall acceptable_message l ->
  forall index, validateMessages engine l index = Return tt.
Proof.
  intros Hc. induction 1 as [|msg l (H1 & H2 & (t & s & E3 & Hp & Hs) & H4) _ IH];
    intros index; [reflexivity|].
  cbn [validateMessages].
  assert (H3 : truthy (get msg "timestamp") = true).
  { apply valid_timestamp_truthy. exists t, s. auto. }
  destruct (get_object msg "chat_id") as (ps & ->).
  { destruct H1 as (c & -> & _). discriminate. }
  rewrite (nonempty_string_truthy _ H1), (nonempty_string_truthy _ H2), H3,
    (nonempty_string_truthy _ H4).
  cbn [negb orb]. rewrite E3. cbn [new_Date]. rewrite (Hc s t Hp Hs). apply IH.
Qed.

Lemma validateInput_accepts (engine : Engine) (input : jsval) :
  conforms engine -> acceptable input -> validateInput engine input = Return tt.
Proof.
  intros Hc (Hm & Hs & (s & e & (ss & Es & Hps & Hss) & (se & Ee & Hpe & Hse) & Hlt) & Hall).
  unfold validateInput.
  rewrite (array_holder_truthy input "messages" Hm), Hm, Hs. cbn [negb].
  destruct (get_object (get input "period") "start") as (ps & Ep).
  { rewrite Es. discriminate. }
  assert (Hts : truthy (get (get input "period") "start") = true).
  { apply valid_timestamp_truthy. exists s, ss. auto. }
  assert (Hte : truthy (get (get input "period") "end") = true).
  { apply valid_timestamp_truthy. exists e, se. auto. }
  rewrite Hts, Hte. rewrite Ep at 1. cbn [truthy negb orb]. cbv zeta.
  rewrite Es, Ee. cbn [new_Date]. rewrite (Hc ss s Hps Hss), (Hc se e Hpe Hse).
  cbn [date_geb]. rewrite (proj2 (Z.leb_gt e s) Hlt).
  apply validateMessages_accepts; assumption.
Qed.

(** ** The validation of the filter, on the objects it is handed *)

Lemma validateMessage_Ok (message : jsval) :
  MessageFilter.validateMessage message = MessageFilter.Ok tt ->
  nonempty_string (get message "chat_id")
  /\ nonempty_string (get message "sender_id")
  /\ valid_timestamp (get message "timestamp")
  /\ is_string (get message "text") = true.
Proof.
  unfold MessageFilter.validateMessage. rewrite <- !negb_andb.
  destruct (truthy message && is_object message); [|intros H; discriminate H].
  destruct (truthy (get message "chat_id") && is_string (get message "chat_id")) eqn:E1;
    [|intros H; discriminate H].
  destruct (truthy (get message "sender_id") && is_string (get message "sender_id")) eqn:E2;
    [|intros H; discriminate H].
  destruct (truthy (get message "timestamp")
            && MessageFilter.isValidTimestamp (get message "timestamp")) eqn:E3;
    [|intros H; discriminate H].
  destruct (is_string (get message "text")) eqn:E4; [|intros H; discriminate H].
  intros _. apply andb_true_iff in E3 as [_ E3].
  rewrite <- !nonempty_string_iff, <- isValidTimestamp_iff. auto.
Qed.

Lemma validateMessage_whatsapp (msg : jsval) :
  nonempty_string (get msg "chat_id") -> nonempty_string (get msg "sender_id") ->
  valid_timestamp (get msg "timestamp") -> is_string (get msg "text") = true ->
  MessageFilter.validateMessage (whatsapp msg) = MessageFilter.Ok tt.
Proof.
  intros H1 H2 H3 H4. unfold MessageFilter.validateMessage. rewrite <- !negb_andb.
  destruct (get_whatsapp msg) as (-> & -> & -> & ->).
  rewrite (proj2 (nonempty_string_iff _) H1), (proj2 (nonempty_string_iff _) H2),
    (valid_timestamp_truthy _ H3), (proj2 (isValidTimestamp_iff _) H3), H4.
  reflexivity.
Qed.

Lemma nonempty_string_is_string (v : jsval) : nonempty_string v -> is_string v = true.
Proof. intros (s & -> & _). reflexivity. Qed.

Lemma filterInput_accepted (input : jsval) :
  acceptable input -> MessageFilter.validateInput (filterInput input) = MessageFilter.Ok tt.
Proof.
  intros (Hm & Hs & (s & e & Hrs & Hre & Hlt) & Hall).
  unfold MessageFilter.validateInput.
  destruct (get_filterInput input) as (-> & -> & ->).
  rewrite Hs. cbn [filterInput truthy isArray negb].
  destruct (get_object (get input "period") "start") as (ps & Ep).
  { destruct Hrs as (? & -> & _). discriminate. }
  rewrite Ep at 1 2. cbn [truthy is_object typeof negb orb].
  rewrite (proj2 (isValidTimestamp_iff _) (ex_intro _ s Hrs)),
    (proj2 (isValidTimestamp_iff _) (ex_intro _ e Hre)).
  cbn [negb]. cbv zeta.
  rewrite (round_trips_Date_of _ _ Hrs), (round_trips_Date_of _ _ Hre).
  cbn [date_geb]. rewrite (proj2 (Z.leb_gt e s) Hlt).
  cbn [MessageFilter.elements]. apply validateMessages_all.
  intros v Hv. apply in_map_iff in Hv as (msg & <- & Hin).
  rewrite Forall_forall in Hall. destruct (Hall msg) as (H1 & H2 & H3 & H4).
  { apply list_elem_of_In, Hin. }
  apply validateMessage_whatsapp; auto using nonempty_string_is_string.
Qed.

Lemma filterMessages_eq (self : t) (input : jsval) :
  Forall (fun msg => exists ps, msg = JObject ps) (MessageFilter.elements (get input "messages")) ->
  filterMessages self input
  = let '(filterResult, mf) := MessageFilter.filter (messageFilter self) (filterInput input) in
    let self := {| messageFilter := mf; options := options self; stats := stats self |} in
    match filterResult with
    | MessageFilter.Ok r => (Return (MessageFilter.messages r), self)
    | MessageFilter.Throw msg => (Raise (Error (js msg)), self)
    end.
Proof. intros H. unfold filterMessages. rewrite (map_completion_whatsapp _ H). reflexivity. Qed.

(** A message the filter has validated is a message as declared. *)
Lemma as_message_validated (v : jsval) :
  MessageFilter.validateMessage v = MessageFilter.Ok tt ->
  exists m, as_message v = Some m
            /\ get v "chat_id" = JString (InputMessage.chat_id m)
            /\ get v "sender_id" = JString (InputMessage.sender_id m)
            /\ get v "timestamp" = JString (InputMessage.timestamp m)
            /\ get v "text" = JString (InputMessage.text m).
Proof.
  intros H. apply validateMessage_Ok in H as ((c & E1 & _) & (s & E2 & _) & (t & ts & E3 & _) & H4).
  unfold as_message. rewrite E1, E2, E3.
  destruct (get v "text") as [| | | |text| |]; try discriminate H4.
  eexists. split; [reflexivity|]. cbn. auto.
Qed.

Lemma omap_as_message (l : list jsval) :
  Forall (fun v => MessageFilter.validateMessage v = MessageFilter.Ok tt) l ->
  Forall2 (fun v m => as_message v = Some m) l (omap as_message l).
Proof.
  induction 1 as [|v l Hv _ IH]; [constructor|].
  destruct (as_message_validated v Hv) as (m & E & _).
  cbn [omap list_omap]. rewrite E. constructor; assumption.
Qed.

(** ** The loop over the filtered messages *)

Lemma count_app (t : ItemType) (l1 l2 : list ClassificationResult) :
  count t (l1 ++ l2) = (count t l1 + count t l2)%Z.
Proof. unfold count. rewrite List.filter_app, length_app. lia. Qed.

Lemma count_item_fields (self : t) (type : ItemType) :
  messageFilter (count_item self type) = messageFilter self
  /\ options (count_item self type) = options self
  /\ totalMessages (stats (count_item self type)) = totalMessages (stats self)
  /\ filteredMessages (stats (count_item self type)) = filteredMessages (stats self)
  /\ classifiedMessages (stats (count_item self type)) = classifiedMessages (stats self)
  /\ processingTime (stats (count_item self type)) = processingTime (stats self).
Proof. destruct type; repeat split; reflexivity. Qed.

(** What the loop has done when it ends: the results it has added, each
    the classification of one of the messages with enough confidence, and
    the counters. *)
Lemma classifyMessages_from_spec (engine : Engine) (clock : Clock)
    (messages : list InputMessage.t) :
  forall (index : nat) (results : list ClassificationResult) (self : t),
    exists new,
      fst (classifyMessages_from engine clock index messages results self) = results ++ new
      /\ (length new <= length messages)%nat
      /\ Forall (fun r => exists i m,
                   In m messages
                   /\ classify engine (classifyTime clock i) m = Some r
                   /\ geb (confidence r) (minConfidence (options self)) = true) new
      /\ let self' := snd (classifyMessages_from engine clock index messages results self) in
         messageFilter self' = messageFilter self
         /\ options self' = options self
         /\ totalMessages (stats self') = totalMessages (stats self)
         /\ filteredMessages (stats self') = filteredMessages (stats self)
         /\ classifiedMessages (stats self') = classifiedMessages (stats self)
         /\ processingTime (stats self') = processingTime (stats self)
         /\ ItemsByType.homework (itemsByType (stats self'))
            = (ItemsByType.homework (itemsByType (stats self)) + count homework new)%Z
         /\ ItemsByType.schedule_change (itemsByType (stats self'))
            = (ItemsByType.schedule_change (itemsByType (stats self))
               + count schedule_change new)%Z
         /\ ItemsByType.announcement (itemsByType (stats self'))
            = (ItemsByType.announcement (itemsByType (stats self))
               + count announcement new)%Z.
Proof.
  induction messages as [|message rest IH]; intros index results self.
  - exists []. cbn [classifyMessages_from fst snd]. rewrite app_nil_r.
    split; [reflexivity|]. split; [simpl; lia|]. split; [constructor|].
    unfold count. cbn. repeat split; lia.
  - cbn [classifyMessages_from].
    assert (Hskip :
      forall new : list ClassificationResult,
        Forall (fun r => exists i m,
                  In m rest /\ classify engine (classifyTime clock i) m = Some r
                  /\ geb (confidence r) (minConfidence (options self)) = true) new ->
        Forall (fun r => exists i m,
                  In m (message :: rest)
                  /\ classify engine (classifyTime clock i) m = Some r
                  /\ geb (confidence r) (minConfidence (options self)) = true) new).
    { intros new H. eapply Forall_impl; [exact H|]. intros r (i & m & Hin & Hr). exists i, m.
      split; [right; assumption|assumption]. }
    destruct (classify engine (classifyTime clock index) message) as [r|] eqn:Er.
    2:{ destruct (IH (S index) results self) as (new & E & Hl & Hf & Hs).
        exists new. split; [assumption|]. split; [simpl; lia|]. split; [auto|assumption]. }
    destruct (geb (confidence r) (minConfidence (options self))) eqn:Eg.
    2:{ destruct (IH (S index) results self) as (new & E & Hl & Hf & Hs).
        exists new. split; [assumption|]. split; [simpl; lia|]. split; [auto|assumption]. }
    destruct (IH (S index) (results ++ [r]) (count_item self (item_type (item r))))
      as (new & E & Hl & Hf & Hs).
    exists (r :: new). split; [rewrite E, <- app_assoc; reflexivity|].
    split; [simpl; lia|]. split.
    + constructor.
      * exists index, message. split; [left; reflexivity|]. split; assumption.
      * apply Hskip. eapply Forall_impl; [exact Hf|]. intros r' (i & m & Hin & Hr & Hg).
        exists i, m. destruct (count_item_fields self (item_type (item r))) as (_ & Ho & _).
        rewrite Ho in Hg. auto.
    + cbv zeta in Hs |- *.
      destruct Hs as (H1 & H2 & H3 & H4 & H5 & H6 & H7 & H8 & H9).
      destruct (count_item_fields self (item_type (item r))) as (F1 & F2 & F3 & F4 & F5 & F6).
      rewrite H1, H2, H3, H4, H5, H6, H7, H8, H9, F1, F2, F3, F4, F5, F6.
      rewrite !count_cons. unfold has_type.
      repeat (split; [reflexivity|]).
      destruct (item_type (item r)); cbn; repeat split; lia.
Qed.

(** ** The conversion of the results *)

Lemma to_output_Return (r : ClassificationResult) (o : ExtractedOutputItem.t) :
  to_output r = Return o ->
  exists t, item_timestamp (item r) = Some t
            /\ ExtractedOutputItem.type o = item_type (item r)
            /\ ExtractedOutputItem.chat_id o = item_chat_id (item r)
            /\ ExtractedOutputItem.sender_id o = item_sender_id (item r)
            /\ ExtractedOutputItem.timestamp o = toISOString t
            /\ ExtractedOutputItem.content o = item_content (item r).
Proof.
  unfold to_output. destruct (item_timestamp (item r)) as [t|]; [|intros H; discriminate H].
  intros [= <-]. exists t. repeat split; reflexivity.
Qed.

Lemma map_completion_Return {A B : Type} (f : A -> completion B) (l : list A) (l' : list B) :
  map_completion f l = Return l' -> Forall2 (fun x y => f x = Return y) l l'.
Proof.
  revert l'. induction l as [|x l IH]; intros l'; cbn [map_completion].
  - intros [= <-]. constructor.
  - destruct (f x) as [y|e] eqn:E; [|intros H; discriminate H].
    destruct (map_completion f l) as [ys|e]; [|intros H; discriminate H].
    intros [= <-]. constructor; [assumption|]. apply IH. reflexivity.
Qed.

Lemma map_completion_returns {A B : Type} (f : A -> completion B) (l : list A) :
  Forall (fun x => exists y, f x = Return y) l -> exists l', map_completion f l = Return l'.
Proof.
  induction 1 as [|x l (y & E) _ (ys & IH)]; cbn [map_completion]; [eauto|].
  rewrite E, IH. eauto.
Qed.

Lemma count_converted (t : ItemType) (classified : list ClassificationResult)
    (items : list ExtractedOutputItem.t) :
  Forall2 (fun r o => to_output r = Return o) classified items ->
  count t classified = items_of_type t items.
Proof.
  unfold count, items_of_type. induction 1 as [|r o l l' H _ IH]; [reflexivity|].
  apply to_output_Return in H as (_ & _ & Ht & _).
  cbn [List.filter]. unfold has_type at 1, of_type at 1. rewrite Ht.
  destruct (item_type (item r)), t; cbn [length]; lia.
Qed.

(** ** The sort *)

Section Sorting.
Context {A : Type} (cmp : A -> A -> Z) (P : A -> Prop) (R : A -> A -> Prop).
Hypothesis R_trans : forall a b c, R a b -> R b c -> R a c.
Hypothesis cmp_R :
  forall a b, P a -> P b ->
    ((cmp a b <=? 0)%Z = true -> R a b) /\ ((cmp a b <=? 0)%Z = false -> R b a).

Lemma sort_insert_Permutation (x : A) (l : list A) : sort_insert cmp x l ≡ₚ x :: l.
Proof.
  induction l as [|y l IH]; cbn [sort_insert]; [reflexivity|].
  destruct (cmp x y <=? 0)%Z; [reflexivity|]. rewrite IH. apply Permutation_swap.
Qed.

Lemma sort_Permutation (l : list A) : sort cmp l ≡ₚ l.
Proof.
  unfold sort. induction l as [|x l IH]; cbn [fold_right]; [reflexivity|].
  rewrite sort_insert_Permutation, IH. reflexivity.
Qed.

Lemma sort_insert_sorted (x : A) (l : list A) :
  P x -> Forall P l -> StronglySorted R l -> StronglySorted R (sort_insert cmp x l).
Proof using R_trans cmp_R.
  intros Hx Hl Hs. induction Hs as [|y l Hs IH Hy]; cbn [sort_insert].
  - constructor; constructor.
  - apply Forall_cons_1 in Hl as [Py Pl].
    destruct (cmp_R x y Hx Py) as [Hle Hgt].
    destruct (cmp x y <=? 0)%Z.
    + constructor; [constructor; assumption|].
      constructor; [auto|]. eapply Forall_impl; [exact Hy|]. intros z. apply R_trans. auto.
    + constructor; [auto|].
      rewrite sort_insert_Permutation. constructor; [auto|assumption].
Qed.

Lemma sort_sorted (l : list A) : Forall P l -> StronglySorted R (sort cmp l).
Proof using R_trans cmp_R.
  unfold sort. induction 1 as [|x l Hx Hl IH]; cbn [fold_right]; [constructor|].
  apply sort_insert_sorted; [assumption| |assumption].
  fold (sort cmp l). rewrite sort_Permutation. assumption.
Qed.

End Sorting.

(** ** The steps of [process] *)

Lemma omap_length_le {A B : Type} (f : A -> option B) (l : list A) :
  (length (omap f l) <= length l)%nat.
Proof.
  induction l as [|x l IH]; [simpl; lia|].
  cbn [omap list_omap]. destruct (f x); simpl in *; lia.
Qed.

(** A call that resolves: what it has gone through. *)
Lemma process_Return (engine : Engine) (clock : Clock) (self : t) (input : jsval)
    (out : SummarizerOutput) (self' : t) :
  process engine clock self input = (Return out, self') ->
  exists (r : MessageFilter.FilterResult) (classified : list ClassificationResult)
         (items : list ExtractedOutputItem.t),
    validateInput engine input = Return tt
    /\ MessageFilter.filter (messageFilter self) (filterInput input)
       = (MessageFilter.Ok r, messageFilter self')
    /\ (length classified <= length (MessageFilter.messages r))%nat
    /\ Forall (fun res => exists i v m,
                 In v (MessageFilter.messages r) /\ as_message v = Some m
                 /\ classify engine (classifyTime clock i) m = Some res
                 /\ geb (confidence res) (minConfidence (options self)) = true) classified
    /\ Forall2 (fun res o => to_output res = Return o) classified items
    /\ out = {| period := get input "period"; run_time := toISOString (runTime clock);
                extracted_items := if sortByTimestamp (options self)
                                   then sort (by_timestamp engine) items else items |}
    /\ options self' = options self
    /\ totalMessages (stats self')
       = Z.of_nat (length (MessageFilter.elements (get input "messages")))
    /\ filteredMessages (stats self') = Z.of_nat (length (MessageFilter.messages r))
    /\ classifiedMessages (stats self') = Z.of_nat (length classified)
    /\ processingTime (stats self') = (endTime clock - startTime clock)%Z
    /\ ItemsByType.homework (itemsByType (stats self')) = count homework classified
    /\ ItemsByType.schedule_change (itemsByType (stats self'))
       = count schedule_change classified
    /\ ItemsByType.announcement (itemsByType (stats self')) = count announcement classified.
Proof.
  unfold process. destruct (validateInput engine input) as [[]|e] eqn:Hv;
    [|intros H; discriminate H].
  cbv zeta.
  destruct (validateInput_Return _ _ Hv) as (Hm & Hs & Hobj).
  rewrite filterMessages_eq
    by (eapply Forall_impl; [exact Hobj|]; intros msg [Ho _]; exact Ho).
  cbn [resetStats with_stats messageFilter options stats].
  destruct (MessageFilter.filter _ _) as [[r|msg] mf] eqn:Hf; [|intros H; discriminate H].
  cbn [with_stats messageFilter options stats totalMessages filteredMessages
       classifiedMessages itemsByType processingTime no_stats].
  unfold classifyMessages.
  match goal with
  | |- context [classifyMessages_from ?e ?c 0%nat ?l [] ?s] =>
    destruct (classifyMessages_from_spec e c l 0%nat [] s) as (new & E & Hl & Hall & Hst);
    destruct (classifyMessages_from e c 0%nat l [] s) as [classified s2]
  end.
  cbn [fst snd app] in E, Hst. subst new. cbv zeta in Hst.
  cbn [with_stats messageFilter options stats totalMessages filteredMessages
       classifiedMessages itemsByType processingTime no_stats
       ItemsByType.homework ItemsByType.schedule_change ItemsByType.announcement] in Hst, Hall.
  destruct Hst as (H1 & H2 & H3 & H4 & H5 & H6 & H7 & H8 & H9).
  destruct (convertToOutputFormat classified) as [items|e] eqn:Hc; [|intros H; discriminate H].
  intros [= <- <-].
  cbn [with_stats messageFilter options stats totalMessages filteredMessages
       classifiedMessages itemsByType processingTime no_stats].
  exists r, classified, items. split; [reflexivity|].
  split; [rewrite H1; reflexivity|].
  split; [etransitivity; [exact Hl|apply omap_length_le]|].
  split.
  { eapply Forall_impl; [exact Hall|]. intros res (i & m & Hin & Hr & Hg).
    apply list_elem_of_In, list_elem_of_omap in Hin as (v & Hv' & Em).
    exists i, v, m. rewrite <- list_elem_of_In. auto. }
  split; [apply map_completion_Return, Hc|].
  rewrite H2. split; [reflexivity|]. split; [reflexivity|].
  rewrite H3, H4, H7, H8, H9, !Z.add_0_l. repeat split; reflexivity.
Qed.

(** A call that is rejected: the error has been thrown by the validation of
    the summarizer, by the filter, or by the conversion of the results. *)
Lemma process_Raise (engine : Engine) (clock : Clock) (self : t) (input : jsval)
    (error : exn) (self' : t) :
  process engine clock self input = (Raise error, self') ->
  exists e,
    error = Error (js "Failed to process messages: " ++ message_of engine e)
    /\ options self' = options self
    /\ processingTime (stats self') = (endTime clock - startTime clock)%Z
    /\ ((validateInput engine input = Raise e /\ messageFilter self' = messageFilter self
         /\ totalMessages (stats self') = totalMessages (stats self)
         /\ filteredMessages (stats self') = filteredMessages (stats self)
         /\ classifiedMessages (stats self') = classifiedMessages (stats self)
         /\ itemsByType (stats self') = itemsByType (stats self))
        \/ (validateInput engine input = Return tt
            /\ exists msg, MessageFilter.validateInput (filterInput input) = MessageFilter.Throw msg
                           /\ messageFilter self' = messageFilter self)
        \/ (validateInput engine input = Return tt
            /\ exists r mf classified,
                 MessageFilter.filter (messageFilter self) (filterInput input)
                 = (MessageFilter.Ok r, mf)
                 /\ Forall (fun res => exists i v m,
                              In v (MessageFilter.messages r) /\ as_message v = Some m
                              /\ classify engine (classifyTime clock i) m = Some res)
                           classified
                 /\ convertToOutputFormat classified = Raise e)).
Proof.
  unfold process. destruct (validateInput engine input) as [[]|e] eqn:Hv.
  2:{ unfold failed. intros [= <- <-]. exists e. cbn. split; [reflexivity|].
      split; [reflexivity|]. split; [reflexivity|]. left. repeat split; reflexivity. }
  cbv zeta.
  destruct (validateInput_Return _ _ Hv) as (Hm & Hs & Hobj).
  rewrite filterMessages_eq
    by (eapply Forall_impl; [exact Hobj|]; intros msg [Ho _]; exact Ho).
  cbn [resetStats with_stats messageFilter options stats].
  destruct (MessageFilter.filter _ _) as [[r|msg] mf] eqn:Hf.
  2:{ unfold failed. intros [= <- <-]. exists (Error (js msg)). cbn.
      split; [reflexivity|]. split; [reflexivity|]. split; [reflexivity|]. right. left.
      split; [reflexivity|]. exists msg.
      destruct (MessageFilter.validateInput (filterInput input)) as [[]|msg'] eqn:Hfv.
      - pose proof (filter_spec (messageFilter self) _ Hfv) as Hspec. cbv zeta in Hspec.
        rewrite Hf in Hspec. discriminate Hspec.
      - rewrite (filter_throws _ _ _ Hfv) in Hf. injection Hf as <- <-. auto. }
  cbn [with_stats messageFilter options stats totalMessages filteredMessages
       classifiedMessages itemsByType processingTime no_stats].
  unfold classifyMessages.
  match goal with
  | |- context [classifyMessages_from ?e ?c 0%nat ?l [] ?s] =>
    destruct (classifyMessages_from_spec e c l 0%nat [] s) as (new & E & Hl & Hall & Hst);
    destruct (classifyMessages_from e c 0%nat l [] s) as [classified s2]
  end.
  cbn [fst snd app] in E, Hst. subst new. cbv zeta in Hst.
  destruct Hst as (H1 & H2 & _).
  cbn [with_stats messageFilter options stats] in H1, H2.
  destruct (convertToOutputFormat classified) as [items|e] eqn:Hc; [intros H; discriminate H|].
  unfold failed. intros [= <- <-]. exists e. cbn.
  split; [reflexivity|]. split; [exact H2|]. split; [reflexivity|]. right. right.
  split; [reflexivity|]. exists r, mf, classified. split; [reflexivity|]. split; [|exact Hc].
  eapply Forall_impl; [exact Hall|]. intros res (i & m & Hin & Hr & Hg).
  apply list_elem_of_In, list_elem_of_omap in Hin as (v & Hv' & Em).
  exists i, v, m. rewrite <- list_elem_of_In. auto.
Qed.

(** ** From the input to the items *)

(** What has passed both validations is acceptable. *)
Lemma accepted_acceptable (engine : Engine) (input : jsval) :
  validateInput engine input = Return tt ->
  MessageFilter.validateInput (filterInput input) = MessageFilter.Ok tt ->
  acceptable input.
Proof.
  intros Hv Hfv. destruct (validateInput_Return _ _ Hv) as (Hm & Hs & Hobj).
  destruct (validateInput_ok _ Hfv) as (_ & _ & _ & _ & Hp & Hms).
  split; [assumption|]. split; [assumption|]. split; [exact Hp|].
  rewrite Forall_forall in Hobj |- *. intros msg Hin.
  destruct (Hobj msg Hin) as [_ Ht].
  assert (Hw : MessageFilter.validateMessage (whatsapp msg) = MessageFilter.Ok tt).
  { apply (validateMessages_complete _ Hms). apply in_map. apply list_elem_of_In, Hin. }
  apply validateMessage_Ok in Hw as (H1 & H2 & H3 & H4).
  split; [exact H1|]. split; [exact H2|]. split; [exact H3|].
  apply nonempty_string_iff. change (get (whatsapp msg) "text") with (get msg "text") in H4.
  rewrite Ht, H4. reflexivity.
Qed.

(** A message the filter returns is the object made of a message of the
    input that is admissible. *)
Lemma filtered_message (mf mf' : MessageFilter.t) (input : jsval)
    (r : MessageFilter.FilterResult) (v : jsval) :
  MessageFilter.filter mf (filterInput input) = (MessageFilter.Ok r, mf') ->
  In v (MessageFilter.messages r) ->
  MessageFilter.validateMessage v = MessageFilter.Ok tt
  /\ exists msg, In msg (MessageFilter.elements (get input "messages"))
                 /\ v = whatsapp msg /\ admissible input msg.
Proof.
  intros Hf Hin. destruct (filter_output_passes _ _ _ _ Hf) as (Hfv & _ & Hp).
  destruct (Hp v Hin) as [Hv Hpass].
  destruct (validateInput_ok _ Hfv) as (_ & _ & _ & _ & _ & Hms).
  split; [exact (validateMessages_complete _ Hms v Hv)|].
  apply (passes_iff _ _ Hfv Hv) in Hpass.
  change (In v (map whatsapp (MessageFilter.elements (get input "messages")))) in Hv.
  apply in_map_iff in Hv as (msg & <- & Hmsg).
  exists msg. split; [assumption|]. split; [reflexivity|]. exact Hpass.
Qed.

(** The item made of the classification of a validated message. *)
Lemma classified_item (engine : Engine) (now : Z) (v : jsval) (m : InputMessage.t)
    (res : ClassificationResult) :
  conforms engine ->
  MessageFilter.validateMessage v = MessageFilter.Ok tt ->
  as_message v = Some m ->
  classify engine now m = Some res ->
  exists o, to_output res = Return o
            /\ reports o v
            /\ ExtractedOutputItem.type o = item_type (item res)
            /\ exists t, time_of o = Some t
                         /\ Date_parse engine (ExtractedOutputItem.timestamp o) = Some t.
Proof.
  intros Hc Hv Hm Hr.
  destruct (as_message_validated v Hv) as (m' & Hm' & E1 & E2 & E3 & E4).
  rewrite Hm in Hm'. injection Hm' as <-.
  destruct (validateMessage_Ok v Hv) as (_ & _ & (t & ts & Ets & Hp & Hs) & _).
  rewrite E3 in Ets. injection Ets as <-.
  rewrite classify_eq in Hr.
  apply classifyMessage_facts in Hr as (F1 & F2 & F3 & F4 & _).
  cbn [Metadata.chat_id Metadata.sender_id Metadata.timestamp] in F1, F2, F3.
  rewrite (Hc _ _ Hp Hs) in F3.
  assert (Ho : exists o, to_output res = Return o)
    by (unfold to_output; rewrite F3; eauto).
  destruct Ho as [o Ho]. exists o. split; [exact Ho|].
  apply to_output_Return in Ho as (t' & Ht' & Ty & C1 & C2 & C3 & C4).
  rewrite F3 in Ht'. injection Ht' as <-. rewrite Hs in C3.
  unfold reports, time_of. rewrite C1, C2, C3, C4, F1, F2, F4.
  split.
  { repeat (split; [assumption|]).
    exists (InputMessage.text m). split; [assumption|reflexivity]. }
  split; [exact Ty|]. exists t. split; [exact Hp|exact (Hc _ _ Hp Hs)].
Qed.

(** The items of a call that resolves on a conforming engine. *)
Lemma process_items (engine : Engine) (clock : Clock) (self : t) (input : jsval)
    (out : SummarizerOutput) (self' : t) :
  conforms engine ->
  process engine clock self input = (Return out, self') ->
  Forall (fun o =>
            (exists t, time_of o = Some t
                       /\ Date_parse engine (ExtractedOutputItem.timestamp o) = Some t)
            /\ exists message,
                 In message (MessageFilter.elements (get input "messages"))
                 /\ admissible input message
                 /\ reports o message
                 /\ exists i text metadata res,
                      get message "text" = JString text
                      /\ classifyMessage (classifyTime clock i) text metadata = Some res
                      /\ ExtractedOutputItem.type o = item_type (item res)
                      /\ (minConfidence (options self) <= confidence res)%Q)
         (extracted_items out).
Proof.
  intros Hc H.
  destruct (process_Return _ _ _ _ _ _ H)
    as (r & classified & items & Hv & Hf & _ & Hall & Hconv & -> & _).
  cbn [extracted_items].
  assert (Hitems : Forall (fun o =>
            (exists t, time_of o = Some t
                       /\ Date_parse engine (ExtractedOutputItem.timestamp o) = Some t)
            /\ exists message,
                 In message (MessageFilter.elements (get input "messages"))
                 /\ admissible input message
                 /\ reports o message
                 /\ exists i text metadata res,
                      get message "text" = JString text
                      /\ classifyMessage (classifyTime clock i) text metadata = Some res
                      /\ ExtractedOutputItem.type o = item_type (item res)
                      /\ (minConfidence (options self) <= confidence res)%Q) items).
  { clear H. induction Hconv as [|res o classified items Ho _ IH]; [constructor|].
    apply Forall_cons_1 in Hall as [(i & v & m & Hin & Hm & Hr & Hg) Hall].
    constructor; [|apply IH, Hall].
    destruct (filtered_message _ _ _ _ _ Hf Hin) as (Hvv & msg & Hmsg & -> & Hadm).
    destruct (classified_item _ _ _ _ _ Hc Hvv Hm Hr) as (o' & Ho' & Hrep & Hty & Ht).
    rewrite Ho in Ho'. injection Ho' as <-.
    split; [exact Ht|]. exists msg. split; [assumption|]. split; [assumption|].
    split; [exact Hrep|].
    destruct (as_message_validated _ Hvv) as (m' & Hm' & _ & _ & _ & E4).
    rewrite Hm in Hm'. injection Hm' as <-.
    rewrite classify_eq in Hr.
    exists i, (InputMessage.text m). eexists. exists res.
    split; [exact E4|]. split; [exact Hr|]. split; [exact Hty|].
    unfold geb in Hg. apply negb_true_iff, ltb_ge in Hg. exact Hg. }
  destruct (sortByTimestamp (options self)); [|exact Hitems].
  eapply Permutation_Forall; [|exact Hitems]. symmetry. apply sort_Permutation.
Qed.

(** On a conforming engine the conversion of the results does not throw. *)
Lemma convert_returns (engine : Engine) (clock : Clock) (mf mf' : MessageFilter.t)
    (input : jsval) (r : MessageFilter.FilterResult) (classified : list ClassificationResult) :
  conforms engine ->
  MessageFilter.filter mf (filterInput input) = (MessageFilter.Ok r, mf') ->
  Forall (fun res => exists i v m,
            In v (MessageFilter.messages r) /\ as_message v = Some m
            /\ classify engine (classifyTime clock i) m = Some res) classified ->
  exists items, convertToOutputFormat classified = Return items.
Proof.
  intros Hc Hf Hall. apply map_completion_returns.
  eapply Forall_impl; [exact Hall|]. intros res (i & v & m & Hin & Hm & Hr).
  destruct (filtered_message _ _ _ _ _ Hf Hin) as (Hvv & _).
  destruct (classified_item _ _ _ _ _ Hc Hvv Hm Hr) as (o & Ho & _). eauto.
Qed.

Lemma not_after_trans (a b c : ExtractedOutputItem.t) :
  not_after a b -> not_after b c -> not_after a c.
Proof.
  intros (x & y & Hx & Hy & Hxy) (y' & z & Hy' & Hz & Hyz).
  rewrite Hy in Hy'. injection Hy' as <-. exists x, z. repeat split; [assumption..|lia].
Qed.

Lemma filter_length_Permutation {A : Type} (f : A -> bool) (l l' : list A) :
  l ≡ₚ l' -> length (List.filter f l) = length (List.filter f l').
Proof.
  induction 1 as [|x l l' _ IH|x y l|l l' l'' _ IH1 _ IH2]; cbn [List.filter].
  - reflexivity.
  - destruct (f x); cbn [length]; congruence.
  - destruct (f x), (f y); reflexivity.
  - congruence.
Qed.

Lemma count_total (l : list ClassificationResult) :
  (count homework l + count schedule_change l + count announcement l)%Z
  = Z.of_nat (length l).
Proof.
  induction l as [|r l IH]; [reflexivity|].
  rewrite !count_cons. unfold has_type. cbn [length].
  destruct (item_type (item r)); lia.
Qed.

Lemma classifyMessages_from_options (engine : Engine) (clock : Clock)
    (messages : list InputMessage.t) :
  forall (index : nat) (results : list ClassificationResult) (self1 self2 : t),
    options self1 = options self2 ->
    fst (classifyMessages_from engine clock index messages results self1)
    = fst (classifyMessages_from engine clock index messages results self2).
Proof.
  induction messages as [|message rest IH]; intros index results self1 self2 Ho;
    cbn [classifyMessages_from]; [reflexivity|].
  destruct (classify engine (classifyTime clock index) message) as [r|]; [|apply IH, Ho].
  rewrite Ho. destruct (geb _ _); [|apply IH, Ho].
  apply IH. destruct (count_item_fields self1 (item_type (item r))) as (_ & -> & _).
  destruct (count_item_fields self2 (item_type (item r))) as (_ & -> & _). exact Ho.
Qed.

(** X16.  On a conforming engine [process] resolves exactly on the
    acceptable inputs: [messages] and [subscribed_chats] are arrays, the
    bounds of the period are complete ISO strings with the start before the
    end, and every message has a chat, a sender and a text that are
    non-empty strings and a timestamp that is a complete ISO string.  On any
    other input it rejects with an [Error] whose message starts with
    [Failed to process messages: ], and the filter of the instance is as it
    was. *)
Theorem process_accepts_exactly (engine : Engine) (clock : Clock) (self : t) (input : jsval) :
  conforms engine ->
  (acceptable input <-> exists out, fst (process engine clock self input) = Return out)
  /\ forall error,
       fst (process engine clock self input) = Raise error ->
       (exists cause, error = Error (js "Failed to process messages: " ++ cause))
       /\ messageFilter (snd (process engine clock self input)) = messageFilter self.
Proof.
  intros Hc.
  assert (Hraise : forall error self',
            process engine clock self input = (Raise error, self') ->
            ~ acceptable input
            /\ (exists cause, error = Error (js "Failed to process messages: " ++ cause))
            /\ messageFilter self' = messageFilter self).
  { intros error self' E.
    destruct (process_Raise _ _ _ _ _ _ E) as (e & -> & _ & _ & Hcase).
    destruct Hcase as [(Hv & Hmf & _)|[(Hv & msg & Hfv & Hmf)|(Hv & r & mf & cl & Hf & Hall & Hcv)]].
    - split; [|split; [eauto|assumption]].
      intros Ha. rewrite (validateInput_accepts _ _ Hc Ha) in Hv. discriminate Hv.
    - split; [|split; [eauto|assumption]].
      intros Ha. rewrite (filterInput_accepted _ Ha) in Hfv. discriminate Hfv.
    - destruct (convert_returns _ _ _ _ _ _ _ Hc Hf Hall) as (items & Hitems).
      rewrite Hitems in Hcv. discriminate Hcv. }
  destruct (process engine clock self input) as [[out|error] self'] eqn:E; cbn [fst snd].
  - split; [|intros error H; discriminate H].
    split; [eauto|]. intros _.
    destruct (process_Return _ _ _ _ _ _ E) as (r & _ & _ & Hv & Hf & _).
    eapply accepted_acceptable; [exact Hv|]. eapply filter_validated, Hf.
  - destruct (Hraise _ _ eq_refl) as (Hn & Hcause & Hmf). split.
    + split; [intros Ha; destruct (Hn Ha)|intros (out & H); discriminate H].
    + intros error' [= <-]. split; assumption.
Qed.

(** X17.  On a conforming engine every item [process] returns reports a
    message of the input whose chat is subscribed and whose time lies in the
    period: the item has the chat, the sender and the timestamp of the
    message, letter for letter, and the processed text as its content; its
    type is the one [classifyMessage] gives the text, with a confidence of
    at least [minConfidence]. *)
Theorem process_items_report_messages (engine : Engine) (clock : Clock) (self : t)
    (input : jsval) (out : SummarizerOutput) :
  conforms engine ->
  fst (process engine clock self input) = Return out ->
  Forall (fun o =>
            exists message,
              In message (MessageFilter.elements (get input "messages"))
              /\ admissible input message
              /\ reports o message
              /\ exists i text metadata res,
                   get message "text" = JString text
                   /\ classifyMessage (classifyTime clock i) text metadata = Some res
                   /\ ExtractedOutputItem.type o = item_type (item res)
                   /\ (minConfidence (options self) <= confidence res)%Q)
         (extracted_items out).
Proof.
  intros Hc H. destruct (process engine clock self input) as [res self'] eqn:E.
  cbn [fst] in H. subst res.
  eapply Forall_impl; [exact (process_items _ _ _ _ _ _ Hc E)|].
  intros o [_ Ho]. exact Ho.
Qed.

(** X18.  With [sortByTimestamp] the items come in the order of their
    times, on a conforming engine: each item is not after the ones that
    follow it. *)
Theorem process_sorts_by_time (engine : Engine) (clock : Clock) (self : t)
    (input : jsval) (out : SummarizerOutput) :
  conforms engine ->
  sortByTimestamp (options self) = true ->
  fst (process engine clock self input) = Return out ->
  StronglySorted not_after (extracted_items out).
Proof.
  intros Hc Hsort H. destruct (process engine clock self input) as [res self'] eqn:E.
  cbn [fst] in H. subst res.
  pose proof (process_items _ _ _ _ _ _ Hc E) as Hitems.
  destruct (process_Return _ _ _ _ _ _ E) as (_ & _ & items & _ & _ & _ & _ & _ & -> & _).
  cbn [extracted_items] in *. rewrite Hsort in *.
  eapply (sort_sorted (by_timestamp engine)
            (fun o => exists t, time_of o = Some t
                                /\ Date_parse engine (ExtractedOutputItem.timestamp o) = Some t)).
  - exact not_after_trans.
  - intros a b (x & Hx & Ex) (y & Hy & Ey). unfold by_timestamp. rewrite Ex, Ey. split.
    + intros Hle. apply Z.leb_le in Hle. exists x, y. repeat split; [assumption..|lia].
    + intros Hgt. apply Z.leb_gt in Hgt. exists y, x. repeat split; [assumption..|lia].
  - eapply Permutation_Forall; [apply sort_Permutation|].
    eapply Forall_impl; [exact Hitems|]. intros o [Ho _]. exact Ho.
Qed.

(** X19.  The statistics after a call that has resolved are those of this
    call alone: [totalMessages] is the number of messages of the input,
    [classifiedMessages] the number of items returned, each counter of
    [itemsByType] the number of items of its type, so the three add up to
    [classifiedMessages]; no more messages are classified than have passed
    the filter, and no more have passed than were given; [processingTime]
    is the time between the two readings of the clock. *)
Theorem process_statistics (engine : Engine) (clock : Clock) (self : t) (input : jsval)
    (out : SummarizerOutput) :
  fst (process engine clock self input) = Return out ->
  let st := getStats (snd (process engine clock self input)) in
  totalMessages st = Z.of_nat (length (MessageFilter.elements (get input "messages")))
  /\ classifiedMessages st = Z.of_nat (length (extracted_items out))
  /\ ItemsByType.homework (itemsByType st) = items_of_type homework (extracted_items out)
  /\ ItemsByType.schedule_change (itemsByType st)
     = items_of_type schedule_change (extracted_items out)
  /\ ItemsByType.announcement (itemsByType st)
     = items_of_type announcement (extracted_items out)
  /\ (ItemsByType.homework (itemsByType st) + ItemsByType.schedule_change (itemsByType st)
      + ItemsByType.announcement (itemsByType st) = classifiedMessages st)%Z
  /\ (classifiedMessages st <= filteredMessages st <= totalMessages st)%Z
  /\ processingTime st = (endTime clock - startTime clock)%Z.
Proof.
  intros H. destruct (process engine clock self input) as [res self'] eqn:E.
  cbn [fst snd] in *. subst res. unfold getStats. cbv zeta.
  destruct (process_Return _ _ _ _ _ _ E)
    as (r & classified & items & _ & Hf & Hl & _ & Hconv & -> & _ & H1 & H2 & H3 & H4
        & H5 & H6 & H7).
  cbn [extracted_items].
  assert (Hperm : (if sortByTimestamp (options self)
                   then sort (by_timestamp engine) items else items) ≡ₚ items)
    by (destruct (sortByTimestamp (options self)); [apply sort_Permutation|reflexivity]).
  assert (Hlen : length classified = length items).
  { clear -Hconv. induction Hconv; cbn [length]; congruence. }
  assert (Hfl : (length (MessageFilter.messages r)
                 <= length (MessageFilter.elements (get input "messages")))%nat).
  { destruct (filter_output_passes _ _ _ _ Hf) as (_ & -> & _).
    etransitivity; [apply sublist_length, first_occurrences_sublist|].
    etransitivity; [apply sublist_length, filter_sublist|].
    change (MessageFilter.elements (get (filterInput input) "messages"))
      with (map whatsapp (MessageFilter.elements (get input "messages"))).
    rewrite length_map. reflexivity. }
  unfold items_of_type. rewrite !(filter_length_Permutation _ _ _ Hperm), (Permutation_length Hperm).
  fold (items_of_type homework items). fold (items_of_type schedule_change items).
  fold (items_of_type announcement items).
  rewrite <- !(count_converted _ _ _ Hconv), H1, H2, H3, H4, H5, H6, H7, <- Hlen.
  pose proof (count_total classified). repeat split; try reflexivity; lia.
Qed.

(** X20.  What [process] returns does not depend on what the instance has
    processed before: two instances with the same options, whatever their
    caches and statistics, give the same output, or the same error. *)
Theorem process_ignores_earlier_calls (engine : Engine) (clock : Clock) (self1 self2 : t)
    (input : jsval) :
  options self1 = options self2 ->
  fst (process engine clock self1 input) = fst (process engine clock self2 input).
Proof.
  intros Ho. unfold process.
  destruct (validateInput engine input) as [[]|e] eqn:Hv; [|reflexivity].
  cbv zeta. destruct (validateInput_Return _ _ Hv) as (_ & _ & Hobj).
  rewrite !filterMessages_eq
    by (eapply Forall_impl; [exact Hobj|]; intros msg [Hm _]; exact Hm).
  cbn [resetStats with_stats messageFilter options stats].
  destruct (MessageFilter.validateInput (filterInput input)) as [[]|msg] eqn:Hfv.
  2:{ rewrite !(filter_throws _ _ _ Hfv). reflexivity. }
  pose proof (filter_spec (messageFilter self1) _ Hfv) as F1.
  pose proof (filter_spec (messageFilter self2) _ Hfv) as F2. cbv zeta in F1, F2.
  destruct (MessageFilter.filter (messageFilter self1) _) as [r1 mf1].
  destruct (MessageFilter.filter (messageFilter self2) _) as [r2 mf2].
  cbn [fst] in F1, F2. subst r1 r2.
  cbn [with_stats messageFilter options stats MessageFilter.messages].
  unfold classifyMessages.
  match goal with
  | |- context [classifyMessages_from ?e ?c 0%nat ?l [] ?s] =>
    match goal with
    | |- context [classifyMessages_from e c 0%nat l [] ?s'] =>
      lazymatch s' with
      | s => fail
      | _ =>
        pose proof (classifyMessages_from_options e c l 0%nat [] s s' Ho) as Hcl;
        destruct (classifyMessages_from_spec e c l 0%nat [] s) as (_ & _ & _ & _ & _ & O1 & _);
        destruct (classifyMessages_from_spec e c l 0%nat [] s') as (_ & _ & _ & _ & _ & O2 & _);
        destruct (classifyMessages_from e c 0%nat l [] s) as [cl1 s1];
        destruct (classifyMessages_from e c 0%nat l [] s') as [cl2 s2]
      end
    end
  end.
  cbn [fst snd with_stats options] in Hcl, O1, O2. subst cl2.
  destruct (convertToOutputFormat cl1); [|reflexivity].
  cbn [with_stats options fst]. rewrite O1, O2, Ho. reflexivity.
Qed.

End SummarizerFurther.

Section SummarizerWitnesses.
Import FilterSpec FilterProps SummarizerProps SummarizerExamples.
Import ContentClassifier SchoolChatSummarizer.

Lemma process_accepts_exactly_witness :
  (acceptable week <-> exists out, fst (process strict clock summarizer week) = Return out)
  /\ forall error,
       fst (process strict clock summarizer week) = Raise error ->
       (exists cause, error = Error (js "Failed to process messages: " ++ cause))
       /\ messageFilter (snd (process strict clock summarizer week)) = messageFilter summarizer.
Proof.
  apply (process_accepts_exactly strict clock summarizer week).
  intros s t H _. exact H.
Defined.

Lemma process_items_report_messages_witness :
  Forall (fun o =>
            exists message,
              In message (MessageFilter.elements (get week "messages"))
              /\ admissible week message
              /\ reports o message
              /\ exists i text metadata res,
                   get message "text" = JString text
                   /\ classifyMessage (classifyTime clock i) text metadata = Some res
                   /\ ExtractedOutputItem.type o = item_type (item res)
                   /\ (minConfidence (options summarizer) <= confidence res)%Q)
         (extracted_items week_output).
Proof.
  apply (process_items_report_messages strict clock summarizer week week_output).
  - intros s t H _. exact H.
  - vm_compute. reflexivity.
Defined.

Lemma process_sorts_by_time_witness :
  StronglySorted not_after (extracted_items week_output).
Proof.
  apply (process_sorts_by_time strict clock summarizer week week_output).
  - intros s t H _. exact H.
  - reflexivity.
  - vm_compute. reflexivity.
Defined.

Lemma process_statistics_witness :
  let st := getStats (snd (process strict clock summarizer week)) in
  totalMessages st = Z.of_nat (length (MessageFilter.elements (get week "messages")))
  /\ classifiedMessages st = Z.of_nat (length (extracted_items week_output))
  /\ ItemsByType.homework (itemsByType st) = items_of_type homework (extracted_items week_output)
  /\ ItemsByType.schedule_change (itemsByType st)
     = items_of_type schedule_change (extracted_items week_output)
  /\ ItemsByType.announcement (itemsByType st)
     = items_of_type announcement (extracted_items week_output)
  /\ (ItemsByType.homework (itemsByType st) + ItemsByType.schedule_change (itemsByType st)
      + ItemsByType.announcement (itemsByType st) = classifiedMessages st)%Z
  /\ (classifiedMessages st <= filteredMessages st <= totalMessages st)%Z
  /\ processingTime st = (endTime clock - startTime clock)%Z.
Proof.
  apply (process_statistics strict clock summarizer week week_output).
  vm_compute. reflexivity.
Defined.

Lemma process_ignores_earlier_calls_witness :
  fst (process strict clock summarizer week) = fst (process strict clock used week).
Proof.
  apply (process_ignores_earlier_calls strict clock summarizer used week).
  reflexivity.
Defined.

End SummarizerWitnesses.

(* ===================================================================== *)
(** * The strings of [toISOString] *)
(* ===================================================================== *)

Section ISOStrings.
Import FilterSpec.
Local Open Scope Z_scope.
Local Arguments js : simpl never.

Lemma digits_step (w : nat) :
  forall (s : str) (acc a : Z) (c : N) (r : str),
    digits w s acc = Some (a, c :: r) -> is_digit c = true ->
    digits (S w) s acc = Some (a * 10 + (Z.of_N c - 48), r).
Proof.
  induction w as [|w IH]; intros s acc a c r H Hc.
  - cbn [digits] in H. injection H as <- ->. cbn [digits]. rewrite Hc. reflexivity.
  - cbn [digits] in H. destruct s as [|c0 s']; [discriminate H|].
    destruct (is_digit c0) eqn:E0; [|discriminate H].
    apply IH in H; [|assumption].
    change (digits (S (S w)) (c0 :: s') acc)
      with (if is_digit c0 then digits (S w) s' (acc * 10 + (Z.of_N c0 - 48)) else None).
    rewrite E0. exact H.
Qed.

Lemma digit_of (k : Z) :
  0 <= k < 10 -> is_digit (Z.to_N (48 + k)) = true /\ Z.of_N (Z.to_N (48 + k)) - 48 = k.
Proof.
  intros H.
  assert (Hc : k = 0 \/ k = 1 \/ k = 2 \/ k = 3 \/ k = 4 \/ k = 5 \/ k = 6 \/ k = 7
               \/ k = 8 \/ k = 9) by lia.
  repeat (destruct Hc as [->|Hc]; [split; reflexivity|]). subst k. split; reflexivity.
Qed.

(** Reading back what [pad] prints. *)
Lemma digits_pad (w : nat) :
  forall (n : Z) (rest : str) (acc : Z),
    0 <= n < 10 ^ Z.of_nat w ->
    digits w (pad w n ++ rest) acc = Some (acc * 10 ^ Z.of_nat w + n, rest).
Proof.
  induction w as [|w IH]; intros n rest acc Hn.
  - cbn [pad digits app]. f_equal. f_equal. change (10 ^ Z.of_nat 0) with 1 in *. lia.
  - rewrite Nat2Z.inj_succ, Z.pow_succ_r in * by lia.
    cbn [pad]. rewrite <- app_assoc. cbn [app].
    destruct (digit_of (n mod 10)) as [Hd Hv]; [apply Z.mod_pos_bound; lia|].
    rewrite (digits_step w _ acc _ _ _ (IH (n / 10) _ acc ltac:(div_lia)) Hd).
    rewrite Hv. f_equal. f_equal. div_lia.
Qed.

Lemma pad_head (w : nat) (n : Z) :
  exists c r, pad (S w) n = c :: r /\ is_digit c = true.
Proof.
  revert n. induction w as [|w IH]; intros n.
  - cbn [pad app]. eexists _, _. split; [reflexivity|].
    apply digit_of, Z.mod_pos_bound. lia.
  - destruct (IH (n / 10)) as (c & r & E & Hc).
    change (pad (S (S w)) n) with (pad (S w) (n / 10) ++ [Z.to_N (48 + n mod 10)]).
    rewrite E. cbn [app]. eauto.
Qed.

Lemma iso_year_digits (y : Z) (rest : str) :
  0 <= y <= 9999 -> iso_year (pad 4 y ++ rest) = Some (y, rest).
Proof.
  intros Hy. destruct (pad_head 3 y) as (c & r & E & Hc).
  unfold iso_year. rewrite E. cbn [app].
  assert (Hd : (c =? 43)%N = false /\ (c =? 45)%N = false).
  { apply is_digit_cases in Hc.
    repeat (destruct Hc as [->|Hc]; [split; reflexivity|]). subst c. split; reflexivity. }
  destruct Hd as [H43 H45]. apply N.eqb_neq in H43, H45.
  transitivity (digits 4 (c :: r ++ rest) 0).
  { destruct c as [|p]; [reflexivity|].
    do 6 (destruct p as [p|p|]; try reflexivity); congruence. }
  change (c :: r ++ rest) with ((c :: r) ++ rest). rewrite <- E.
  rewrite digits_pad by (change (10 ^ Z.of_nat 4) with 10000; lia). reflexivity.
Qed.

Lemma iso_year_signed (y : Z) (rest : str) :
  y < 0 \/ 9999 < y -> -1000000 < y < 1000000 ->
  iso_year ((if y <? 0 then js "-" else js "+") ++ pad 6 (Z.abs y) ++ rest) = Some (y, rest).
Proof.
  intros Hs Hy. unfold iso_year.
  destruct (Z.ltb_spec y 0) as [Hneg|Hpos].
  - change (js "-") with [45%N]. cbn [app].
    rewrite digits_pad by (change (10 ^ Z.of_nat 6) with 1000000; lia).
    cbn [mbind option_bind]. rewrite Z.mul_0_l, Z.add_0_l.
    destruct (Z.eqb_spec (Z.abs y) 0) as [E|E]; [lia|]. f_equal. f_equal. lia.
  - change (js "+") with [43%N]. cbn [app].
    rewrite digits_pad by (change (10 ^ Z.of_nat 6) with 1000000; lia).
    f_equal. f_equal. lia.
Qed.

Lemma expect_head (c : string) (a : N) (rest : str) :
  js c = [a] -> expect c (js c ++ rest) = Some rest.
Proof. intros E. unfold expect. rewrite E. cbn [app]. rewrite N.eqb_refl. reflexivity. Qed.

Lemma year_range (t : Z) :
  -8640000000000000 <= t <= 8640000000000000 -> -300000 < getFullYear t < 300000.
Proof.
  intros Ht. unfold getFullYear.
  pose proof (year_of_day_spec (Day t)) as [Hlo Hhi].
  assert (Hd : -100000000 <= Day t <= 100000000) by (unfold Day, msPerDay; div_lia).
  split.
  - destruct (Z_lt_le_dec (-300000) (YearFromDay (Day t))) as [H|H]; [assumption|].
    pose proof (DayFromYear_mono (YearFromDay (Day t) + 1) (-299999) ltac:(lia)) as Hm.
    change (DayFromYear (-299999)) with (-110291912) in Hm. lia.
  - destruct (Z_lt_le_dec (YearFromDay (Day t)) 300000) as [H|H]; [assumption|].
    pose proof (DayFromYear_mono 300000 (YearFromDay (Day t)) H) as Hm.
    change (DayFromYear 300000) with 108853222 in Hm. lia.
Qed.

Lemma DateFromDay_le (d : Z) : DateFromDay d <= 31.
Proof.
  pose proof (MonthFromDay_bounds d) as H. cbv zeta in H.
  pose proof (MonthFromDay_range d) as Hm.
  rewrite (monthStart_succ (YearFromDay d)) in H by assumption.
  pose proof (DaysInMonth_range (YearFromDay d) (MonthFromDay d) Hm).
  unfold DateFromDay. lia.
Qed.

(** What [toISOString] prints is read back as the time it was printed
    from. *)
Lemma Date_parse_toISOString (t : Z) :
  -8640000000000000 <= t <= 8640000000000000 -> Date_parse (toISOString t) = Some t.
Proof.
  intros Ht. pose proof (year_range t Ht) as Hy.
  pose proof (MonthFromDay_range (Day t)) as Hm.
  pose proof (DateFromDay_pos (Day t)) as Hd1. pose proof (DateFromDay_le (Day t)) as Hd2.
  assert (Htod : 0 <= TimeWithinDay t < 86400000)
    by (unfold TimeWithinDay, msPerDay; apply Z.mod_pos_bound; lia).
  unfold toISOString, Date_parse. cbv zeta.
  fold (getMonth t) in Hm. fold (getDate t) in Hd1, Hd2.
  set (tod := TimeWithinDay t) in *.
  assert (Hyear :
    forall rest,
      iso_year ((if (0 <=? getFullYear t) && (getFullYear t <=? 9999)
                 then pad 4 (getFullYear t)
                 else (if getFullYear t <? 0 then js "-" else js "+")
                      ++ pad 6 (Z.abs (getFullYear t))) ++ rest)
      = Some (getFullYear t, rest)).
  { intros rest. destruct (Z.leb_spec 0 (getFullYear t)) as [H0|H0]; cbn [andb].
    - destruct (Z.leb_spec (getFullYear t) 9999) as [H1|H1].
      + apply iso_year_digits. lia.
      + rewrite <- app_assoc. apply iso_year_signed; lia.
    - rewrite <- app_assoc. apply iso_year_signed; lia. }
  rewrite Hyear. cbn [mbind option_bind].
  rewrite (expect_head "-" 45%N) by reflexivity. cbn [mbind option_bind].
  rewrite digits_pad by (change (10 ^ Z.of_nat 2) with 100; lia). cbn [mbind option_bind].
  rewrite (expect_head "-" 45%N) by reflexivity. cbn [mbind option_bind].
  rewrite digits_pad by (change (10 ^ Z.of_nat 2) with 100; lia). cbn [mbind option_bind].
  rewrite (expect_head "T" 84%N) by reflexivity. cbn [mbind option_bind].
  rewrite digits_pad by (change (10 ^ Z.of_nat 2) with 100; div_lia). cbn [mbind option_bind].
  rewrite (expect_head ":" 58%N) by reflexivity. cbn [mbind option_bind].
  rewrite digits_pad by (change (10 ^ Z.of_nat 2) with 100; div_lia). cbn [mbind option_bind].
  rewrite (expect_head ":" 58%N) by reflexivity. cbn [mbind option_bind].
  rewrite digits_pad by (change (10 ^ Z.of_nat 2) with 100; div_lia). cbn [mbind option_bind].
  rewrite (expect_head "." 46%N) by reflexivity. cbn [mbind option_bind].
  rewrite digits_pad by (change (10 ^ Z.of_nat 3) with 1000; div_lia). cbn [mbind option_bind].
  replace (js "Z") with (js "Z" ++ []) by apply app_nil_r.
  rewrite (expect_head "Z" 90%N) by reflexivity. cbn [mbind option_bind].
  rewrite !Z.mul_0_l, !Z.add_0_l.
  replace ((1 <=? getMonth t + 1) && (getMonth t + 1 <=? 12) && (1 <=? getDate t)
           && (getDate t <=? 31) && (tod / 60000 mod 60 <=? 59) && (tod / 1000 mod 60 <=? 59)
           && ((tod / 3600000 <=? 23)
               || (tod / 3600000 =? 24) && (tod / 60000 mod 60 =? 0)
                  && (tod / 1000 mod 60 =? 0) && (tod mod 1000 =? 0)))
    with true.
  2:{ symmetry. rewrite !andb_true_iff, orb_true_iff, !Z.leb_le.
      repeat split; try lia; try div_lia; left; div_lia. }
  rewrite Z.add_simpl_r. unfold getFullYear, getMonth, getDate. rewrite MakeDay_of_day.
  replace (MakeTime (tod / 3600000) (tod / 60000 mod 60) (tod / 1000 mod 60) (tod mod 1000))
    with tod by (unfold MakeTime; div_lia).
  replace (MakeDate (Day t) tod) with t
    by (unfold MakeDate, Day, tod, TimeWithinDay, msPerDay; div_lia).
  unfold TimeClip. destruct (Z.ltb_spec 8640000000000000 (Z.abs t)); [lia|reflexivity].
Qed.

Lemma Date_parse_range (s : str) (t : Z) :
  Date_parse s = Some t -> -8640000000000000 <= t <= 8640000000000000.
Proof.
  unfold Date_parse. intros H.
  repeat match type of H with
         | mbind _ ?e = Some _ =>
           let E := fresh "E" in
           destruct e as [[? ?]|] eqn:E; cbn [mbind option_bind] in H; [|discriminate H]
         | mbind _ ?e = Some _ =>
           let E := fresh "E" in
           destruct e as [?|] eqn:E; cbn [mbind option_bind] in H; [|discriminate H]
         end.
  match type of H with match ?r with _ => _ end = _ => destruct r; [|discriminate H] end.
  destruct (_ && _) in H; [|discriminate H].
  unfold TimeClip in H.
  match type of H with
  | (if ?a <? ?b then _ else _) = _ => destruct (Z.ltb_spec a b); [discriminate H|]
  end.
  injection H as <-. lia.
Qed.

(** X21.  The timestamps the filter accepts are exactly the strings that
    [toISOString] prints for the time values of valid dates: a string is
    accepted if and only if it is [new Date(t).toISOString()] for a [t]
    of at most 8 640 000 000 000 000 milliseconds either side of the
    epoch. *)
Theorem isValidTimestamp_accepts_ISO_strings (v : jsval) :
  MessageFilter.isValidTimestamp v = true
  <-> exists t, -8640000000000000 <= t <= 8640000000000000 /\ v = JString (toISOString t).
Proof.
  rewrite isValidTimestamp_iff. unfold valid_timestamp, round_trips. split.
  - intros (t & s & -> & Hp & <-). exists t. split; [|reflexivity].
    eapply Date_parse_range, Hp.
  - intros (t & Ht & ->). exists t, (toISOString t).
    split; [reflexivity|]. split; [|reflexivity]. apply Date_parse_toISOString, Ht.
Qed.

End ISOStrings.

(* ===================================================================== *)
(** * What the summarizer does not lose *)
(* ===================================================================== *)

Section SummarizerComplete.
Import Double DoubleSpec ClassifierSpec FilterSpec FilterProps SummarizerProps ClassifierProps.
Import ContentExtractor ContentClassifier SchoolChatSummarizer.
Local Arguments js : simpl never.

Lemma createScheduleChangeItem_verdict (text message : str) (metadata : Metadata.t)
    (subjects : list str) (dates : list Date) (c : Double.number) :
  item_type (item (createScheduleChangeItem text message metadata subjects dates c))
  = schedule_change
  /\ confidence (createScheduleChangeItem text message metadata subjects dates c) = c.
Proof.
  unfold createScheduleChangeItem. cbv zeta.
  destruct (if _ : bool then (_, _) else _) as [original_time new_time].
  split; reflexivity.
Qed.

(** The type and the confidence of a result, which depend on the text
    alone, not on the time of the call or on the metadata. *)
Lemma classifyMessage_verdict (now : Z) (message : str) (metadata : Metadata.t)
    (r : ClassificationResult) :
  classifyMessage now message metadata = Some r ->
  let text := processed message in
  (calculateImportance text <? Double.lit 0.1)%D = false
  /\ (item_type (item r), confidence r)
     = if (calculateHomeworkScore text >? Double.lit 0.6)%D
       then (homework, calculateHomeworkScore text)
       else if (calculateScheduleChangeScore text >? Double.lit 0.6)%D
            then (schedule_change, calculateScheduleChangeScore text)
            else (announcement, calculateAnnouncementScore text (calculateImportance text)).
Proof.
  destruct (classifyMessage_unfold now message metadata) as (e & _ & _ & ->). cbv zeta.
  generalize (calculateAnnouncementScore (processed message)
                (calculateImportance (processed message))) as an.
  generalize (calculateScheduleChangeScore (processed message)) as sc.
  generalize (calculateHomeworkScore (processed message)) as hw.
  generalize (calculateImportance (processed message)) as importance.
  generalize (processed message) as text.
  intros text importance hw sc an.
  destruct (importance <? Double.lit 0.1)%D; [intros H; discriminate H|].
  split; [reflexivity|]. revert H.
  destruct (hw >? Double.lit 0.6)%D.
  { intros [= <-]. reflexivity. }
  destruct (sc >? Double.lit 0.6)%D.
  { intros [= <-].
    destruct (createScheduleChangeItem_verdict text message metadata (subjects e) (dates e) sc)
      as [-> ->]. reflexivity. }
  destruct (an >? Double.lit 0.4)%D; [|intros H; discriminate H].
  intros [= <-]. reflexivity.
Qed.

Lemma classifyMessage_is_Some (now : Z) (message : str) (metadata : Metadata.t) :
  let text := processed message in
  (calculateImportance text <? Double.lit 0.1)%D = false ->
  (calculateHomeworkScore text >? Double.lit 0.6)%D
  || (calculateScheduleChangeScore text >? Double.lit 0.6)%D
  || (calculateAnnouncementScore text (calculateImportance text) >? Double.lit 0.4)%D = true ->
  exists r, classifyMessage now message metadata = Some r.
Proof.
  destruct (classifyMessage_unfold now message metadata) as (e & _ & _ & ->). cbv zeta.
  intros ->.
  destruct (calculateHomeworkScore _ >? _)%D; [eauto|].
  destruct (calculateScheduleChangeScore _ >? _)%D; [eauto|].
  destruct (calculateAnnouncementScore _ _ >? _)%D; [eauto|].
  intros H; discriminate H.
Qed.

Lemma classifyMessage_invariant (now now' : Z) (message : str) (metadata metadata' : Metadata.t)
    (r : ClassificationResult) :
  classifyMessage now message metadata = Some r ->
  exists r', classifyMessage now' message metadata' = Some r'
             /\ item_type (item r') = item_type (item r)
             /\ confidence r' = confidence r.
Proof.
  intros H. destruct (classifyMessage_verdict _ _ _ _ H) as [Hi Hv]. cbv zeta in Hi, Hv.
  destruct (classifyMessage_is_Some now' message metadata') as [r' Hr'].
  - exact Hi.
  - destruct (classifyMessage_unfold now message metadata) as (e & _ & _ & E).
    rewrite E in H. cbv zeta in H. rewrite Hi in H.
    destruct (calculateHomeworkScore _ >? _)%D; [reflexivity|].
    destruct (calculateScheduleChangeScore _ >? _)%D; [reflexivity|].
    destruct (calculateAnnouncementScore _ _ >? _)%D; [reflexivity|discriminate H].
  - exists r'. split; [exact Hr'|].
    destruct (classifyMessage_verdict _ _ _ _ Hr') as [_ Hv']. cbv zeta in Hv'.
    rewrite <- Hv in Hv'. injection Hv' as -> ->. split; reflexivity.
Qed.

(** The loop classifies every message: one that is classified with enough
    confidence at any time leaves a result. *)
Lemma classifyMessages_from_complete (engine : Engine) (clock : Clock)
    (P : ClassificationResult -> Prop) (m : InputMessage.t) (messages : list InputMessage.t) :
  In m messages ->
  forall (index : nat) (results : list ClassificationResult) (self : t),
    (forall now, exists res,
        classify engine now m = Some res /\ P res
        /\ geb (confidence res) (minConfidence (options self)) = true) ->
    exists res i,
      In res (fst (classifyMessages_from engine clock index messages results self))
      /\ classify engine (classifyTime clock i) m = Some res /\ P res.
Proof.
  induction messages as [|x rest IH]; intros Hin index results self Hm; [destruct Hin|].
  destruct Hin as [->|Hin].
  - destruct (Hm (classifyTime clock index)) as (res & Hr & HP & Hg).
    cbn [classifyMessages_from]. rewrite Hr, Hg.
    destruct (classifyMessages_from_spec engine clock rest (S index) (results ++ [res])
                (count_item self (item_type (item res)))) as (new & -> & _).
    exists res, index. split; [|split; assumption].
    rewrite <- app_assoc. apply in_or_app. right. left. reflexivity.
  - cbn [classifyMessages_from].
    destruct (classify engine (classifyTime clock index) x) as [r|]; [|apply IH; assumption].
    destruct (geb (confidence r) (minConfidence (options self))); [|apply IH; assumption].
    apply IH; [assumption|].
    destruct (count_item_fields self (item_type (item r))) as (_ & -> & _). exact Hm.
Qed.

(** The results of a call that resolves are those of the loop over the
    messages the filter returns. *)
Lemma process_classified (engine : Engine) (clock : Clock) (self : t) (input : jsval)
    (out : SummarizerOutput) (self' : t) :
  process engine clock self input = (Return out, self') ->
  exists (r : MessageFilter.FilterResult) (mf : MessageFilter.t) (self1 : t)
         (items : list ExtractedOutputItem.t),
    MessageFilter.filter (messageFilter self) (filterInput input) = (MessageFilter.Ok r, mf)
    /\ options self1 = options self
    /\ Forall2 (fun res o => to_output res = Return o)
         (fst (classifyMessages_from engine clock 0
                 (omap as_message (MessageFilter.messages r)) [] self1)) items
    /\ extracted_items out ≡ₚ items.
Proof.
  unfold process. destruct (validateInput engine input) as [[]|e] eqn:Hv;
    [|intros H; discriminate H].
  cbv zeta.
  destruct (validateInput_Return _ _ Hv) as (Hm & Hs & Hobj).
  rewrite filterMessages_eq
    by (eapply Forall_impl; [exact Hobj|]; intros msg [Ho _]; exact Ho).
  cbn [resetStats with_stats messageFilter options stats].
  destruct (MessageFilter.filter _ _) as [[r|msg] mf] eqn:Hf; [|intros H; discriminate H].
  cbn [with_stats messageFilter options stats totalMessages filteredMessages
       classifiedMessages itemsByType processingTime no_stats].
  unfold classifyMessages.
  match goal with
  | |- context [classifyMessages_from ?e ?c 0%nat ?l [] ?s] =>
    set (self1 := s) in *;
    assert (Ho : options self1 = options self) by reflexivity;
    clearbody self1;
    destruct (classifyMessages_from_spec e c l 0%nat [] self1)
      as (_ & _ & _ & _ & _ & Ho2 & _);
    remember (classifyMessages_from e c 0%nat l [] self1) as p eqn:Hp;
    destruct p as [classified s2]
  end.
  cbn [fst snd] in Ho2.
  destruct (convertToOutputFormat classified) as [items|e] eqn:Hc; [|intros H; discriminate H].
  intros [= <- <-]. cbn [extracted_items with_stats options].
  exists r, mf, self1, items. split; [reflexivity|]. split; [exact Ho|].
  split; [rewrite <- Hp; apply map_completion_Return, Hc|].
  rewrite Ho2, Ho.
  destruct (sortByTimestamp (options self)); [apply sort_Permutation|reflexivity].
Qed.

Lemma Forall2_In_left {A B : Type} (R : A -> B -> Prop) (l : list A) (l' : list B) (x : A) :
  Forall2 R l l' -> In x l -> exists y, In y l' /\ R x y.
Proof.
  induction 1 as [|a b l l' Hab _ IH]; intros Hin; [destruct Hin|].
  destruct Hin as [->|Hin].
  - exists b. split; [left; reflexivity|assumption].
  - destruct (IH Hin) as (y & Hy & Hxy). exists y. split; [right; assumption|assumption].
Qed.

(** X22.  On a conforming engine [process] loses nothing: for every message
    of the input that is the first with its key, is from a subscribed chat
    and has its time in the period, and whose text [classifyMessage]
    classifies (at any time, with any metadata) with a confidence of at
    least [minConfidence], there is an item that reports the message, with
    the type of that classification. *)
Theorem process_reports_every_message (engine : Engine) (clock : Clock) (self : t)
    (input : jsval) (out : SummarizerOutput) (l1 : list jsval) (message : jsval)
    (l2 : list jsval) (text : str) (now : Z) (metadata : Metadata.t)
    (res : ClassificationResult) :
  conforms engine ->
  fst (process engine clock self input) = Return out ->
  MessageFilter.elements (get input "messages") = l1 ++ message :: l2 ->
  (forall x, In x l1 -> key_of x <> key_of message) ->
  admissible input message ->
  get message "text" = JString text ->
  classifyMessage now text metadata = Some res ->
  (minConfidence (options self) <= confidence res)%Q ->
  exists o, In o (extracted_items out) /\ reports o message
            /\ ExtractedOutputItem.type o = item_type (item res).
Proof.
  intros Hc H Hl Hfirst Hadm Htext Hres Hconf.
  destruct (process engine clock self input) as [result self'] eqn:E.
  cbn [fst] in H. subst result.
  destruct (process_classified _ _ _ _ _ _ E) as (r & mf & self1 & items & Hf & Ho & Hconv & Hperm).
  destruct (filter_output_passes _ _ _ _ Hf) as (Hfv & Hmsgs & _).
  change (MessageFilter.elements (get (filterInput input) "messages"))
    with (map whatsapp (MessageFilter.elements (get input "messages"))) in Hmsgs.
  assert (Hin0 : In (whatsapp message) (map whatsapp (MessageFilter.elements (get input "messages")))).
  { apply in_map. rewrite Hl. apply in_or_app. right. left. reflexivity. }
  assert (Hpass : passes (filterInput input) (whatsapp message) = true).
  { apply (passes_iff _ _ Hfv Hin0). exact Hadm. }
  assert (Hin : In (whatsapp message) (MessageFilter.messages r)).
  { rewrite Hmsgs, Hl, map_app, List.filter_app. cbn [map List.filter]. rewrite Hpass.
    apply first_occurrences_first; [apply not_elem_of_empty|].
    intros x Hx. apply filter_In in Hx as [Hx _]. apply in_map_iff in Hx as (y & <- & Hy).
    exact (Hfirst y Hy). }
  destruct (filtered_message _ _ _ _ _ Hf Hin) as (Hvv & _).
  destruct (as_message_validated _ Hvv) as (m & Hm & _ & _ & _ & E4).
  change (get (whatsapp message) "text") with (get message "text") in E4.
  rewrite Htext in E4. injection E4 as E4.
  assert (Hinm : In m (omap as_message (MessageFilter.messages r))).
  { apply list_elem_of_In, list_elem_of_omap. exists (whatsapp message).
    split; [apply list_elem_of_In, Hin|exact Hm]. }
  destruct (classifyMessages_from_complete engine clock
              (fun res' => item_type (item res') = item_type (item res)) m _ Hinm 0%nat [] self1)
    as (res' & i & Hin' & Hr' & Hty).
  { intros now'. rewrite classify_eq, <- E4.
    destruct (classifyMessage_invariant now now' text metadata
                {| Metadata.chat_id := InputMessage.chat_id m;
                   Metadata.sender_id := InputMessage.sender_id m;
                   Metadata.timestamp := Date_parse engine (InputMessage.timestamp m) |}
                res Hres) as (r' & Hr' & Hty & Hcf).
    exists r'. split; [exact Hr'|]. split; [exact Hty|].
    unfold geb. rewrite Ho, Hcf. apply negb_true_iff, ltb_ge. exact Hconf. }
  destruct (Forall2_In_left _ _ _ _ Hconv Hin') as (o & Hino & Hto).
  destruct (classified_item _ _ _ _ _ Hc Hvv Hm Hr') as (o' & Ho' & Hrep & Hty' & _).
  rewrite Hto in Ho'. injection Ho' as <-.
  exists o. split; [|split].
  - apply list_elem_of_In. rewrite Hperm. apply list_elem_of_In, Hino.
  - exact Hrep.
  - rewrite Hty'. exact Hty.
Qed.

Lemma as_message_Some (v : jsval) (m : InputMessage.t) :
  as_message v = Some m ->
  get v "chat_id" = JString (InputMessage.chat_id m)
  /\ get v "sender_id" = JString (InputMessage.sender_id m)
  /\ get v "timestamp" = JString (InputMessage.timestamp m)
  /\ get v "text" = JString (InputMessage.text m).
Proof.
  unfold as_message.
  destruct (get v "chat_id"); try (intros H; discriminate H).
  destruct (get v "sender_id"); try (intros H; discriminate H).
  destruct (get v "timestamp"); try (intros H; discriminate H).
  destruct (get v "text"); try (intros H; discriminate H).
  intros [= <-]. repeat split; reflexivity.
Qed.

Lemma single_subscribed (input message : jsval) (m : InputMessage.t) (chats : list str) :
  as_message message = Some m ->
  (forall c, In c chats
             <-> In (JString c) (MessageFilter.elements (get input "subscribed_chats"))) ->
  is_subscribed (filterInput input) (whatsapp message)
  = existsb (str_eqb (InputMessage.chat_id m)) chats.
Proof.
  intros Hm Hchats. destruct (as_message_Some _ _ Hm) as (E1 & _).
  unfold is_subscribed.
  change (get (whatsapp message) "chat_id") with (get message "chat_id"). rewrite E1.
  change (get (filterInput input) "subscribed_chats") with (get input "subscribed_chats").
  apply eq_iff_eq_true.
  rewrite bool_decide_eq_true, subscribed_set, existsb_exists, <- Hchats. split.
  - intros Hin. exists (InputMessage.chat_id m). split; [assumption|].
    apply str_eqb_eq. reflexivity.
  - intros (x & Hx & Ex). apply str_eqb_eq in Ex. subst x. assumption.
Qed.

Lemma single_in_period (input message : jsval) :
  in_period input message ->
  MessageFilter.isMessageInPeriod (whatsapp message) (get (filterInput input) "period") = true.
Proof.
  intros (t & s & e & Ht & Hs & He & Hlt).
  apply (isMessageInPeriod_iff _ _ t s e); assumption.
Qed.

(** What the filter returns for a single message of the period. *)
Lemma single_filtered (mf mf' : MessageFilter.t) (input message : jsval)
    (r : MessageFilter.FilterResult) :
  MessageFilter.filter mf (filterInput input) = (MessageFilter.Ok r, mf') ->
  MessageFilter.elements (get input "messages") = [message] ->
  in_period input message ->
  MessageFilter.messages r
  = if is_subscribed (filterInput input) (whatsapp message) then [whatsapp message] else [].
Proof.
  intros Hf Hl Hper.
  destruct (filter_output_passes _ _ _ _ Hf) as (_ & -> & _).
  change (MessageFilter.elements (get (filterInput input) "messages"))
    with (map whatsapp (MessageFilter.elements (get input "messages"))).
  rewrite Hl. cbn [map List.filter]. unfold passes.
  rewrite (single_in_period _ _ Hper), andb_true_r.
  destruct (is_subscribed (filterInput input) (whatsapp message)); [|reflexivity].
  cbn [first_occurrences]. rewrite bool_decide_eq_false_2 by apply not_elem_of_empty.
  reflexivity.
Qed.

(** The loop on a single message. *)
Lemma classify_single (engine : Engine) (clock : Clock) (self : t) (message : jsval)
    (m : InputMessage.t) :
  as_message message = Some m ->
  fst (classifyMessages_from engine clock 0 (omap as_message [whatsapp message]) [] self)
  = match classify engine (classifyTime clock 0) m with
    | Some res => if geb (confidence res) (minConfidence (options self)) then [res] else []
    | None => []
    end.
Proof.
  intros Hm. cbn [omap list_omap].
  change (as_message (whatsapp message)) with (as_message message). rewrite Hm.
  cbn [classifyMessages_from].
  destruct (classify engine (classifyTime clock 0) m) as [res|]; [|reflexivity].
  destruct (geb (confidence res) (minConfidence (options self))); reflexivity.
Qed.

(** X23.  [processSingleMessage] agrees with [process]: for a message
    whose time lies in the period, it returns what [process] returns for
    the batch of this message alone and the same subscribed chats, the
    item if there is one and [null] if there is none (on a conforming
    engine, the message being classified at the same time). *)
Theorem processSingleMessage_agrees_with_process (engine : Engine) (clock : Clock) (self : t)
    (input : jsval) (out : SummarizerOutput) (message : jsval) (m : InputMessage.t)
    (chats : list str) :
  conforms engine ->
  fst (process engine clock self input) = Return out ->
  MessageFilter.elements (get input "messages") = [message] ->
  as_message message = Some m ->
  in_period input message ->
  (forall c, In c chats
             <-> In (JString c) (MessageFilter.elements (get input "subscribed_chats"))) ->
  processSingleMessage engine (classifyTime clock 0) self m chats
  = Return (head (extracted_items out)).
Proof.
  intros Hc H Hl Hm Hper Hchats.
  destruct (process engine clock self input) as [result self'] eqn:E.
  cbn [fst] in H. subst result.
  destruct (process_classified _ _ _ _ _ _ E) as (r & mf & self1 & items & Hf & Ho & Hconv & Hperm).
  rewrite (single_filtered _ _ _ _ _ Hf Hl Hper), (single_subscribed _ _ _ _ Hm Hchats) in Hconv.
  unfold processSingleMessage.
  destruct (existsb (str_eqb (InputMessage.chat_id m)) chats); cbn [negb].
  - rewrite (classify_single _ _ _ _ _ Hm), Ho in Hconv.
    destruct (classify engine (classifyTime clock 0) m) as [res|].
    + destruct (geb (confidence res) (minConfidence (options self))).
      * destruct (Forall2_cons_inv_l _ _ _ _ Hconv) as (o & items' & Hto & Hnil & Heq).
        subst items. apply Forall2_nil_inv_l in Hnil. subst items'.
        apply Permutation_singleton_r in Hperm. rewrite Hto, Hperm. reflexivity.
      * apply Forall2_nil_inv_l in Hconv. subst items.
        apply Permutation_nil_r in Hperm. rewrite Hperm. reflexivity.
    + apply Forall2_nil_inv_l in Hconv. subst items.
      apply Permutation_nil_r in Hperm. rewrite Hperm. reflexivity.
  - cbn [omap list_omap classifyMessages_from fst] in Hconv.
    apply Forall2_nil_inv_l in Hconv. subst items.
    apply Permutation_nil_r in Hperm. rewrite Hperm. reflexivity.
Qed.

End SummarizerComplete.

Section SummarizerCompleteWitness.
Import FilterSpec FilterProps SummarizerProps SummarizerExamples.
Import ContentClassifier SchoolChatSummarizer.

Lemma process_reports_every_message_witness :
  exists res,
    classifyMessage ClassifierExamples.now ClassifierExamples.due_tomorrow
      ClassifierExamples.metadata = Some res
    /\ exists o, In o (extracted_items week_output)
                 /\ reports o FilterInputs.homework_due
                 /\ ExtractedOutputItem.type o = item_type (item res).
Proof.
  eexists. split; [vm_compute; reflexivity|].
  apply (process_reports_every_message strict clock summarizer week week_output
           [] FilterInputs.homework_due
           [FilterInputs.other_chat; cancelled; Examples.hello; FilterInputs.last_year; slips;
            cancelled]
           ClassifierExamples.due_tomorrow ClassifierExamples.now ClassifierExamples.metadata).
  - intros s t H _. exact H.
  - vm_compute. reflexivity.
  - reflexivity.
  - intros x [].
  - apply (passes_iff week FilterInputs.homework_due);
      [vm_compute; reflexivity|left; reflexivity|vm_compute; reflexivity].
  - vm_compute. reflexivity.
  - vm_compute. reflexivity.
  - vm_compute. discriminate.
Defined.

Lemma processSingleMessage_agrees_with_process_witness :
  processSingleMessage strict (classifyTime clock 0) summarizer homework_due [js "chat_001"]
  = Return (head (extracted_items single_output)).
Proof.
  apply (processSingleMessage_agrees_with_process strict clock summarizer single single_output
           FilterInputs.homework_due homework_due [js "chat_001"]).
  - intros s t H _. exact H.
  - vm_compute. reflexivity.
  - reflexivity.
  - vm_compute. reflexivity.
  - refine (proj2 (proj1 (passes_iff single FilterInputs.homework_due _ _) _));
      [vm_compute; reflexivity|left; reflexivity|vm_compute; reflexivity].
  - intros c. split.
    + intros [<-|[]]. left. vm_compute. reflexivity.
    + intros [E|[]]. left. vm_compute in E. injection E as <-. vm_compute. reflexivity.
Defined.

End SummarizerCompleteWitness.
